(** * smart-product-finder: coordinator, filter and price analysis

    A shallow embedding of the orchestration and aggregation core of the
    repository ([agents/base_agent.py], [agents/coordinator_agent.py],
    [agents/filter_agent.py], [tools/price_validator.py]) together with
    the properties stated about it, followed by the code around that
    core: the product validation of [tools/product_extractor.py], the JD
    and PDD search agents, the search history and the session manager of
    [memory/], and the metrics collector of [logger_config.py].

    Modelling conventions.
    - Product dictionaries are records of optional fields; a missing key
      is [None] and every [dict.get(k, d)] of the source is written
      [default d (field p)].
    - A price is a dynamically typed value ([pyval]): the source guards
      its comparisons with [except (TypeError, ValueError)], so prices
      that are not numbers are part of the input space.  Titles, platform
      tags, urls and shops are texts.
    - A Python [int] is a [Z].  A finite [float] is the rational it
      denotes; values given to the program are ints and finite floats.
      Arithmetic is the interpreter's: ints add exactly, a float sum or
      quotient is the exact result rounded to the nearest binary64
      number, ties to even ([round_double]), a float result beyond the
      binary64 range is an infinity, and converting or dividing ints
      beyond that range raises [OverflowError].  [sum] adds from left
      to right, as the interpreters before version 3.12 do (later ones
      compensate the rounding errors of a float sum, which can change
      the last bit of a float average and nothing else).  The two float
      zeros are not told apart.  Infinities and NaN exist as results of
      arithmetic only ([pyfloat]); [float('inf')] also appears as the
      default sort key, as in the source.
    - A text is a [string], read as the bytes of its UTF-8 encoding:
      equality, lexicographic order and the substring test on the bytes
      are those on the code points.  [str.lower] and [str.strip] follow
      the interpreter's Unicode tables and are parameters ([Text]).
    - Exceptions are values of [exn]; code that can raise returns
      [res A].  Logging is not modelled. *)

From Stdlib Require Import ZArith QArith Qround Qabs Qpower String Ascii List Lia Lqa.
From Stdlib Require Import Sorting.Sorted Sorting.Permutation DecimalString.
From Stdlib Require Import Structures.OrderedTypeEx.
From stdpp Require Import base option list gmap strings.
Import ListNotations.

Local Open Scope string_scope.
Local Open Scope list_scope.

(** ** Python values, exceptions and results *)

Inductive pyval : Type :=
  | VNone
  | VInt (z : Z)
  | VFloat (q : Q)
  | VStr (s : string).

Inductive exn : Type :=
  | TypeError
  | ValueError
  | AttributeError
  | ZeroDivisionError
  | OverflowError
  | IndexError
  | Exception (msg : string).

Inductive res (A : Type) : Type :=
  | OK (a : A)
  | Raise (e : exn).
Arguments OK {A} a.
Arguments Raise {A} e.

#[global] Instance res_ret : MRet res := fun A a => OK a.
#[global] Instance res_bind : MBind res := fun A B k r =>
  match r with
  | OK a => k a
  | Raise e => Raise e
  end.
#[global] Instance res_fmap : FMap res := fun A B f r =>
  match r with
  | OK a => OK (f a)
  | Raise e => Raise e
  end.

(** [for x in l: ...] with a body that may raise. *)
Fixpoint res_map {A B} (f : A -> res B) (l : list A) : res (list B) :=
  match l with
  | [] => OK []
  | x :: l' => y ← f x; ys ← res_map f l'; OK (y :: ys)
  end.

(** The rational denoted by a number; [None] for values that are not
    numbers. *)
Definition as_num (v : pyval) : option Q :=
  match v with
  | VInt z => Some (inject_Z z)
  | VFloat q => Some q
  | _ => None
  end.

(** Truth value of an object ([if max_price:]). *)
Definition truthy (v : pyval) : bool :=
  match v with
  | VNone => false
  | VInt z => negb (Z.eqb z 0)
  | VFloat q => negb (Qeq_bool q 0)
  | VStr s => negb (String.eqb s EmptyString)
  end.

(** ** Ordering comparisons

    A sort key is a value or [float('inf')].  Numbers compare by value,
    strings lexicographically by code point, and every other pairing
    raises [TypeError], [None] against [None] included. *)

Inductive pykey : Type :=
  | KInf
  | KVal (v : pyval).

Definition key_cmp (a b : pykey) : res comparison :=
  match a, b with
  | KInf, KInf => OK Eq
  | KInf, KVal v => match as_num v with Some _ => OK Gt | None => Raise TypeError end
  | KVal v, KInf => match as_num v with Some _ => OK Lt | None => Raise TypeError end
  | KVal (VStr s), KVal (VStr t) => OK (String.compare s t)
  | KVal v, KVal w =>
      match as_num v, as_num w with
      | Some p, Some q => OK (Qcompare p q)
      | _, _ => Raise TypeError
      end
  end.

Definition is_lt (c : comparison) : bool :=
  match c with Lt => true | _ => false end.
Definition is_le (c : comparison) : bool :=
  match c with Gt => false | _ => true end.

(** [a < b], [a <= b] and [a > b] on keys. *)
Definition key_lt (a b : pykey) : res bool := c ← key_cmp a b; OK (is_lt c).
Definition key_le (a b : pykey) : res bool := c ← key_cmp a b; OK (is_le c).

Definition py_lt (a b : pyval) : res bool := key_lt (KVal a) (KVal b).
Definition py_le (a b : pyval) : res bool := key_le (KVal a) (KVal b).
Definition py_gt (a b : pyval) : res bool := key_lt (KVal b) (KVal a).

(** ** Floats

    [round_double x] is the binary64 number nearest to the rational [x],
    ties going to the even significand: significands have 53 bits, the
    unit in the last place is never below [2^-1074], and a rounded
    magnitude of [2^1024] or more is an infinity. *)

Inductive pyfloat : Type :=
  | Finite (q : Q)
  | Infinite (negative : bool)
  | NaN.

Definition pow2 (e : Z) : Q :=
  if (0 <=? e)%Z then inject_Z (2 ^ e) else / inject_Z (2 ^ (- e)).

(** The integer part of the binary logarithm of a positive rational. *)
Definition qlog2 (a : Q) : Z :=
  let k := (Z.log2 (Qnum a) - Z.log2 (Zpos (Qden a)))%Z in
  if Qle_bool (pow2 k) a then k else (k - 1)%Z.

(** The nearest integer, ties to even. *)
Definition rne (t : Q) : Z :=
  let f := Qfloor t in
  match Qcompare (t - inject_Z f) (1 # 2) with
  | Lt => f
  | Gt => (f + 1)%Z
  | Eq => if Z.even f then f else (f + 1)%Z
  end.

Definition round_double (x : Q) : pyfloat :=
  if Qeq_bool x 0 then Finite 0
  else
    let a := Qabs x in
    let e := Z.max (qlog2 a - 52) (-1074) in
    let y := (inject_Z (rne (a / pow2 e)) * pow2 e)%Q in
    if Qle_bool (pow2 1024) y then Infinite (negb (Qle_bool 0 x))
    else Finite (Qred (if Qle_bool 0 x then y else - y)).

Definition float_add (a b : pyfloat) : pyfloat :=
  match a, b with
  | Finite p, Finite q => round_double (p + q)
  | NaN, _ | _, NaN => NaN
  | Infinite s, Infinite t => if Bool.eqb s t then Infinite s else NaN
  | Infinite s, Finite _ | Finite _, Infinite s => Infinite s
  end.

(** [a / b] for a divisor that is not zero. *)
Definition float_div (a b : pyfloat) : pyfloat :=
  match a, b with
  | Finite p, Finite q => round_double (p / q)
  | NaN, _ | _, NaN => NaN
  | Infinite _, Infinite _ => NaN
  | Infinite s, Finite q => Infinite (xorb s (negb (Qle_bool 0 q)))
  | Finite _, Infinite _ => Finite 0
  end.

Definition float_is_zero (a : pyfloat) : bool :=
  match a with
  | Finite q => Qeq_bool q 0
  | _ => false
  end.

(** [float(z)]: [OverflowError] for an int that rounds beyond the
    range. *)
Definition float_of_int (z : Z) : res pyfloat :=
  match round_double (inject_Z z) with
  | Infinite _ => Raise OverflowError
  | f => OK f
  end.

(** ** Arithmetic on numbers: [+], true division [/] and [sum]

    A number met by arithmetic is an int or a float; the floats include
    the results of earlier operations. *)

Inductive pynum : Type :=
  | NInt (z : Z)
  | NFloat (f : pyfloat).

Definition as_pynum (v : pyval) : option pynum :=
  match v with
  | VInt z => Some (NInt z)
  | VFloat q => Some (NFloat (Finite q))
  | _ => None
  end.

Definition to_float (n : pynum) : res pyfloat :=
  match n with
  | NInt z => float_of_int z
  | NFloat f => OK f
  end.

(** Ints add exactly; with a float among the operands an int is
    converted first. *)
Definition num_add (a b : pynum) : res pynum :=
  match a, b with
  | NInt x, NInt y => OK (NInt (x + y))
  | _, _ => x ← to_float a; y ← to_float b; OK (NFloat (float_add x y))
  end.

Definition num_is_zero (n : pynum) : bool :=
  match n with
  | NInt z => (z =? 0)%Z
  | NFloat f => float_is_zero f
  end.

(** The quotient of two ints is the exact quotient rounded once, and
    [OverflowError] when that is beyond the range; otherwise both
    operands are made floats, and the divisor is tested for zero after
    that (an int is zero exactly when its float is). *)
Definition num_truediv (a b : pynum) : res pyfloat :=
  match a, b with
  | NInt x, NInt y =>
      if (y =? 0)%Z then Raise ZeroDivisionError
      else match round_double (inject_Z x / inject_Z y) with
           | Infinite _ => Raise OverflowError
           | f => OK f
           end
  | _, _ =>
      x ← to_float a; y ← to_float b;
      if num_is_zero b then Raise ZeroDivisionError else OK (float_div x y)
  end.

(** [a + b] on values.  In this program [+] meets prices that have
    passed the test [> 0], which are numbers. *)
Definition py_add (a b : pyval) : res pynum :=
  match as_pynum a, as_pynum b with
  | Some x, Some y => num_add x y
  | _, _ => Raise TypeError
  end.

(** [sum(l)]: left fold of [+] from the int [0].  (Interpreters from
    version 3.12 on compensate the rounding errors of a float sum; the
    plain sum of the earlier versions is modelled.) *)
Fixpoint py_sum_from (acc : pynum) (l : list pyval) : res pynum :=
  match l with
  | [] => OK acc
  | v :: l' =>
      match as_pynum v with
      | Some n => acc' ← num_add acc n; py_sum_from acc' l'
      | None => Raise TypeError
      end
  end.
Definition py_sum (l : list pyval) : res pynum := py_sum_from (NInt 0) l.

(** [sum(l) / len(l)] *)
Definition py_mean (l : list pyval) : res pyfloat :=
  total ← py_sum l; num_truediv total (NInt (Z.of_nat (length l))).

(** [min(l)] and [max(l)] of a non-empty list: the first smallest, resp.
    first largest, element; [ValueError] on the empty list. *)
Fixpoint py_min_from (m : pyval) (l : list pyval) : res pyval :=
  match l with
  | [] => OK m
  | v :: l' => b ← py_lt v m; py_min_from (if b : bool then v else m) l'
  end.
Definition py_min (l : list pyval) : res pyval :=
  match l with
  | [] => Raise ValueError
  | v :: l' => py_min_from v l'
  end.

Fixpoint py_max_from (m : pyval) (l : list pyval) : res pyval :=
  match l with
  | [] => OK m
  | v :: l' => b ← py_gt v m; py_max_from (if b : bool then v else m) l'
  end.
Definition py_max (l : list pyval) : res pyval :=
  match l with
  | [] => Raise ValueError
  | v :: l' => py_max_from v l'
  end.

(** A statistic is a value taken from the input or a float computed
    from it. *)
Inductive pystat : Type :=
  | SValue (v : pyval)
  | SFloat (f : pyfloat).

(** ** [sorted(l, key=...)]

    A stable sort that uses only [<] on the keys and raises as soon as a
    comparison raises.  Keys fall into the classes numbers-with-infinity,
    strings and [None]; comparisons across classes and on [None] raise,
    and a comparison sort of two or more elements has to relate every
    element to the others, so which stable algorithm is run does not
    change the outcome.  Insertion from the right is used here. *)

Section Sorted.
Context {A : Type} (key : A -> pykey).

Fixpoint insert_sorted (x : A) (l : list A) : res (list A) :=
  match l with
  | [] => OK [x]
  | y :: l' =>
      b ← key_lt (key y) (key x);
      if b : bool then (r ← insert_sorted x l'; OK (y :: r))
      else OK (x :: y :: l')
  end.

Fixpoint py_sorted (l : list A) : res (list A) :=
  match l with
  | [] => OK []
  | x :: l' => r ← py_sorted l'; insert_sorted x r
  end.
End Sorted.

(** ** Texts: [str.lower], [str.strip], [str(int)]

    [str.lower] and [str.strip] are the interpreter's; both leave the
    empty text empty. *)

Class Text : Type := {
  py_lower : string -> string;
  py_strip : string -> string;
  py_lower_empty : py_lower EmptyString = EmptyString;
  py_strip_empty : py_strip EmptyString = EmptyString
}.

Definition str_of_int (z : Z) : string := NilZero.string_of_int (Z.to_int z).

(** [str(v)] as used by an f-string.  The text of a float is produced by
    the interpreter's shortest-repr algorithm, which is taken as a
    parameter [float_repr]. *)
Definition py_str (float_repr : Q -> string) (v : pyval) : string :=
  match v with
  | VNone => "None"
  | VInt z => str_of_int z
  | VFloat q => float_repr q
  | VStr s => s
  end.

(** ** Lists: indexing and the slice [l[:n]] *)

Definition py_index {A} (l : list A) (i : nat) : res A :=
  match l !! i with
  | Some x => OK x
  | None => Raise IndexError
  end.

(** [l[:n]]: the first [n] elements, or all but the last [-n] when [n]
    is negative. *)
Definition py_take {A} (n : Z) (l : list A) : list A :=
  if (0 <=? n)%Z then firstn (Z.to_nat n) l
  else firstn (length l - Z.to_nat (- n)) l.

(** ** Insertion-ordered dictionaries with string keys *)

(** [d[k] = v]: an existing key keeps its position. *)
Fixpoint dict_set {V} (k : string) (v : V) (d : list (string * V))
    : list (string * V) :=
  match d with
  | [] => [(k, v)]
  | (k', v') :: d' =>
      if String.eqb k k' then (k', v) :: d' else (k', v') :: dict_set k v d'
  end.

Fixpoint dict_get {V} (k : string) (d : list (string * V)) : option V :=
  match d with
  | [] => None
  | (k', v') :: d' => if String.eqb k k' then Some v' else dict_get k d'
  end.

(** ** Data model *)

Record Product : Type := {
  title : option string;
  price : option pyval;
  platform : option string;
  url : option string;
  shop : option string;
  product_brand : option string;
  product_model : option string
}.

Record Criteria : Type := {
  brand : option string;
  model : option string;
  max_price : option pyval
}.

(** Sort keys of [FilterAgent.sort_products] and
    [PriceValidator.find_best_deals]. *)
Definition price_key (x : Product) : pykey :=
  match price x with
  | Some v => KVal v
  | None => KInf
  end.
Definition platform_key (x : Product) : pykey := KVal (VStr (default EmptyString (platform x))).
Definition title_key (x : Product) : pykey := KVal (VStr (default EmptyString (title x))).

(** ** tools/price_validator.py *)

Module PriceValidator.

Record PlatformStats : Type := {
  ps_count : nat;
  ps_average : pyfloat;
  ps_min : pyval;
  ps_max : pyval
}.

Record PriceAnalysis : Type := {
  count : nat;
  min : pyval;
  max : pyval;
  average : pystat;
  median : pystat;
  by_platform : option (list (string * PlatformStats))
}.

(** [0 < price <= max_price] inside [try ... except (TypeError,
    ValueError): return False]. *)
Definition validate_price (price max_price : pyval) : res bool :=
  match (b ← py_lt (VInt 0) price;
         if b : bool then py_le price max_price else OK false) with
  | Raise TypeError | Raise ValueError => OK false
  | r => r
  end.

Fixpoint filter_by_price_loop (products : list Product) (max_price : pyval)
    (filtered : list Product) : res (list Product) :=
  match products with
  | [] => OK filtered
  | product :: rest =>
      let price := default (VInt 0) (price product) in
      b ← validate_price price max_price;
      filter_by_price_loop rest max_price
        (if b : bool then filtered ++ [product] else filtered)
  end.

Definition filter_by_price (products : list Product) (max_price : pyval)
    : res (list Product) :=
  filter_by_price_loop products max_price [].

Definition zero_analysis : PriceAnalysis :=
  {| count := 0; min := VInt 0; max := VInt 0; average := SValue (VInt 0);
     median := SValue (VInt 0); by_platform := None |}.

(** [[p.get('price', 0) for p in products if p.get('price', 0) > 0]] *)
Fixpoint positive_prices (products : list Product) : res (list pyval) :=
  match products with
  | [] => OK []
  | p :: rest =>
      let v := default (VInt 0) (price p) in
      b ← py_gt v (VInt 0);
      r ← positive_prices rest;
      OK (if b : bool then v :: r else r)
  end.

(** [d[k].append(v)], creating the entry at the end of the dictionary
    when [k] is new. *)
Fixpoint group_append (k : string) (v : pyval) (d : list (string * list pyval))
    : list (string * list pyval) :=
  match d with
  | [] => [(k, [v])]
  | (k', vs) :: d' =>
      if String.eqb k k' then (k', vs ++ [v]) :: d'
      else (k', vs) :: group_append k v d'
  end.

Fixpoint group_by_platform (products : list Product)
    (d : list (string * list pyval)) : res (list (string * list pyval)) :=
  match products with
  | [] => OK d
  | product :: rest =>
      let platform := default "unknown" (platform product) in
      let price := default (VInt 0) (price product) in
      b ← py_gt price (VInt 0);
      group_by_platform rest (if b : bool then group_append platform price d else d)
  end.

Definition platform_stats (prices : list pyval) : res PlatformStats :=
  total ← py_sum prices;
  avg ← num_truediv total (NInt (Z.of_nat (length prices)));
  lo ← py_min prices;
  hi ← py_max prices;
  OK {| ps_count := length prices; ps_average := avg; ps_min := lo; ps_max := hi |}.

Definition median_of (prices : list pyval) : res pystat :=
  let count := length prices in
  if (count mod 2 =? 1)%nat then
    m ← py_index prices (count / 2); OK (SValue m)
  else
    a ← py_index prices (count / 2 - 1);
    b ← py_index prices (count / 2);
    s ← py_add a b;
    m ← num_truediv s (NInt 2); OK (SFloat m).

Definition analyze_prices (products : list Product) : res PriceAnalysis :=
  match products with
  | [] => OK zero_analysis
  | _ =>
      prices ← positive_prices products;
      match prices with
      | [] => OK zero_analysis
      | _ =>
          prices ← py_sorted KVal prices;
          let count := length prices in
          median ← median_of prices;
          lo ← py_min prices;
          hi ← py_max prices;
          total ← py_sum prices;
          avg ← num_truediv total (NInt (Z.of_nat count));
          groups ← group_by_platform products [];
          stats ← res_map (fun '(platform, prices) =>
                             st ← platform_stats prices; OK (platform, st)) groups;
          OK {| count := count; min := lo; max := hi; average := SFloat avg;
                median := median; by_platform := Some stats |}
      end
  end.

Definition find_best_deals (products : list Product) (top_n : Z)
    : res (list Product) :=
  match products with
  | [] => OK []
  | _ =>
      sorted_products ← py_sorted price_key products;
      OK (py_take top_n sorted_products)
  end.

End PriceValidator.

(** ** agents/base_agent.py

    An agent is a name and an [execute] method acting on the outside
    world (browser pages, the extraction service), whose state is the
    abstract type [W].  [run] turns an exception raised by [execute]
    into the dictionary [{'status': 'error', 'error': str(e), 'agent':
    name}]; result types provide that dictionary through [ErrorDict].
    Error texts are kept as the exception they are the [str] of, a
    literal text [s] being [Exception s]. *)

Module BaseAgent.

Class ErrorDict (R : Type) : Type := error_dict : exn -> string -> R.

Record Agent (W T R : Type) : Type := {
  name : string;
  execute : T -> W -> res R * W
}.
Arguments name {W T R} _.
Arguments execute {W T R} _ _ _.

Definition run {W T R} `{ErrorDict R} (self : Agent W T R) (task : T) (w : W)
    : R * W :=
  match execute self task w with
  | (OK result, w') => (result, w')
  | (Raise e, w') => (error_dict e (name self), w')
  end.

End BaseAgent.

(** ** agents/filter_agent.py *)

Module FilterAgent.
Import PriceValidator.

Record FilterTask : Type := {
  products : option (list Product);
  search_criteria : option Criteria;
  filter_duplicates : option bool;
  sort_by : option string
}.

Record FilterResult : Type := {
  status : string;
  filtered_products : option (list Product);
  original_count : option nat;
  filtered_count : option nat;
  price_analysis : option PriceAnalysis;
  best_deals : option (list Product);
  error : option exn;
  agent : option string
}.

#[global] Instance filter_error_dict : BaseAgent.ErrorDict FilterResult :=
  fun e name =>
    {| status := "error"; filtered_products := None; original_count := None;
       filtered_count := None; price_analysis := None; best_deals := None;
       error := Some e; agent := Some name |}.

Definition empty_criteria : Criteria :=
  {| brand := None; model := None; max_price := None |}.

Section WithFloatRepr.
Context {text : Text} (float_repr : Q -> string).

(** [f"{title}_{price}"] with [title = product.get('title',
    '').lower().strip()] and [price = product.get('price', 0)]. *)
Definition dedup_key (product : Product) : string :=
  let title := py_strip (py_lower (default EmptyString (title product))) in
  let price := default (VInt 0) (price product) in
  title ++ "_" ++ py_str float_repr price.

Fixpoint remove_duplicates_loop (products : list Product) (seen : gset string)
    (unique_products : list Product) : list Product :=
  match products with
  | [] => unique_products
  | product :: rest =>
      let key := dedup_key product in
      if decide (key ∈ seen) then remove_duplicates_loop rest seen unique_products
      else remove_duplicates_loop rest ({[key]} ∪ seen) (unique_products ++ [product])
  end.

Definition remove_duplicates (products : list Product) : list Product :=
  remove_duplicates_loop products ∅ [].

Definition sort_products (products : list Product) (sort_by : string)
    : res (list Product) :=
  if String.eqb sort_by "price" then py_sorted price_key products
  else if String.eqb sort_by "platform" then py_sorted platform_key products
  else if String.eqb sort_by "title" then py_sorted title_key products
  else OK products.

(** Step 1 of the pipeline: [if max_price: products =
    filter_by_price(products, max_price)]. *)
Definition price_filter_step (criteria : Criteria) (products : list Product)
    : res (list Product) :=
  let max_price := default VNone (max_price criteria) in
  if truthy max_price then filter_by_price products max_price
  else OK products.

(** The body of the [try] block.  The second component is the value
    bound to the local variable [products] when the block is left,
    normally or by an exception; the [except] clause reads it. *)
Definition try_body (products : list Product) (criteria : Criteria)
    (filter_duplicates : bool) (sort_by : string)
    : res FilterResult * list Product :=
  let original_count := length products in
  match price_filter_step criteria products with
  | Raise e => (Raise e, products)
  | OK products =>
      let products :=
        if filter_duplicates then remove_duplicates products else products in
      match sort_products products sort_by with
      | Raise e => (Raise e, products)
      | OK products =>
          match analyze_prices products with
          | Raise e => (Raise e, products)
          | OK price_analysis =>
              match find_best_deals products 5 with
              | Raise e => (Raise e, products)
              | OK best_deals =>
                  (OK {| status := "success";
                         filtered_products := Some products;
                         original_count := Some original_count;
                         filtered_count := Some (length products);
                         price_analysis := Some price_analysis;
                         best_deals := Some best_deals;
                         error := None; agent := None |}, products)
              end
          end
      end
  end.

Definition execute (task : FilterTask) : FilterResult :=
  let products := default [] (products task) in
  let search_criteria := default empty_criteria (search_criteria task) in
  let filter_duplicates := default true (filter_duplicates task) in
  let sort_by := default "price" (sort_by task) in
  match try_body products search_criteria filter_duplicates sort_by with
  | (OK result, _) => result
  | (Raise e, products) =>
      {| status := "error"; filtered_products := Some [];
         original_count := Some (length products);
         filtered_count := Some 0;
         price_analysis := None; best_deals := None;
         error := Some e; agent := None |}
  end.

Definition as_agent {W : Type} : BaseAgent.Agent W FilterTask FilterResult :=
  {| BaseAgent.name := "Filter_Agent";
     BaseAgent.execute := fun task w => (OK (execute task), w) |}.

End WithFloatRepr.

End FilterAgent.

(** ** agents/coordinator_agent.py *)

Module CoordinatorAgent.
Import PriceValidator.

Record SearchParams : Type := {
  sp_search_criteria : Criteria;
  sp_max_results : Z
}.

(** What a search agent returns: [{'status', 'platform', 'products',
    'count'}], with ['error'] when it failed, or the dictionary built
    by [BaseAgent.run]. *)
Record SearchResult : Type := {
  status : option string;
  platform : option string;
  products : option (list Product);
  count : option Z;
  error : option exn;
  agent : option string
}.

#[global] Instance search_error_dict : BaseAgent.ErrorDict SearchResult :=
  fun e name =>
    {| status := Some "error"; platform := None; products := None;
       count := None; error := Some e; agent := Some name |}.

Record CoordinatorTask : Type := {
  search_criteria : option Criteria;
  platforms : option (list string);
  max_results_per_platform : option Z;
  parallel : option bool
}.

Record Summary : Type := {
  total_products_found : Z;
  after_filtering : nat;
  successful_platforms : list string;
  failed_platforms : list string;
  search_query : string;
  summary_max_price : pyval
}.

Record CoordinatorResult : Type := {
  result_status : string;
  result_error : option exn;
  result_search_criteria : Criteria;
  results_by_platform : option (list (string * SearchResult));
  all_products : option (list Product);
  filtered_products : option (list Product);
  best_deals : option (list Product);
  price_analysis : option PriceAnalysis;
  summary : option Summary
}.

(** [r.get('status') == 'success'] *)
Definition is_success (r : SearchResult) : bool :=
  match status r with
  | Some s => String.eqb s "success"
  | None => false
  end.

Definition generate_summary `{Text} (search_criteria : Criteria)
    (results_by_platform : list (string * SearchResult))
    (filter_result : FilterAgent.FilterResult) : Summary :=
  let total_found :=
    foldr Z.add 0%Z
      (map (fun r => default 0%Z (count r))
           (List.filter is_success (map snd results_by_platform))) in
  let successful_platforms :=
    map fst (List.filter (fun pr => is_success (snd pr)) results_by_platform) in
  let failed_platforms :=
    map fst (List.filter (fun pr => negb (is_success (snd pr))) results_by_platform) in
  {| total_products_found := total_found;
     after_filtering := default 0 (FilterAgent.filtered_count filter_result);
     successful_platforms := successful_platforms;
     failed_platforms := failed_platforms;
     search_query :=
       py_strip (default EmptyString (brand search_criteria) ++ " "
                 ++ default EmptyString (model search_criteria));
     summary_max_price := default (VInt 0) (max_price search_criteria) |}.

Section WithWorld.
Context {text : Text} (float_repr : Q -> string) {W : Type}.

Abbreviation SearchAgent := (BaseAgent.Agent W SearchParams SearchResult).

Record Coordinator : Type := {
  jd_agent : SearchAgent;
  taobao_agent : SearchAgent;
  pdd_agent : SearchAgent
}.

(** The provider registry built in [execute]. *)
Definition agent_map (self : Coordinator) : list (string * SearchAgent) :=
  [("jd", jd_agent self); ("taobao", taobao_agent self); ("pdd", pdd_agent self)].

(** A search that has been created but not yet awaited. *)
Definition Coroutine : Type := W -> SearchResult * W.

Fixpoint create_search_tasks (self : Coordinator) (params : SearchParams)
    (platforms : list string) : list (string * Coroutine) :=
  match platforms with
  | [] => []
  | platform :: rest =>
      match dict_get platform (agent_map self) with
      | Some agent =>
          (platform, BaseAgent.run agent params)
            :: create_search_tasks self params rest
      | None => create_search_tasks self params rest
      end
  end.

(** [parallel = False]: await the tasks one after the other. *)
Fixpoint run_sequential (search_tasks : list (string * Coroutine)) (w : W)
    : list SearchResult * W :=
  match search_tasks with
  | [] => ([], w)
  | (_, task) :: rest =>
      let '(result, w1) := task w in
      let '(results, w2) := run_sequential rest w1 in
      (result :: results, w2)
  end.

(** [asyncio.gather]: the tasks run to completion in an order chosen
    by the event loop and the providers' waiting times.  That order
    is given by [sched]: at each step the head of [sched], modulo
    the number of tasks still pending, selects the next task to
    complete.  [gather_complete] returns the completed tasks, each
    with its position in the argument list, in completion order. *)
Definition pick {A} (k : nat) (l : list A) : option (A * list A) :=
  match l !! k with
  | Some x => Some (x, take k l ++ drop (S k) l)
  | None => None
  end.

Fixpoint gather_complete (n : nat) (pending : list (nat * Coroutine))
    (sched : list nat) (w : W) : list (nat * SearchResult) * W :=
  match n with
  | O => ([], w)
  | S n' =>
      match pick (hd 0 sched mod length pending) pending with
      | None => ([], w)
      | Some ((i, task), rest) =>
          let '(result, w1) := task w in
          let '(completed, w2) := gather_complete n' rest (tl sched) w1 in
          ((i, result) :: completed, w2)
      end
  end.

Fixpoint result_at (i : nat) (completed : list (nat * SearchResult))
    : option SearchResult :=
  match completed with
  | [] => None
  | (j, r) :: rest => if Nat.eqb i j then Some r else result_at i rest
  end.

(** The list returned by [gather] holds the results by position of
    the awaited task. *)
Definition gather (tasks : list Coroutine) (sched : list nat) (w : W)
    : list SearchResult * W :=
  let '(completed, w') :=
    gather_complete (length tasks) (imap (fun i t => (i, t)) tasks) sched w in
  (omap (fun i => result_at i completed) (seq 0 (length tasks)), w').

Definition run_searches (parallel : bool) (sched : list nat)
    (search_tasks : list (string * Coroutine)) (w : W) : list SearchResult * W :=
  if parallel then gather (map snd search_tasks) sched w
  else run_sequential search_tasks w.

(** The loop [for i, (platform, _) in enumerate(search_tasks)], on
    the accumulators [results_by_platform] and [all_products]. *)
Fixpoint collect (search_tasks : list (string * Coroutine))
    (results : list SearchResult)
    (results_by_platform : list (string * SearchResult))
    (all_products : list Product)
    : res (list (string * SearchResult) * list Product) :=
  match search_tasks with
  | [] => OK (results_by_platform, all_products)
  | (platform, _) :: rest =>
      match results with
      | [] => Raise IndexError
      | result :: results' =>
          let results_by_platform := dict_set platform result results_by_platform in
          let all_products :=
            if is_success result then all_products ++ default [] (products result)
            else all_products in
          collect rest results' results_by_platform all_products
      end
  end.

Definition try_body (self : Coordinator) (sched : list nat)
    (search_criteria : Criteria) (platforms : list string) (max_results : Z)
    (parallel : bool) (w : W) : res CoordinatorResult * W :=
  let search_task_params :=
    {| sp_search_criteria := search_criteria; sp_max_results := max_results |} in
  let search_tasks := create_search_tasks self search_task_params platforms in
  let '(results, w1) := run_searches parallel sched search_tasks w in
  match collect search_tasks results [] [] with
  | Raise e => (Raise e, w1)
  | OK (results_by_platform, all_products) =>
      let filter_task :=
        {| FilterAgent.products := Some all_products;
           FilterAgent.search_criteria := Some search_criteria;
           FilterAgent.filter_duplicates := Some true;
           FilterAgent.sort_by := Some "price" |} in
      let '(filter_result, w2) :=
        BaseAgent.run (FilterAgent.as_agent float_repr) filter_task w1 in
      let summary :=
        generate_summary search_criteria results_by_platform filter_result in
      (OK {| result_status := "success";
             result_error := None;
             result_search_criteria := search_criteria;
             results_by_platform := Some results_by_platform;
             all_products := Some all_products;
             filtered_products :=
               Some (default [] (FilterAgent.filtered_products filter_result));
             best_deals :=
               Some (default [] (FilterAgent.best_deals filter_result));
             price_analysis := FilterAgent.price_analysis filter_result;
             summary := Some summary |}, w2)
  end.

Definition execute (self : Coordinator) (sched : list nat)
    (task : CoordinatorTask) (w : W) : CoordinatorResult * W :=
  let search_criteria := default FilterAgent.empty_criteria (search_criteria task) in
  let platforms := default ["jd"; "taobao"; "pdd"] (platforms task) in
  let max_results := default 10%Z (max_results_per_platform task) in
  let parallel := default true (parallel task) in
  match try_body self sched search_criteria platforms max_results parallel w with
  | (OK result, w') => (result, w')
  | (Raise e, w') =>
      ({| result_status := "error";
          result_error := Some e;
          result_search_criteria := search_criteria;
          results_by_platform := None;
          all_products := None;
          filtered_products := None;
          best_deals := None;
          price_analysis := None;
          summary := None |}, w')
  end.

End WithWorld.

End CoordinatorAgent.

(** ** tools/product_extractor.py: [validate_product_match] *)

(** [needle in hay] on strings. *)
Fixpoint py_in (needle hay : string) : bool :=
  String.prefix needle hay
  || match hay with
     | EmptyString => false
     | String _ hay' => py_in needle hay'
     end.

Module ProductExtractor.

(** The brand and the model are tested alike, on the lower-cased and
    stripped texts: [expected not in found and found not in expected]. *)
Definition texts_differ (found expected : string) : bool :=
  negb (py_in expected found) && negb (py_in found expected).

Definition validate_product_match `{Text} (product : Product)
    (search_criteria : Criteria) : res bool :=
  if match brand search_criteria with
     | Some b =>
         let product_brand :=
           py_strip (py_lower (default EmptyString (product_brand product))) in
         let expected_brand := py_strip (py_lower b) in
         texts_differ product_brand expected_brand
     | None => false
     end
  then OK false
  else
    if match model search_criteria with
       | Some m =>
           let product_model :=
             py_strip (py_lower (default EmptyString (product_model product))) in
           let expected_model := py_strip (py_lower m) in
           texts_differ product_model expected_model
       | None => false
       end
    then OK false
    else
      match max_price search_criteria with
      | Some max_price =>
          (* product.get('price', float('inf')) > search_criteria['max_price'] *)
          b ← key_lt (KVal max_price) (price_key product);
          OK (negb b)
      | None => OK true
      end.

End ProductExtractor.

(** ** agents/jd_search_agent.py and agents/pdd_search_agent.py

    The two classes differ in their constants only: the agent name, the
    platform tag, the search url, the pause after navigation and the text
    of the navigation error.  [Site] collects these constants and the
    methods are written once over a site.

    The browser and the extraction service are outside the program.
    [Browser] lists the operations the agents call, acting on the world
    [W]: [create_page] can raise; [navigate], [scroll_page],
    [extract_html] and [extract_products] catch every exception
    themselves and return a value; closing a page can raise.  A page
    object is truthy. *)

Module SearchAgents.
Import CoordinatorAgent.

Record Site : Type := {
  agent_name : string;
  site_platform : string;
  search_url : string -> string;
  settle_seconds : Z;
  navigation_error : string
}.

Definition jd_site : Site :=
  {| agent_name := "JD_Search_Agent";
     site_platform := "jd";
     search_url := fun keyword =>
       ("https://search.jd.com/Search" ++ "?keyword=" ++ keyword ++ "&enc=utf-8")%string;
     settle_seconds := 3;
     navigation_error := "Failed to navigate to JD" |}.

Definition pdd_site : Site :=
  {| agent_name := "PDD_Search_Agent";
     site_platform := "pdd";
     search_url := fun keyword =>
       ("https://mobile.yangkeduo.com/search_result.html" ++ "?search_key="
        ++ keyword)%string;
     settle_seconds := 4;
     navigation_error := "Failed to navigate to PDD" |}.

Definition build_search_url `{Text} (site : Site) (search_criteria : Criteria)
    : string :=
  let brand := default EmptyString (brand search_criteria) in
  let model := default EmptyString (model search_criteria) in
  let keyword := py_strip (brand ++ " " ++ model) in
  search_url site keyword.

Record Browser (W Page : Type) : Type := {
  create_page : W -> res Page * W;
  navigate : Page -> string -> W -> bool * W;
  sleep : Z -> W -> W;
  scroll_page : Page -> Z -> W -> W;
  extract_html : Page -> W -> string * W;
  extract_products : string -> Criteria -> string -> W -> list Product * W;
  page_close : Page -> W -> res unit * W
}.
Arguments create_page {W Page} _ _.
Arguments navigate {W Page} _ _ _ _.
Arguments sleep {W Page} _ _ _.
Arguments scroll_page {W Page} _ _ _ _.
Arguments extract_html {W Page} _ _ _.
Arguments extract_products {W Page} _ _ _ _ _.
Arguments page_close {W Page} _ _ _.

(** The validation loop on the accumulator [validated_products]. *)
Fixpoint validate_loop `{Text} (products : list Product) (search_criteria : Criteria)
    (validated_products : list Product) : res (list Product) :=
  match products with
  | [] => OK validated_products
  | product :: rest =>
      b ← ProductExtractor.validate_product_match product search_criteria;
      validate_loop rest search_criteria
        (if b : bool then validated_products ++ [product] else validated_products)
  end.

Definition failure (site : Site) (e : exn) : SearchResult :=
  {| status := Some "error"; platform := Some (site_platform site);
     products := Some []; count := Some 0%Z; error := Some e; agent := None |}.

Section WithBrowser.
Context {text : Text} {W Page : Type} (browser : Browser W Page).

(** The [try] block.  The second component is the value of the local
    variable [page] when the block is left; the [finally] clause
    reads it. *)
Definition try_body (site : Site) (search_criteria : Criteria) (max_results : Z)
    (w : W) : res SearchResult * option Page * W :=
  match create_page browser w with
  | (Raise e, w1) => (Raise e, None, w1)
  | (OK page, w1) =>
      let url := build_search_url site search_criteria in
      let '(success, w2) := navigate browser page url w1 in
      if negb success then
        (OK (failure site (Exception (navigation_error site))), Some page, w2)
      else
        let w3 := sleep browser (settle_seconds site) w2 in
        let w4 := scroll_page browser page 2 w3 in
        let '(html, w5) := extract_html browser page w4 in
        let '(products, w6) :=
          extract_products browser html search_criteria (site_platform site) w5 in
        match validate_loop (py_take max_results products) search_criteria [] with
        | Raise e => (Raise e, Some page, w6)
        | OK validated_products =>
            (OK {| status := Some "success";
                   platform := Some (site_platform site);
                   products := Some validated_products;
                   count := Some (Z.of_nat (length validated_products));
                   error := None; agent := None |}, Some page, w6)
        end
  end.

(** [try ... except Exception ... finally: if page: await
    page.close()].  An exception raised while closing replaces the
    value being returned. *)
Definition execute (site : Site) (task : SearchParams) (w : W)
    : res SearchResult * W :=
  let search_criteria := sp_search_criteria task in
  let max_results := sp_max_results task in
  let '(outcome, page, w1) := try_body site search_criteria max_results w in
  let result :=
    match outcome with
    | OK result => result
    | Raise e => failure site e
    end in
  match page with
  | Some page =>
      match page_close browser page w1 with
      | (OK _, w2) => (OK result, w2)
      | (Raise e, w2) => (Raise e, w2)
      end
  | None => (OK result, w1)
  end.

Definition as_agent (site : Site) : BaseAgent.Agent W SearchParams SearchResult :=
  {| BaseAgent.name := agent_name site;
     BaseAgent.execute := execute site |}.

End WithBrowser.

End SearchAgents.

Module JDSearchAgent.
Definition build_search_url `{Text} :=
  SearchAgents.build_search_url SearchAgents.jd_site.
Definition execute `{Text} {W Page} (browser : SearchAgents.Browser W Page) :=
  SearchAgents.execute browser SearchAgents.jd_site.
End JDSearchAgent.

Module PDDSearchAgent.
Definition build_search_url `{Text} :=
  SearchAgents.build_search_url SearchAgents.pdd_site.
Definition execute `{Text} {W Page} (browser : SearchAgents.Browser W Page) :=
  SearchAgents.execute browser SearchAgents.pdd_site.
End PDDSearchAgent.

(** ** memory/search_history.py

    The history is the list [self.history]; every method is a function
    of that list.  Writing the list to the history file does not change
    it and is not modelled.  The records of the list are those built by
    [add_search], so every key read with [dict.get] is present.  The two
    readings of the clock in [add_search] are arguments: [now_id] is the
    text of the first reading in the format [%Y%m%d_%H%M%S_%f], [now_iso]
    the ISO text of the second. *)

(** [sorted(l, key=..., reverse=True)]: the list is reversed, sorted
    ascending and reversed again, so that elements with equal keys keep
    their order. *)
Definition py_sorted_reverse {A} (key : A -> pykey) (l : list A) : res (list A) :=
  r ← py_sorted key (rev l); OK (rev r).

(** Truth value of an optional text ([if session_id:]): [None] and the
    empty text are false. *)
Definition text_given (s : option string) : bool :=
  match s with
  | Some s => truthy (VStr s)
  | None => false
  end.

Module SearchHistory.

Record RecordSummary : Type := {
  total_found : Z;
  after_filtering : nat;
  platforms_searched : list string;
  best_price : option pyval
}.

Record SearchRecord : Type := {
  id : string;
  session_id : option string;
  timestamp : string;
  search_criteria : Criteria;
  summary : RecordSummary;
  status : string
}.

Record Statistics : Type := {
  total_searches : nat;
  successful_searches : nat;
  failed_searches : nat;
  most_searched_brand : option string;
  average_results : pystat;
  brand_distribution : option (list (string * Z))
}.

Definition _get_best_price (results : CoordinatorAgent.CoordinatorResult)
    : option pyval :=
  match default [] (CoordinatorAgent.best_deals results) with
  | first :: _ => price first
  | [] => None
  end.

(** The record appended by [add_search]. *)
Definition new_record (now_id now_iso : string) (search_criteria : Criteria)
    (results : CoordinatorAgent.CoordinatorResult) (session : option string)
    : SearchRecord :=
  let search_id := ("search_" ++ now_id)%string in
  let result_summary := CoordinatorAgent.summary results in
  {| id := search_id;
     session_id := session;
     timestamp := now_iso;
     search_criteria := search_criteria;
     summary :=
       {| total_found :=
            from_option CoordinatorAgent.total_products_found 0%Z result_summary;
          after_filtering :=
            from_option CoordinatorAgent.after_filtering 0 result_summary;
          platforms_searched :=
            from_option CoordinatorAgent.successful_platforms [] result_summary;
          best_price := _get_best_price results |};
     status := CoordinatorAgent.result_status results |}.

Definition add_search (history : list SearchRecord) (now_id now_iso : string)
    (search_criteria : Criteria) (results : CoordinatorAgent.CoordinatorResult)
    (session : option string) : string * list SearchRecord :=
  let record := new_record now_id now_iso search_criteria results session in
  (id record, history ++ [record]).

(** [[h for h in history if h.get('session_id') == session_id]] under
    [if session_id:]. *)
Definition of_session (history : list SearchRecord) (session : option string)
    : list SearchRecord :=
  if text_given session
  then List.filter (fun h => bool_decide (session_id h = session)) history
  else history.

Definition get_history (history : list SearchRecord) (session : option string)
    (limit : Z) : res (list SearchRecord) :=
  let history := of_session history session in
  history ← py_sorted_reverse (fun x => KVal (VStr (timestamp x))) history;
  OK (py_take limit history).

Definition get_search_by_id (history : list SearchRecord) (search_id : string)
    : option SearchRecord :=
  List.find (fun record => String.eqb (id record) search_id) history.

(** The loop over the successful records, on the accumulators
    [brand_counts] and [total_results]. *)
Fixpoint count_brands (successful : list SearchRecord)
    (brand_counts : list (string * Z)) (total_results : Z)
    : list (string * Z) * Z :=
  match successful with
  | [] => (brand_counts, total_results)
  | record :: rest =>
      let brand := default "Unknown" (brand (search_criteria record)) in
      let brand_counts :=
        dict_set brand (default 0%Z (dict_get brand brand_counts) + 1)%Z brand_counts in
      count_brands rest brand_counts
        (total_results + Z.of_nat (after_filtering (summary record)))%Z
  end.

(** [max(items, key=lambda x: x[1])]: the first item with the largest
    count. *)
Fixpoint max_by_count (best : string * Z) (items : list (string * Z)) : string * Z :=
  match items with
  | [] => best
  | item :: rest => max_by_count (if (best.2 <? item.2)%Z then item else best) rest
  end.

Definition is_success (h : SearchRecord) : bool := String.eqb (status h) "success".

Definition get_search_statistics (history : list SearchRecord)
    (session : option string) : res Statistics :=
  let history := of_session history session in
  match history with
  | [] =>
      OK {| total_searches := 0; successful_searches := 0; failed_searches := 0;
            most_searched_brand := None; average_results := SValue (VInt 0);
            brand_distribution := None |}
  | _ =>
      let successful := List.filter is_success history in
      let failed := List.filter (fun h => negb (is_success h)) history in
      let '(brand_counts, total_results) := count_brands successful [] 0%Z in
      let most_searched_brand :=
        match brand_counts with
        | [] => None
        | item :: rest => Some (max_by_count item rest).1
        end in
      average ←
        match successful with
        | [] => OK (SValue (VInt 0))
        | _ =>
            a ← num_truediv (NInt total_results) (NInt (Z.of_nat (length successful)));
            OK (SFloat a)
        end;
      OK {| total_searches := length history;
            successful_searches := length successful;
            failed_searches := length failed;
            most_searched_brand := most_searched_brand;
            average_results := average;
            brand_distribution := Some brand_counts |}
  end.

Definition clear_history (history : list SearchRecord) (session : option string)
    : list SearchRecord :=
  if text_given session
  then List.filter (fun h => negb (bool_decide (session_id h = session))) history
  else [].

End SearchHistory.

(** ** memory/session_manager.py

    The sessions are a dictionary from session ids to session
    dictionaries; preferences and state are dictionaries of values.
    Each reading of the clock is an argument.  Saving to the session
    file is not modelled. *)

Module SessionManager.

Record Session : Type := {
  id : string;
  created_at : string;
  last_accessed : string;
  preferences : list (string * pyval);
  search_count : Z;
  state : list (string * pyval)
}.

Record Manager : Type := {
  sessions : gmap string Session;
  current_session_id : option string
}.

(** [d.update(other)] *)
Definition dict_update (d other : list (string * pyval)) : list (string * pyval) :=
  foldl (fun d kv => dict_set kv.1 kv.2 d) d other.

Definition create_session (self : Manager) (now1 now2 : string) (session_id : string)
    (user_preferences : option (list (string * pyval))) : string * Manager :=
  let session :=
    {| id := session_id; created_at := now1; last_accessed := now2;
       preferences := default [] user_preferences;
       search_count := 0; state := [] |} in
  (session_id,
   {| sessions := <[session_id := session]> (sessions self);
      current_session_id := Some session_id |}).

Definition touch (now : string) (s : Session) : Session :=
  {| id := id s; created_at := created_at s; last_accessed := now;
     preferences := preferences s; search_count := search_count s;
     state := state s |}.

Definition get_session (self : Manager) (now : string) (session_id : string)
    : option Session * Manager :=
  match sessions self !! session_id with
  | Some session =>
      let session := touch now session in
      (Some session,
       {| sessions := <[session_id := session]> (sessions self);
          current_session_id := current_session_id self |})
  | None => (None, self)
  end.

Definition update_session_state (self : Manager) (now : string) (session_id : string)
    (new_state : list (string * pyval)) : Manager :=
  match sessions self !! session_id with
  | Some s =>
      let s :=
        {| id := id s; created_at := created_at s; last_accessed := now;
           preferences := preferences s; search_count := search_count s;
           state := dict_update (state s) new_state |} in
      {| sessions := <[session_id := s]> (sessions self);
         current_session_id := current_session_id self |}
  | None => self
  end.

Definition increment_search_count (self : Manager) (session_id : string) : Manager :=
  match sessions self !! session_id with
  | Some s =>
      let s :=
        {| id := id s; created_at := created_at s; last_accessed := last_accessed s;
           preferences := preferences s; search_count := search_count s + 1;
           state := state s |} in
      {| sessions := <[session_id := s]> (sessions self);
         current_session_id := current_session_id self |}
  | None => self
  end.

Definition get_user_preferences (self : Manager) (now : string) (session_id : string)
    : list (string * pyval) * Manager :=
  let '(session, self) := get_session self now session_id in
  (from_option preferences [] session, self).

Definition update_user_preferences (self : Manager) (session_id : string)
    (new_preferences : list (string * pyval)) : Manager :=
  match sessions self !! session_id with
  | Some s =>
      let s :=
        {| id := id s; created_at := created_at s; last_accessed := last_accessed s;
           preferences := dict_update (preferences s) new_preferences;
           search_count := search_count s; state := state s |} in
      {| sessions := <[session_id := s]> (sessions self);
         current_session_id := current_session_id self |}
  | None => self
  end.

Definition delete_session (self : Manager) (session_id : string) : Manager :=
  match sessions self !! session_id with
  | Some _ =>
      {| sessions := delete session_id (sessions self);
         current_session_id := current_session_id self |}
  | None => self
  end.

End SessionManager.

(** ** logger_config.py: [MetricsCollector], and the recording loop of
    [SmartProductFinder.search] in main.py

    The durations are finite floats. *)

Module MetricsCollector.

Record Metrics : Type := {
  searches_total : Z;
  searches_success : Z;
  searches_failed : Z;
  products_found : Z;
  platforms_queried : list (string * Z);
  average_search_time : pyfloat;
  search_times : list Q
}.

Definition init : Metrics :=
  {| searches_total := 0; searches_success := 0; searches_failed := 0;
     products_found := 0;
     platforms_queried := [("jd", 0%Z); ("taobao", 0%Z); ("pdd", 0%Z)];
     average_search_time := Finite 0; search_times := [] |}.

(** [sum(l)] of a non-empty list of floats: the float [0.0 + l[0]]
    is [l[0]], and the floats are added from left to right. *)
Definition sum_times (l : list Q) : pyfloat :=
  fold_left (fun acc d => float_add acc (Finite d)) l (Finite 0).

(** [float(len(l))]: a length is below [2^63] and converts without
    overflow. *)
Definition float_of_len {A} (l : list A) : pyfloat :=
  round_double (inject_Z (Z.of_nat (length l))).

Definition record_search (self : Metrics) (success : bool) (duration : Q)
    (products_count : Z) (platform : string) : Metrics :=
  let times := search_times self ++ [duration] in
  {| searches_total := searches_total self + 1;
     searches_success :=
       if success then searches_success self + 1 else searches_success self;
     searches_failed :=
       if success then searches_failed self else searches_failed self + 1;
     products_found :=
       if success then products_found self + products_count else products_found self;
     platforms_queried :=
       match dict_get platform (platforms_queried self) with
       | Some n => dict_set platform (n + 1)%Z (platforms_queried self)
       | None => platforms_queried self
       end;
     average_search_time := float_div (sum_times times) (float_of_len times);
     search_times := times |}.

(** [for platform in platforms: self.metrics.record_search(success,
    duration, products_count, platform)] *)
Definition record_platforms (self : Metrics) (success : bool) (duration : Q)
    (products_count : Z) (platforms : list string) : Metrics :=
  foldl (fun m platform => record_search m success duration products_count platform)
        self platforms.

End MetricsCollector.

(** * Specification vocabulary *)

(** Keys of the numeric class: numbers and [float('inf')]. *)
Definition num_key (k : pykey) : Prop :=
  match k with
  | KInf => True
  | KVal v => is_Some (as_num v)
  end.

Definition str_key (k : pykey) : Prop :=
  match k with
  | KVal (VStr _) => True
  | _ => False
  end.

(** [a <= b] holds, without raising. *)
Definition key_leq (a b : pykey) : Prop := key_le a b = OK true.

(** [x] may stand before [y] in a list ascending by [key]. *)
Definition key_order {A} (key : A -> pykey) (x y : A) : Prop :=
  key_leq (key x) (key y).

Definition ascending {A} (key : A -> pykey) (l : list A) : Prop :=
  StronglySorted (key_order key) l.

(** [0 < price <= max_price] for a product carrying a numeric price, with
    [max_price] a number. *)
Definition within_budget (max_price : pyval) (p : Product) : Prop :=
  match price p with
  | Some v =>
      match as_num v, as_num max_price with
      | Some q, Some m => (0 < q)%Q /\ (q <= m)%Q
      | _, _ => False
      end
  | None => False
  end.

#[global] Instance within_budget_dec max_price p : Decision (within_budget max_price p).
Proof.
  unfold within_budget.
  destruct (price p) as [v|]; [|right; tauto].
  destruct (as_num v) as [q|]; [|right; tauto].
  destruct (as_num max_price) as [m|]; [|right; tauto].
  destruct (Qlt_le_dec 0 q) as [Hq|Hq].
  - destruct (Qlt_le_dec m q) as [Hm|Hm].
    + right. intros [_ H]. exact (Qlt_not_le _ _ Hm H).
    + left. split; assumption.
  - right. intros [H _]. exact (Qlt_not_le _ _ H Hq).
Defined.

(** [p] costs no more than [q]: both prices are numbers and the first is
    not the larger, or [q] has no price, which counts as +infinity, and
    [p] has a number or no price. *)
Definition costs_no_more (p q : Product) : Prop :=
  match price p, price q with
  | Some v, Some w =>
      exists a b, as_num v = Some a /\ as_num w = Some b /\ (a <= b)%Q
  | Some v, None => is_Some (as_num v)
  | None, Some _ => False
  | None, None => True
  end.

(** Non-decreasing by price, products without a price last. *)
Definition cheapest_first (l : list Product) : Prop := StronglySorted costs_no_more l.

(** The price of [p] is a number, or [p] has no price. *)
Definition numeric_price (p : Product) : Prop := num_key (price_key p).

(** ** Price statistics *)

Definition number (v : pyval) : Prop := is_Some (as_num v).

(** A strictly positive number. *)
Definition positive (v : pyval) : Prop :=
  match as_num v with
  | Some q => (0 < q)%Q
  | None => False
  end.

#[global] Instance positive_dec v : Decision (positive v).
Proof.
  unfold positive. destruct (as_num v) as [q|]; [|right; tauto].
  destruct (Qlt_le_dec 0 q) as [H|H]; [by left|].
  right. intros H'. exact (Qlt_not_le _ _ H' H).
Defined.

(** The strictly positive prices of a product list, in list order. *)
Definition positive_prices_of (products : list Product) : list pyval :=
  filter positive (omap price products).

(** The products tagged with platform [t], a missing tag counting as
    ['unknown']. *)
Definition on_platform (t : string) (products : list Product) : list Product :=
  filter (fun p => default "unknown" (platform p) = t) products.

Definition value (v : pyval) : Q := default 0%Q (as_num v).

Definition is_minimum (m : pyval) (l : list pyval) : Prop :=
  m ∈ l /\ forall v, v ∈ l -> (value m <= value v)%Q.

Definition is_maximum (m : pyval) (l : list pyval) : Prop :=
  m ∈ l /\ forall v, v ∈ l -> (value v <= value m)%Q.

(** The outcome [r] is a result with property [P], or the exception
    [OverflowError]. *)
Definition or_overflow {A} (P : A -> Prop) (r : res A) : Prop :=
  match r with
  | OK a => P a
  | Raise e => e = OverflowError
  end.

Definition is_int (v : pyval) : Prop := exists z, v = VInt z.

(** The exact sum of the ints of a list. *)
Definition int_total (l : list pyval) : Z :=
  foldr (fun v acc => match v with VInt z => (z + acc)%Z | _ => acc end) 0%Z l.

(** No price is followed by a smaller one. *)
Definition non_decreasing (l : list pyval) : Prop :=
  StronglySorted (fun a b => (value a <= value b)%Q) l.

(** [a] is the float the interpreter computes as the mean of [l], added
    in list order; for ints, whose sum is exact, that is the exact mean
    rounded once. *)
Definition is_mean (a : pyfloat) (l : list pyval) : Prop :=
  py_mean l = OK a
  /\ (Forall is_int l ->
      a = round_double (inject_Z (int_total l) / inject_Z (Z.of_nat (length l)))).

(** [(a + b) / 2] as the interpreter computes it. *)
Definition half_sum (a b : pyval) : res pyfloat :=
  s ← py_add a b; num_truediv s (NInt 2).

(** [m] is the median of the non-decreasing list [s]: its middle element
    for an odd length; for an even length the float computed as half the
    sum of the two middle elements, which for ints is their exact mean
    rounded once. *)
Definition is_median (m : pystat) (s : list pyval) : Prop :=
  if (length s mod 2 =? 1)%nat then
    exists x, s !! (length s / 2) = Some x /\ m = SValue x
  else
    exists a b f,
      s !! (length s / 2 - 1) = Some a /\ s !! (length s / 2) = Some b
      /\ m = SFloat f /\ half_sum a b = OK f
      /\ (forall x y, a = VInt x -> b = VInt y ->
            f = round_double (inject_Z (x + y) / inject_Z 2)).

Definition summarises (st : PriceValidator.PlatformStats) (l : list pyval) : Prop :=
  PriceValidator.ps_count st = length l
  /\ is_mean (PriceValidator.ps_average st) l
  /\ is_minimum (PriceValidator.ps_min st) l
  /\ is_maximum (PriceValidator.ps_max st) l.

(** Ints of magnitude below [2 ^ 1023] are within the range of floats. *)
Definition float_range : Z := 2 ^ 1023.

(** [v] is not an int above [M]. *)
Definition int_at_most (M : Z) (v : pyval) : Prop :=
  match v with
  | VInt z => (z <= M)%Z
  | _ => True
  end.

(** The price of [p] is not an int above [M]. *)
Definition int_price_at_most (M : Z) (p : Product) : Prop :=
  match price p with
  | Some v => int_at_most M v
  | None => True
  end.

(** A number that converts to a float: an int within the range, or a
    float. *)
Definition convertible (n : pynum) : Prop :=
  match n with
  | NInt z => (Z.abs z < float_range)%Z
  | NFloat _ => True
  end.

(** A partial sum of positive prices: an int between 0 and [K], or a
    float. *)
Definition partial_sum (K : Z) (n : pynum) : Prop :=
  match n with
  | NInt z => (0 <= z <= K)%Z
  | NFloat _ => True
  end.

(** An entry of the per-platform dictionary while it is being filled:
    a non-empty list of positive prices. *)
Definition good_group (kv : string * list pyval) : Prop :=
  kv.2 <> [] /\ Forall positive kv.2.

(** ** Coordinator *)

(** The platform ids of the provider registry. *)
Definition registered (platform : string) : Prop := platform ∈ ["jd"; "taobao"; "pdd"].

(** [r] is what the search [task] returned in some state of the world. *)
Definition returned_by {W} (task : @CoordinatorAgent.Coroutine W)
    (r : CoordinatorAgent.SearchResult) : Prop :=
  exists w0, r = (task w0).1.

(** The result carries the status ['success']. *)
Definition succeeded (r : CoordinatorAgent.SearchResult) : Prop :=
  CoordinatorAgent.status r = Some "success".

#[global] Instance succeeded_dec r : Decision (succeeded r).
Proof. unfold succeeded. apply _. Defined.

(** The [products] lists of the results with status ['success'], one
    after the other in the order of the results; a missing [products]
    is the empty list. *)
Definition products_of_succeeded (results : list CoordinatorAgent.SearchResult)
    : list Product :=
  concat (map (fun r => default [] (CoordinatorAgent.products r))
              (filter succeeded results)).

(** The sum of the [count] fields of the results with status
    ['success'], a missing [count] being 0. *)
Definition count_of_succeeded (results : list CoordinatorAgent.SearchResult) : Z :=
  foldr Z.add 0%Z
    (map (fun r => default 0%Z (CoordinatorAgent.count r)) (filter succeeded results)).

(** What a platform result contributes to the combined product list. *)
Definition contributed (r : CoordinatorAgent.SearchResult) : list Product :=
  if CoordinatorAgent.is_success r then default [] (CoordinatorAgent.products r) else [].

(** The dictionary obtained from [d] by the assignments [d[p] = r], in
    list order. *)
Definition assign_all (d : list (string * CoordinatorAgent.SearchResult))
    (prs : list (string * CoordinatorAgent.SearchResult))
    : list (string * CoordinatorAgent.SearchResult) :=
  foldl (fun d pr => dict_set pr.1 pr.2 d) d prs.

(** ** Sample inputs *)

(** [str.lower] and [str.strip] on ASCII texts: the letters [A] to [Z]
    are lowered, and the white space characters are tab to carriage
    return, the four separators and the space. *)
Definition lower_ascii (c : ascii) : ascii :=
  let n := nat_of_ascii c in
  if (65 <=? n)%nat && (n <=? 90)%nat then ascii_of_nat (n + 32) else c.

Fixpoint ascii_lower (s : string) : string :=
  match s with
  | EmptyString => EmptyString
  | String c s' => String (lower_ascii c) (ascii_lower s')
  end.

Definition is_space (c : ascii) : bool :=
  let n := nat_of_ascii c in
  ((9 <=? n)%nat && (n <=? 13)%nat) || ((28 <=? n)%nat && (n <=? 32)%nat).

Fixpoint lstrip (s : string) : string :=
  match s with
  | EmptyString => EmptyString
  | String c s' => if is_space c then lstrip s' else s
  end.

Fixpoint rstrip (s : string) : string :=
  match s with
  | EmptyString => EmptyString
  | String c s' =>
      match rstrip s' with
      | EmptyString => if is_space c then EmptyString else String c EmptyString
      | r => String c r
      end
  end.

Definition ascii_strip (s : string) : string := rstrip (lstrip s).

Definition ascii_text : Text :=
  {| py_lower := ascii_lower; py_strip := ascii_strip;
     py_lower_empty := eq_refl; py_strip_empty := eq_refl |}.

Definition sample_product (t : string) (v : option pyval) (pl : string) : Product :=
  {| title := Some t; price := v; platform := Some pl; url := None;
     shop := None; product_brand := None; product_model := None |}.

(** A stand-in for the interpreter's float formatting, for inputs whose
    prices are integers or strings. *)
Definition sample_float_repr (q : Q) : string := "0.0".

Definition sample_filter_task (ps : list Product) (mp : option pyval)
    : FilterAgent.FilterTask :=
  {| FilterAgent.products := Some ps;
     FilterAgent.search_criteria :=
       Some {| brand := Some "Apple"; model := Some "iPhone 15 Pro"; max_price := mp |};
     FilterAgent.filter_duplicates := Some true;
     FilterAgent.sort_by := Some "price" |}.

(** A coordinator over a world without state: the JD agent raises, the
    Taobao agent finds nothing and the PDD agent returns two products. *)
Definition raising_agent (name : string) (e : exn)
    : BaseAgent.Agent unit CoordinatorAgent.SearchParams CoordinatorAgent.SearchResult :=
  {| BaseAgent.name := name;
     BaseAgent.execute := fun _ w => (Raise e, w) |}.

Definition returning_agent (name platform : string) (ps : list Product)
    : BaseAgent.Agent unit CoordinatorAgent.SearchParams CoordinatorAgent.SearchResult :=
  {| BaseAgent.name := name;
     BaseAgent.execute := fun _ w =>
       (OK {| CoordinatorAgent.status := Some "success";
              CoordinatorAgent.platform := Some platform;
              CoordinatorAgent.products := Some ps;
              CoordinatorAgent.count := Some (Z.of_nat (length ps));
              CoordinatorAgent.error := None;
              CoordinatorAgent.agent := None |}, w) |}.

Definition sample_coordinator : @CoordinatorAgent.Coordinator unit :=
  {| CoordinatorAgent.jd_agent := raising_agent "JD_Search_Agent" (Exception "timeout");
     CoordinatorAgent.taobao_agent := returning_agent "Taobao_Search_Agent" "taobao" [];
     CoordinatorAgent.pdd_agent :=
       returning_agent "PDD_Search_Agent" "pdd"
         [sample_product "iPhone 15 Pro 256G" (Some (VInt 7999)) "pdd";
          sample_product "iPhone 15 Pro 128G" (Some (VInt 6999)) "pdd"] |}.

(** A coordinator over a world that logs the platforms in the order in
    which their searches complete: the JD agent raises, the Taobao agent
    returns one product and the PDD agent two. *)
Definition logging_agent (name platform : string) (outcome : res (list Product))
    : BaseAgent.Agent (list string) CoordinatorAgent.SearchParams
        CoordinatorAgent.SearchResult :=
  {| BaseAgent.name := name;
     BaseAgent.execute := fun _ w =>
       (ps ← outcome;
        OK {| CoordinatorAgent.status := Some "success";
              CoordinatorAgent.platform := Some platform;
              CoordinatorAgent.products := Some ps;
              CoordinatorAgent.count := Some (Z.of_nat (length ps));
              CoordinatorAgent.error := None;
              CoordinatorAgent.agent := None |}, w ++ [platform]) |}.

Definition logging_coordinator : @CoordinatorAgent.Coordinator (list string) :=
  {| CoordinatorAgent.jd_agent :=
       logging_agent "JD_Search_Agent" "jd" (Raise (Exception "timeout"));
     CoordinatorAgent.taobao_agent :=
       logging_agent "Taobao_Search_Agent" "taobao"
         (OK [sample_product "iPhone 15 Pro 512G" (Some (VInt 8999)) "taobao"]);
     CoordinatorAgent.pdd_agent :=
       logging_agent "PDD_Search_Agent" "pdd"
         (OK [sample_product "iPhone 15 Pro 256G" (Some (VInt 7999)) "pdd";
              sample_product "iPhone 15 Pro 128G" (Some (VInt 6999)) "pdd"]) |}.

Definition sample_coordinator_task (ids : list string) (par : bool)
    : CoordinatorAgent.CoordinatorTask :=
  {| CoordinatorAgent.search_criteria :=
       Some {| brand := Some "Apple"; model := Some "iPhone 15 Pro";
               max_price := Some (VInt 8999) |};
     CoordinatorAgent.platforms := Some ids;
     CoordinatorAgent.max_results_per_platform := None;
     CoordinatorAgent.parallel := Some par |}.

(** ** Product validation and the platform agents *)

(** A text as the validation compares it. *)
Definition normal `{Text} (s : string) : string := py_strip (py_lower s).

(** One of the two texts occurs in the other. *)
Definition texts_overlap (a b : string) : Prop := py_in a b = true \/ py_in b a = true.

(** The product's text is missing, or equals the expected one up to case
    and surrounding white space. *)
Definition text_agrees `{Text} (found expected : option string) : Prop :=
  match expected, found with
  | Some e, Some f => normal f = normal e
  | _, _ => True
  end.

(** The price is a number not above the numeric [max_price], if there
    is one. *)
Definition price_allowed (limit : option pyval) (p : Product) : Prop :=
  match limit with
  | Some m =>
      exists v q qm, price p = Some v /\ as_num v = Some q /\ as_num m = Some qm
                     /\ (q <= qm)%Q
  | None => True
  end.

Definition validated `{Text} (criteria : Criteria) (p : Product) : Prop :=
  ProductExtractor.validate_product_match p criteria = OK true.

#[global] Instance validated_dec `{Text} criteria p : Decision (validated criteria p).
Proof.
  unfold validated.
  destruct (ProductExtractor.validate_product_match p criteria) as [[|]|e];
    [by left | by right | by right].
Defined.

(** [open_pages] counts the pages a browser holds open: creating a page
    adds one, closing it removes one, and nothing else changes the
    count. *)
Definition counts_pages {W Page} (browser : SearchAgents.Browser W Page)
    (open_pages : W -> nat) : Prop :=
  (forall w page w', SearchAgents.create_page browser w = (OK page, w') ->
                     open_pages w' = S (open_pages w))
  /\ (forall w e w', SearchAgents.create_page browser w = (Raise e, w') ->
                     open_pages w' = open_pages w)
  /\ (forall page url w, open_pages (SearchAgents.navigate browser page url w).2
                         = open_pages w)
  /\ (forall n w, open_pages (SearchAgents.sleep browser n w) = open_pages w)
  /\ (forall page n w, open_pages (SearchAgents.scroll_page browser page n w)
                       = open_pages w)
  /\ (forall page w, open_pages (SearchAgents.extract_html browser page w).2
                     = open_pages w)
  /\ (forall html c t w,
        open_pages (SearchAgents.extract_products browser html c t w).2 = open_pages w)
  /\ (forall page w w', SearchAgents.page_close browser page w = (OK tt, w') ->
                        S (open_pages w') = open_pages w).

(** The run of a search up to the extraction: a page is created, the
    navigation succeeds and [products] are extracted, leaving the world
    in [w']. *)
Definition extracts `{Text} {W Page} (browser : SearchAgents.Browser W Page)
    (site : SearchAgents.Site) (criteria : Criteria) (w : W)
    (page : Page) (products : list Product) (w' : W) : Prop :=
  exists w1 w2 html w5,
    SearchAgents.create_page browser w = (OK page, w1)
    /\ SearchAgents.navigate browser page
         (SearchAgents.build_search_url site criteria) w1 = (true, w2)
    /\ SearchAgents.extract_html browser page
         (SearchAgents.scroll_page browser page 2
            (SearchAgents.sleep browser (SearchAgents.settle_seconds site) w2))
       = (html, w5)
    /\ SearchAgents.extract_products browser html criteria
         (SearchAgents.site_platform site) w5 = (products, w').

(** A browser whose world is the number of open pages and whose
    extraction finds [found]. *)
Definition sample_browser (found : list Product) : SearchAgents.Browser nat unit :=
  {| SearchAgents.create_page := fun w => (OK tt, S w);
     SearchAgents.navigate := fun _ _ w => (true, w);
     SearchAgents.sleep := fun _ w => w;
     SearchAgents.scroll_page := fun _ _ w => w;
     SearchAgents.extract_html := fun _ w => ("<html></html>", w);
     SearchAgents.extract_products := fun _ _ _ w => (found, w);
     SearchAgents.page_close := fun _ w =>
       match w with
       | O => (Raise (Exception "no page is open"), O)
       | S n => (OK tt, n)
       end |}.

Definition sample_criteria : Criteria :=
  {| brand := Some "Apple"; model := Some "iPhone 15"; max_price := Some (VInt 8999) |}.

Definition branded_product (b m : option string) (v : option pyval) : Product :=
  {| title := Some "phone"; price := v; platform := Some "jd"; url := None;
     shop := None; product_brand := b; product_model := m |}.

(** ** Search history *)

Definition timestamp_key (r : SearchHistory.SearchRecord) : pykey :=
  KVal (VStr (SearchHistory.timestamp r)).

(** No record stands before one with a later timestamp. *)
Definition newest_first (l : list SearchHistory.SearchRecord) : Prop :=
  StronglySorted (fun a b => key_order timestamp_key b a) l.

Definition in_session (session : option string) (r : SearchHistory.SearchRecord) : Prop :=
  SearchHistory.session_id r = session.

(** The number of results of the successful records. *)
Definition results_of (l : list SearchHistory.SearchRecord) : Z :=
  foldr Z.add 0%Z
    (map (fun r => Z.of_nat (SearchHistory.after_filtering (SearchHistory.summary r))) l).

Definition sample_record (i : string) (session : option string) (t : string)
    (b : option string) (st : string) : SearchHistory.SearchRecord :=
  {| SearchHistory.id := i;
     SearchHistory.session_id := session;
     SearchHistory.timestamp := t;
     SearchHistory.search_criteria := {| brand := b; model := None; max_price := None |};
     SearchHistory.summary :=
       {| SearchHistory.total_found := 3; SearchHistory.after_filtering := 2;
          SearchHistory.platforms_searched := ["jd"];
          SearchHistory.best_price := Some (VInt 10) |};
     SearchHistory.status := st |}.

Definition sample_history : list SearchHistory.SearchRecord :=
  [sample_record "search_1" (Some "s1") "2024-01-01T10:00:00" (Some "Apple") "success";
   sample_record "search_2" (Some "s2") "2024-01-02T10:00:00" (Some "Sony") "error";
   sample_record "search_3" (Some "s1") "2024-01-03T10:00:00" (Some "Apple") "success"].

Definition sample_error_result : CoordinatorAgent.CoordinatorResult :=
  {| CoordinatorAgent.result_status := "error";
     CoordinatorAgent.result_error := Some (Exception "browser is gone");
     CoordinatorAgent.result_search_criteria :=
       {| brand := Some "Apple"; model := None; max_price := None |};
     CoordinatorAgent.results_by_platform := None;
     CoordinatorAgent.all_products := None;
     CoordinatorAgent.filtered_products := None;
     CoordinatorAgent.best_deals := None;
     CoordinatorAgent.price_analysis := None;
     CoordinatorAgent.summary := None |}.

(** ** Sessions *)

(** A call of a method of the session manager. *)
Inductive session_call : Type :=
  | CreateSession (now1 now2 session_id : string)
      (user_preferences : option (list (string * pyval)))
  | GetSession (now session_id : string)
  | UpdateSessionState (now session_id : string) (state : list (string * pyval))
  | IncrementSearchCount (session_id : string)
  | GetUserPreferences (now session_id : string)
  | UpdateUserPreferences (session_id : string) (preferences : list (string * pyval))
  | DeleteSession (session_id : string).

Definition perform (m : SessionManager.Manager) (c : session_call)
    : SessionManager.Manager :=
  match c with
  | CreateSession now1 now2 i prefs => (SessionManager.create_session m now1 now2 i prefs).2
  | GetSession now i => (SessionManager.get_session m now i).2
  | UpdateSessionState now i st => SessionManager.update_session_state m now i st
  | IncrementSearchCount i => SessionManager.increment_search_count m i
  | GetUserPreferences now i => (SessionManager.get_user_preferences m now i).2
  | UpdateUserPreferences i prefs => SessionManager.update_user_preferences m i prefs
  | DeleteSession i => SessionManager.delete_session m i
  end.

Definition perform_all (m : SessionManager.Manager) (calls : list session_call)
    : SessionManager.Manager :=
  foldl perform m calls.

(** The call creates or deletes session [i]. *)
Definition begins_or_ends (i : string) (c : session_call) : Prop :=
  match c with
  | CreateSession _ _ j _ | DeleteSession j => j = i
  | _ => False
  end.

(** The number of [increment_search_count(i)] among the calls. *)
Fixpoint increments (i : string) (calls : list session_call) : Z :=
  match calls with
  | [] => 0
  | IncrementSearchCount j :: rest =>
      ((if String.eqb j i then 1 else 0) + increments i rest)%Z
  | _ :: rest => increments i rest
  end.

(** Session [s'] is session [s] after [n] more searches. *)
Definition keeps_session (n : Z) (s s' : SessionManager.Session) : Prop :=
  SessionManager.search_count s' = (SessionManager.search_count s + n)%Z
  /\ SessionManager.id s' = SessionManager.id s
  /\ SessionManager.created_at s' = SessionManager.created_at s.

Definition empty_manager : SessionManager.Manager :=
  {| SessionManager.sessions := ∅; SessionManager.current_session_id := None |}.

(** ** Metrics *)

(** The arguments of one call of [record_search]. *)
Record search_call : Type := {
  call_success : bool;
  call_duration : Q;
  call_products : Z;
  call_platform : string
}.

Definition record_call (m : MetricsCollector.Metrics) (c : search_call)
    : MetricsCollector.Metrics :=
  MetricsCollector.record_search m (call_success c) (call_duration c)
    (call_products c) (call_platform c).

Definition record_calls (calls : list search_call) : MetricsCollector.Metrics :=
  foldl record_call MetricsCollector.init calls.

Definition count_calls (P : search_call -> bool) (calls : list search_call) : Z :=
  Z.of_nat (length (List.filter P calls)).

Definition found_by (calls : list search_call) : Z :=
  foldr Z.add 0%Z (map call_products (List.filter call_success calls)).

(** * Properties *)

(** ** The monad of results *)

Lemma res_bind_OK {A B} (r : res A) (k : A -> res B) (b : B) :
  r ≫= k = OK b -> exists a, r = OK a /\ k a = OK b.
Proof. destruct r as [a|e]; simpl; [eauto | discriminate]. Qed.

Ltac inv_res :=
  repeat match goal with
  | H : OK _ = OK _ |- _ => injection H as H; try subst
  | H : Raise _ = OK _ |- _ => discriminate H
  | H : OK _ = Raise _ |- _ => discriminate H
  | H : _ ≫= _ = OK _ |- _ =>
      let a := fresh "a" in let Ha := fresh "Ha" in
      apply res_bind_OK in H as (a & Ha & H)
  end.

(** ** Comparison of keys *)

Lemma key_cmp_antisym a b c : key_cmp a b = OK c -> key_cmp b a = OK (CompOpp c).
Proof.
  destruct a as [|[| x | p | s]], b as [|[| y | q | t]]; simpl; intros H;
    try discriminate H; inv_res; try reflexivity;
    try (rewrite <- Qcompare_antisym; reflexivity).
  rewrite (String.compare_antisym t s). reflexivity.
Qed.

Lemma key_cmp_num a b : num_key a -> num_key b -> exists c, key_cmp a b = OK c.
Proof.
  intros Ha Hb.
  destruct a as [|[| x | p | s]], b as [|[| y | q | t]]; simpl in *;
    try (eexists; reflexivity);
    try (by destruct Ha);
    try (by destruct Hb).
Qed.

Lemma key_cmp_str a b : str_key a -> str_key b -> exists c, key_cmp a b = OK c.
Proof.
  destruct a as [|[| x | p | s]], b as [|[| y | q | t]]; simpl;
    intros Ha Hb; try contradiction; eexists; reflexivity.
Qed.

Lemma key_lt_false_leq a b : key_lt b a = OK false -> key_leq a b.
Proof.
  unfold key_lt, key_leq, key_le. intros H. inv_res.
  rewrite (key_cmp_antisym _ _ _ Ha). simpl. f_equal.
  destruct a0; simpl in *; congruence.
Qed.

Lemma key_lt_true_leq a b : key_lt a b = OK true -> key_leq a b.
Proof.
  unfold key_lt, key_leq, key_le. intros H. inv_res.
  rewrite Ha. simpl. destruct a0; simpl in *; congruence.
Qed.

Lemma key_leq_lt_false a b : key_leq a b -> key_lt b a = OK false.
Proof.
  unfold key_lt, key_leq, key_le. intros H. inv_res.
  rewrite (key_cmp_antisym _ _ _ Ha). simpl. f_equal.
  destruct a0; simpl in *; congruence.
Qed.

Lemma string_compare_le_trans s t u :
  String.compare s t <> Gt -> String.compare t u <> Gt -> String.compare s u <> Gt.
Proof.
  intros H1 H2.
  destruct (String.compare s t) eqn:E1; [| | congruence].
  - apply String.compare_eq_iff in E1. subst. exact H2.
  - destruct (String.compare t u) eqn:E2; [| | congruence].
    + apply String.compare_eq_iff in E2. subst. congruence.
    + apply String_as_OT.cmp_lt in E1, E2.
      pose proof (String_as_OT.lt_trans _ _ _ E1 E2) as E3.
      apply String_as_OT.cmp_lt in E3. unfold String_as_OT.cmp in E3. congruence.
Qed.

Lemma is_le_true c : is_le c = true <-> c <> Gt.
Proof. destruct c; simpl; split; congruence. Qed.

Lemma key_leq_trans a b c : key_leq a b -> key_leq b c -> key_leq a c.
Proof.
  unfold key_leq, key_le. intros H1 H2. inv_res.
  rename a0 into c2, a1 into c1.
  apply is_le_true in H1, H2.
  destruct a as [|[| x | p | s]], b as [|[| y | q | t]], c as [|[| z | r | u]];
    simpl in *; inv_res; simpl; try congruence; f_equal; apply is_le_true;
    try (apply Qle_alt; apply Qle_alt in H1, H2; eapply Qle_trans; eassumption).
  eapply string_compare_le_trans; eassumption.
Qed.

Lemma key_leq_num_l a b : key_leq a b -> num_key a -> num_key b.
Proof.
  unfold key_leq, key_le. intros H Ha. inv_res.
  destruct a as [|[| x | p | s]], b as [|[| y | q | t]]; simpl in *;
    inv_res; eauto; destruct Ha as [? Ha']; discriminate Ha'.
Qed.

(** ** [sorted]: permutation, order, totality, stability *)

Section SortedFacts.
Context {A : Type} (key : A -> pykey).

Lemma insert_sorted_perm x l r :
  insert_sorted key x l = OK r -> Permutation (x :: l) r.
Proof.
  revert r. induction l as [|y l IH]; simpl; intros r H.
  - inv_res. reflexivity.
  - inv_res. destruct a.
    + inv_res. rewrite perm_swap. constructor. auto.
    + inv_res. reflexivity.
Qed.

Lemma py_sorted_perm l r : py_sorted key l = OK r -> Permutation l r.
Proof.
  revert r. induction l as [|x l IH]; simpl; intros r H; inv_res.
  - reflexivity.
  - apply insert_sorted_perm in H. rewrite <- H. constructor. auto.
Qed.

Lemma insert_sorted_ascending x l r :
  ascending key l -> insert_sorted key x l = OK r -> ascending key r.
Proof.
  unfold ascending, key_order. revert r. induction l as [|y l IH]; simpl; intros r Hs H.
  - inv_res. repeat constructor.
  - inv_res. apply StronglySorted_inv in Hs as [Hl Hy]. destruct a.
    + inv_res. constructor; [eauto|].
      apply insert_sorted_perm in Ha0.
      eapply Permutation_Forall; [exact Ha0|].
      constructor; [|exact Hy]. apply key_lt_true_leq. exact Ha.
    + inv_res. apply key_lt_false_leq in Ha.
      constructor; [constructor; assumption|].
      constructor; [exact Ha|].
      eapply Forall_impl; [exact Hy|]. simpl. intros z Hz.
      eapply key_leq_trans; eassumption.
Qed.

Lemma py_sorted_ascending l r : py_sorted key l = OK r -> ascending key r.
Proof.
  revert r. induction l as [|x l IH]; simpl; intros r H; inv_res.
  - constructor.
  - eapply insert_sorted_ascending; eauto.
Qed.

(** Sorting succeeds when all keys are numeric, or all are strings. *)
Lemma insert_sorted_total (P : pykey -> Prop) x l :
  (forall a b, P a -> P b -> exists c, key_cmp a b = OK c) ->
  P (key x) -> Forall (fun y => P (key y)) l ->
  exists r, insert_sorted key x l = OK r.
Proof.
  intros HP Hx. induction 1 as [|y l Hy Hl IH]; simpl; [eauto|].
  unfold key_lt. destruct (HP _ _ Hy Hx) as [c ->]. simpl.
  destruct (is_lt c); [|eauto]. destruct IH as [r ->]. simpl. eauto.
Qed.

Lemma py_sorted_total (P : pykey -> Prop) l :
  (forall a b, P a -> P b -> exists c, key_cmp a b = OK c) ->
  Forall (fun y => P (key y)) l ->
  exists r, py_sorted key l = OK r.
Proof.
  intros HP. induction 1 as [|x l Hx Hl IH]; simpl; [eauto|].
  destruct IH as [r Hr]. rewrite Hr. simpl.
  apply insert_sorted_total with (P := P); auto.
  apply py_sorted_perm in Hr.
  eapply Permutation_Forall; eassumption.
Qed.

(** A list that is already ascending is returned as it is. *)
Lemma py_sorted_ascending_id l : ascending key l -> py_sorted key l = OK l.
Proof.
  unfold ascending, key_order. induction 1 as [|x l Hl IH Hx]; simpl; [reflexivity|].
  rewrite IH. simpl. destruct l as [|y l']; simpl; [reflexivity|].
  apply Forall_inv in Hx. apply key_leq_lt_false in Hx. rewrite Hx. reflexivity.
Qed.

End SortedFacts.

(** ** [PriceValidator.validate_price] and [filter_by_price] *)

Lemma key_cmp_numbers v w p q :
  as_num v = Some p -> as_num w = Some q ->
  key_cmp (KVal v) (KVal w) = OK (Qcompare p q).
Proof.
  destruct v, w; simpl; intros Hv Hw; try discriminate; congruence.
Qed.

Lemma key_cmp_not_number_r v w p :
  as_num v = Some p -> as_num w = None ->
  key_cmp (KVal v) (KVal w) = Raise TypeError.
Proof. destruct v, w; simpl; intros Hv Hw; try discriminate; reflexivity. Qed.

Lemma key_cmp_not_number_l v w p :
  as_num v = None -> as_num w = Some p ->
  key_cmp (KVal v) (KVal w) = Raise TypeError.
Proof. destruct v, w; simpl; intros Hv Hw; try discriminate; reflexivity. Qed.

Lemma is_lt_Qcompare p q : is_lt (Qcompare p q) = true <-> (p < q)%Q.
Proof.
  rewrite Qlt_alt. destruct (Qcompare p q); simpl; split; congruence.
Qed.

Lemma is_le_Qcompare p q : is_le (Qcompare p q) = true <-> (p <= q)%Q.
Proof. rewrite Qle_alt. apply is_le_true. Qed.

Lemma validate_price_value v max_price :
  PriceValidator.validate_price v max_price
  = OK match as_num v, as_num max_price with
       | Some q, Some m => is_lt (Qcompare 0 q) && is_le (Qcompare q m)
       | _, _ => false
       end.
Proof.
  unfold PriceValidator.validate_price, py_lt, py_le, key_lt, key_le.
  destruct (as_num v) as [q|] eqn:Hv.
  - rewrite (key_cmp_numbers (VInt 0) v (inject_Z 0) q eq_refl Hv).
    change (inject_Z 0) with 0%Q.
    destruct (as_num max_price) as [m|] eqn:Hm.
    + rewrite (key_cmp_numbers v max_price q m Hv Hm). simpl.
      by destruct (is_lt (Qcompare 0 q)).
    + rewrite (key_cmp_not_number_r v max_price q Hv Hm). simpl.
      by destruct (is_lt (Qcompare 0 q)).
  - by rewrite (key_cmp_not_number_r (VInt 0) v (inject_Z 0) eq_refl Hv).
Qed.

Lemma validate_price_spec max_price p :
  PriceValidator.validate_price (default (VInt 0) (price p)) max_price
  = OK (bool_decide (within_budget max_price p)).
Proof.
  rewrite validate_price_value. f_equal.
  case_bool_decide as H; unfold within_budget in H;
    destruct (price p) as [v|]; simpl in *.
  - destruct (as_num v) as [q|]; [|done].
    destruct (as_num max_price) as [m|]; [|done]. destruct H as [H1 H2].
    apply is_lt_Qcompare in H1. apply is_le_Qcompare in H2. by rewrite H1, H2.
  - done.
  - destruct (as_num v) as [q|]; [|done].
    destruct (as_num max_price) as [m|]; [|done].
    apply not_true_is_false. intros Hb. apply H.
    apply andb_true_iff in Hb as [H1 H2].
    apply is_lt_Qcompare in H1. apply is_le_Qcompare in H2. done.
  - by destruct (as_num max_price).
Qed.

Lemma filter_by_price_loop_spec products max_price filtered :
  PriceValidator.filter_by_price_loop products max_price filtered
  = OK (filtered ++ filter (within_budget max_price) products).
Proof.
  revert filtered. induction products as [|p products IH]; intros filtered; simpl.
  - by rewrite app_nil_r.
  - rewrite validate_price_spec. simpl. rewrite IH. f_equal.
    rewrite filter_cons. case_bool_decide as Hp.
    + rewrite decide_True by done. by rewrite <- app_assoc.
    + by rewrite decide_False by done.
Qed.

Lemma filter_by_price_spec products max_price :
  PriceValidator.filter_by_price products max_price
  = OK (filter (within_budget max_price) products).
Proof. apply filter_by_price_loop_spec. Qed.

(** ** [FilterAgent.remove_duplicates] *)

Section Dedup.
Context {text : Text} (float_repr : Q -> string).

Local Abbreviation key := (FilterAgent.dedup_key float_repr).
Local Abbreviation loop := (FilterAgent.remove_duplicates_loop float_repr).
Local Abbreviation remove_duplicates := (FilterAgent.remove_duplicates float_repr).

Lemma remove_duplicates_loop_acc products seen acc :
  loop products seen acc = acc ++ loop products seen [].
Proof.
  revert seen acc. induction products as [|p products IH]; intros seen acc; simpl.
  - by rewrite app_nil_r.
  - destruct (decide (key p ∈ seen)); [apply IH|].
    rewrite (IH _ (acc ++ [p])), (IH _ [p]). by rewrite <- app_assoc.
Qed.


(** A list whose keys are pairwise distinct and unseen is kept whole. *)
Lemma remove_duplicates_loop_nodup products seen :
  NoDup (map key products) ->
  (forall k, k ∈ map key products -> k ∉ seen) ->
  loop products seen [] = products.
Proof.
  revert seen. induction products as [|x products IH]; intros seen Hnd Hseen; simpl.
  - done.
  - apply NoDup_cons in Hnd as [Hx Hnd].
    rewrite decide_False by (apply Hseen; by constructor).
    rewrite remove_duplicates_loop_acc. simpl. f_equal.
    apply IH; [done|]. intros k Hk Hin.
    apply elem_of_union in Hin as [Hin|Hin].
    + apply elem_of_singleton in Hin. by subst.
    + eapply Hseen; [|exact Hin]. by constructor.
Qed.

Lemma remove_duplicates_loop_keys products seen :
  NoDup (map key (loop products seen []))
  /\ (forall k, k ∈ map key (loop products seen []) <->
                k ∈ map key products /\ k ∉ seen)
  /\ sublist (loop products seen []) products.
Proof.
  revert seen. induction products as [|x products IH]; intros seen; simpl.
  - split; [constructor|]. split; [|done]. intros k. split; [|tauto].
    intros H. by apply elem_of_nil in H.
  - destruct (decide (key x ∈ seen)) as [Hx|Hx].
    + destruct (IH seen) as (Hnd & Hk & Hsub). split; [done|]. split.
      * intros k. rewrite Hk. split; [intros [? ?]; split; [by constructor|done]|].
        intros [H Hn]. split; [|done].
        apply elem_of_cons in H as [->|H]; [done|done].
      * by apply sublist_cons.
    + rewrite remove_duplicates_loop_acc. simpl.
      destruct (IH ({[key x]} ∪ seen)) as (Hnd & Hk & Hsub). split; [|split].
      * apply NoDup_cons. split; [|done]. rewrite Hk. set_solver.
      * intros k. rewrite elem_of_cons, Hk, elem_of_cons. split.
        -- intros [->|[H Hn]]; [tauto|]. split; [tauto|]. set_solver.
        -- intros [[->|H] Hn]; [tauto|].
           destruct (decide (k = key x)) as [->|Hne]; [tauto|].
           right. split; [done|]. set_solver.
      * by apply sublist_skip.
Qed.

End Dedup.

(** ** Price filter step, deduplication: the stated properties *)

Lemma price_filter_step_value (criteria : Criteria) (products : list Product) :
  FilterAgent.price_filter_step criteria products
  = OK match max_price criteria with
       | Some mp => if truthy mp then filter (within_budget mp) products else products
       | None => products
       end.
Proof.
  unfold FilterAgent.price_filter_step.
  destruct (max_price criteria) as [mp|]; simpl; [|done].
  destruct (truthy mp); [|done]. apply filter_by_price_spec.
Qed.


Section DedupClaims.
Context {text : Text} (float_repr : Q -> string).

Local Abbreviation key := (FilterAgent.dedup_key float_repr).
Local Abbreviation remove_duplicates := (FilterAgent.remove_duplicates float_repr).




(** C9. Deduplication is idempotent. *)
Theorem remove_duplicates_idempotent (products : list Product) :
  remove_duplicates (remove_duplicates products) = remove_duplicates products.
Proof.
  destruct (remove_duplicates_loop_keys float_repr products ∅) as (Hnd & _ & _).
  unfold FilterAgent.remove_duplicates at 1.
  apply remove_duplicates_loop_nodup; [exact Hnd|]. set_solver.
Qed.

End DedupClaims.

(** ** The order on keys, spelled out *)

Lemma key_leq_numbers v w p q :
  as_num v = Some p -> as_num w = Some q ->
  key_leq (KVal v) (KVal w) <-> (p <= q)%Q.
Proof.
  intros Hv Hw. unfold key_leq, key_le.
  rewrite (key_cmp_numbers v w p q Hv Hw). simpl.
  rewrite <- is_le_Qcompare. split; [by intros [= ->] | by intros ->].
Qed.

Lemma key_leq_inf k : num_key k -> key_leq k KInf.
Proof.
  destruct k as [|[| z | q | s]]; simpl; intros H; try done; by destruct H.
Qed.

Lemma key_leq_inf_l k : key_leq KInf k -> k = KInf.
Proof.
  by destruct k as [|[| z | q | s]].
Qed.

Lemma key_leq_strings s t :
  key_leq (KVal (VStr s)) (KVal (VStr t)) <-> String.compare s t <> Gt.
Proof.
  unfold key_leq, key_le. simpl. rewrite <- is_le_true.
  split; [by intros [= ->] | by intros ->].
Qed.

Lemma key_leq_empty_string t : key_leq (KVal (VStr EmptyString)) (KVal (VStr t)).
Proof. apply key_leq_strings. by destruct t. Qed.

(** ** [FilterAgent.sort_products] *)

Lemma ascending_take {A} (key : A -> pykey) n l :
  ascending key l -> ascending key (take n l).
Proof.
  unfold ascending. intros H. revert n.
  induction H as [|x l Hl IH Hx]; intros [|n]; simpl; try constructor; auto.
  apply Forall_take. exact Hx.
Qed.

Lemma ascending_head_least {A} (key : A -> pykey) x l :
  ascending key (x :: l) -> key_leq (key x) (key x) ->
  forall y, y ∈ x :: l -> key_order key x y.
Proof.
  intros H Hx y Hy. apply StronglySorted_inv in H as [_ H].
  apply elem_of_cons in Hy as [->|Hy]; [exact Hx|].
  rewrite Forall_forall in H. by apply H.
Qed.

Lemma sort_by_price products r :
  py_sorted price_key products = OK r ->
  Permutation products r /\ ascending price_key r.
Proof. intros H. split; [by eapply py_sorted_perm | by eapply py_sorted_ascending]. Qed.

Lemma sort_by_price_total products :
  Forall numeric_price products -> exists r, py_sorted price_key products = OK r.
Proof. intros H. apply py_sorted_total with (P := num_key); [apply key_cmp_num | exact H]. Qed.

Lemma sort_by_string_total (key : Product -> pykey) products :
  (forall p, str_key (key p)) -> exists r, py_sorted key products = OK r.
Proof.
  intros H. apply py_sorted_total with (P := str_key); [apply key_cmp_str|].
  apply Forall_forall. auto.
Qed.

Lemma sort_products_price products :
  FilterAgent.sort_products products "price" = py_sorted price_key products.
Proof. reflexivity. Qed.

Lemma sort_products_platform products :
  FilterAgent.sort_products products "platform" = py_sorted platform_key products.
Proof. reflexivity. Qed.

Lemma sort_products_title products :
  FilterAgent.sort_products products "title" = py_sorted title_key products.
Proof. reflexivity. Qed.

Lemma sort_products_other products sort_by :
  sort_by <> "price" -> sort_by <> "platform" -> sort_by <> "title" ->
  FilterAgent.sort_products products sort_by = OK products.
Proof.
  intros H1 H2 H3. unfold FilterAgent.sort_products.
  apply String.eqb_neq in H1, H2, H3. by rewrite H1, H2, H3.
Qed.

Lemma sort_products_perm products sort_by r :
  FilterAgent.sort_products products sort_by = OK r -> Permutation products r.
Proof.
  unfold FilterAgent.sort_products.
  destruct (String.eqb sort_by "price"); [apply py_sorted_perm|].
  destruct (String.eqb sort_by "platform"); [apply py_sorted_perm|].
  destruct (String.eqb sort_by "title"); [apply py_sorted_perm|].
  by intros [= ->].
Qed.

(** The statement "for every product list, sort_products returns a
    permutation" fails for the key ['price']: two products, one priced
    with a string and one with a number, make [sorted] raise
    [TypeError], so nothing is returned. *)
Lemma sort_products_price_raises :
  FilterAgent.sort_products
    [sample_product "a" (Some (VStr "x")) "jd"; sample_product "b" (Some (VInt 1)) "jd"]
    "price" = Raise TypeError
  /\ ~ exists r,
       FilterAgent.sort_products
         [sample_product "a" (Some (VStr "x")) "jd"; sample_product "b" (Some (VInt 1)) "jd"]
         "price" = OK r.
Proof. split; [reflexivity|]. intros [r H]. discriminate H. Qed.

(** C8, amended.  [sort_products] returns a permutation of its input
    whenever it returns.  For ['price'] it returns, provided every price
    present is a number, the list ascending by price with a missing
    price as +infinity (last); for ['platform'] and ['title'] it always
    returns the list ascending lexicographically, a missing value as the
    empty string (first); any other [sort_by] returns the input
    unchanged. *)
Theorem sort_products_spec (products : list Product) (sort_by : string) :
  (forall r, FilterAgent.sort_products products sort_by = OK r -> Permutation products r)
  /\ (Forall numeric_price products ->
      exists r, FilterAgent.sort_products products "price" = OK r
                /\ Permutation products r /\ ascending price_key r)
  /\ (exists r, FilterAgent.sort_products products "platform" = OK r
                /\ Permutation products r /\ ascending platform_key r)
  /\ (exists r, FilterAgent.sort_products products "title" = OK r
                /\ Permutation products r /\ ascending title_key r)
  /\ (sort_by <> "price" -> sort_by <> "platform" -> sort_by <> "title" ->
      FilterAgent.sort_products products sort_by = OK products)
  /\ (forall p, price p = None -> price_key p = KInf)
  /\ (forall k, num_key k -> key_leq k KInf)
  /\ (forall p, platform p = None -> platform_key p = KVal (VStr EmptyString))
  /\ (forall p, title p = None -> title_key p = KVal (VStr EmptyString))
  /\ (forall t, key_leq (KVal (VStr EmptyString)) (KVal (VStr t))).
Proof.
  split; [intros r; apply sort_products_perm|].
  split.
  { intros Hnum. destruct (sort_by_price_total products Hnum) as [r Hr].
    exists r. split; [exact Hr|]. by apply sort_by_price. }
  split.
  { destruct (sort_by_string_total platform_key products) as [r Hr]; [done|].
    exists r. split; [exact Hr|].
    split; [by eapply py_sorted_perm | by eapply py_sorted_ascending]. }
  split.
  { destruct (sort_by_string_total title_key products) as [r Hr]; [done|].
    exists r. split; [exact Hr|].
    split; [by eapply py_sorted_perm | by eapply py_sorted_ascending]. }
  split; [apply sort_products_other|].
  split; [by intros p; unfold price_key; intros ->|].
  split; [apply key_leq_inf|].
  split; [by intros p; unfold platform_key; intros ->|].
  split; [by intros p; unfold title_key; intros ->|].
  apply key_leq_empty_string.
Qed.

(** ** [PriceValidator.find_best_deals] *)

Lemma py_take_nonneg {A} (n : Z) (l : list A) :
  (0 <= n)%Z -> py_take n l = take (Z.to_nat n) l.
Proof. intros H. unfold py_take. apply Z.leb_le in H. by rewrite H. Qed.

Lemma find_best_deals_spec products top_n bd :
  PriceValidator.find_best_deals products top_n = OK bd -> (0 <= top_n)%Z ->
  exists sorted_products,
    py_sorted price_key products = OK sorted_products
    /\ Permutation products sorted_products
    /\ ascending price_key sorted_products
    /\ bd = take (Nat.min (Z.to_nat top_n) (length products)) sorted_products
    /\ length bd = Nat.min (Z.to_nat top_n) (length products)
    /\ ascending price_key bd.
Proof.
  intros H Hn. unfold PriceValidator.find_best_deals in H.
  destruct products as [|p products].
  - inv_res. exists []. rewrite Nat.min_0_r. simpl.
    repeat split; try done; constructor.
  - inv_res. rename a into s. exists s.
    destruct (sort_by_price _ _ Ha) as [Hperm Hasc].
    assert (Hlen : length s = length (p :: products))
      by (symmetry; by apply Permutation_length).
    rewrite py_take_nonneg by done. rewrite <- Hlen.
    assert (Htake : take (Z.to_nat top_n) s = take (Nat.min (Z.to_nat top_n) (length s)) s).
    { destruct (Nat.le_ge_cases (Z.to_nat top_n) (length s)) as [Hle|Hge].
      - by rewrite Nat.min_l.
      - rewrite Nat.min_r by done. rewrite !firstn_all2; [done | lia | lia]. }
    repeat split; try done.
    + rewrite length_take. lia.
    + by apply ascending_take.
Qed.

(** ** [FilterAgent.execute] *)

Section Execute.
Context {text : Text} (float_repr : Q -> string).

Local Abbreviation execute := (FilterAgent.execute float_repr).
Local Abbreviation try_body := (FilterAgent.try_body float_repr).

(** What the [except] clause returns. *)
Lemma execute_error_shape task :
  FilterAgent.status (execute task) <> "success" ->
  FilterAgent.status (execute task) = "error"
  /\ FilterAgent.filtered_products (execute task) = Some []
  /\ FilterAgent.filtered_count (execute task) = Some 0
  /\ is_Some (FilterAgent.error (execute task))
  /\ exists n, FilterAgent.original_count (execute task) = Some n
               /\ n <= length (default [] (FilterAgent.products task)).
Proof.
  unfold FilterAgent.execute, FilterAgent.try_body.
  set (ps := default [] (FilterAgent.products task)).
  set (cr := default FilterAgent.empty_criteria (FilterAgent.search_criteria task)).
  rewrite (price_filter_step_value cr ps).
  set (ps1 := match max_price cr with
              | Some mp => if truthy mp then filter (within_budget mp) ps else ps
              | None => ps
              end).
  assert (H1 : length ps1 <= length ps).
  { unfold ps1. destruct (max_price cr) as [mp|]; [|done].
    destruct (truthy mp); [apply length_filter | done]. }
  set (ps2 := if default true (FilterAgent.filter_duplicates task)
              then FilterAgent.remove_duplicates float_repr ps1 else ps1).
  assert (H2 : length ps2 <= length ps1).
  { unfold ps2. destruct (default true (FilterAgent.filter_duplicates task)); [|done].
    apply sublist_length.
    by destruct (remove_duplicates_loop_keys float_repr ps1 ∅) as (_ & _ & ?). }
  destruct (FilterAgent.sort_products ps2 _) as [ps3|e] eqn:Hsort; simpl.
  - assert (H3 : length ps3 = length ps2)
      by (symmetry; apply Permutation_length; by eapply sort_products_perm).
    destruct (PriceValidator.analyze_prices ps3) as [pa|e]; simpl.
    + destruct (PriceValidator.find_best_deals ps3 5) as [bd|e]; simpl; [done|].
      intros _. repeat split; try done. exists (length ps3). split; [done | lia].
    + intros _. repeat split; try done. exists (length ps3). split; [done | lia].
  - intros _. repeat split; try done. exists (length ps2). split; [done | lia].
Qed.

End Execute.

(** ** Best deals and prices that are not positive *)

Lemma key_leq_refl_num k : num_key k -> key_leq k k.
Proof.
  destruct k as [|[| z | q | s]]; simpl; intros H; try done; try (by destruct H);
    unfold key_leq, key_le; simpl; f_equal; apply is_le_Qcompare; apply Qle_refl.
Qed.

Lemma find_best_deals_head_least products top_n bd :
  PriceValidator.find_best_deals products top_n = OK bd ->
  (0 < top_n)%Z -> products <> [] -> Forall numeric_price products ->
  exists h, head bd = Some h /\ h ∈ products
            /\ forall p, p ∈ products -> key_order price_key h p.
Proof.
  intros H Hn Hne Hnum.
  destruct (find_best_deals_spec products top_n bd H) as (s & _ & Hperm & Hasc & Hbd & _);
    [lia|].
  destruct s as [|h s].
  { apply Permutation_nil_r in Hperm. contradiction. }
  exists h. split; [|split].
  - rewrite Hbd. destruct products as [|p products]; [done|].
    destruct (Z.to_nat top_n) as [|n] eqn:Hz; [lia|]. reflexivity.
  - rewrite Hperm. by constructor.
  - intros p Hp. rewrite Hperm in Hp.
    apply (ascending_head_least price_key h s); [done| |done].
    apply key_leq_refl_num. rewrite Forall_forall in Hnum. apply Hnum.
    rewrite Hperm. by constructor.
Qed.

Lemma find_best_deals_keeps_nonpositive products top_n bd p v q :
  PriceValidator.find_best_deals products top_n = OK bd ->
  (0 < top_n)%Z -> Forall numeric_price products ->
  p ∈ products -> price p = Some v -> as_num v = Some q -> (q <= 0)%Q ->
  exists h w r, head bd = Some h /\ h ∈ products /\ price h = Some w
                /\ as_num w = Some r /\ (r <= 0)%Q.
Proof.
  intros H Hn Hnum Hp Hv Hq Hq0.
  destruct (find_best_deals_head_least products top_n bd H Hn) as (h & Hh & Hin & Hleast);
    [by intros -> ; apply elem_of_nil in Hp | done |].
  specialize (Hleast p Hp). unfold key_order, price_key in Hleast. rewrite Hv in Hleast.
  destruct (price h) as [w|] eqn:Hw.
  - assert (Hnw : is_Some (as_num w)).
    { rewrite Forall_forall in Hnum. specialize (Hnum h Hin).
      unfold numeric_price, price_key in Hnum. by rewrite Hw in Hnum. }
    destruct Hnw as [r Hr]. exists h, w, r. repeat split; try done.
    apply (key_leq_numbers w v r q Hr Hq) in Hleast. by eapply Qle_trans.
  - by apply key_leq_inf_l in Hleast.
Qed.

(** The runs evaluated below use the ASCII texts and the float format
    of the samples. *)
Section EvaluatedRuns.
#[local] Existing Instance ascii_text.

(** C10.  [find_best_deals] orders products by price alone: a missing
  price sorts last and a price that is zero or negative sorts before
  every positive price, so when some product is priced at or below
  zero the first best deal is such a product.  On the input below,
  which carries no [max_price] and so skips the price filter, the
  first best deal is priced 0 while [price_analysis] counts only the
  one positive price. *)
Theorem best_deals_include_nonpositive_prices :
(forall products top_n bd p v q,
    PriceValidator.find_best_deals products top_n = OK bd ->
    (0 < top_n)%Z -> Forall numeric_price products ->
    p ∈ products -> price p = Some v -> as_num v = Some q -> (q <= 0)%Q ->
    exists h w r, head bd = Some h /\ h ∈ products /\ price h = Some w
                  /\ as_num w = Some r /\ (r <= 0)%Q)
/\ (forall k, num_key k -> key_leq k KInf)
/\ (let free := sample_product "free sample" (Some (VInt 0)) "jd" in
    let phone := sample_product "phone" (Some (VInt 10)) "pdd" in
    let result :=
      FilterAgent.execute sample_float_repr (sample_filter_task [phone; free] None) in
    FilterAgent.status result = "success"
    /\ FilterAgent.best_deals result = Some [free; phone]
    /\ (PriceValidator.count <$> FilterAgent.price_analysis result) = Some 1
    /\ (PriceValidator.min <$> FilterAgent.price_analysis result) = Some (VInt 10)).
Proof.
split; [apply find_best_deals_keeps_nonpositive|].
split; [apply key_leq_inf|].
vm_compute. done.
Qed.

(** C2, at a failing input.  With no [max_price] the two products below
  share a key, so deduplication leaves one; its price is a string and
  price analysis raises [TypeError].  The degraded result then reports
  [original_count = 1] for an input of two products: the [except]
  clause measures the list left by the steps already run, not the
  input. *)
Theorem execute_error_reports_shrunk_count :
let ps := [sample_product "a" (Some (VStr "x")) "jd";
           sample_product "a" (Some (VStr "x")) "taobao"] in
let result := FilterAgent.execute sample_float_repr (sample_filter_task ps None) in
length ps = 2
/\ FilterAgent.status result = "error"
/\ FilterAgent.filtered_products result = Some []
/\ FilterAgent.filtered_count result = Some 0
/\ FilterAgent.error result = Some TypeError
/\ FilterAgent.original_count result = Some 1.
Proof. vm_compute. done. Qed.

End EvaluatedRuns.

(** ** Arithmetic on numbers *)

Lemma number_value v : number v -> as_num v = Some (value v).
Proof. intros [q Hq]. unfold value. by rewrite Hq. Qed.

Lemma positive_number v : positive v -> number v.
Proof. unfold positive, number. destruct (as_num v); [eauto | done]. Qed.

Lemma positive_value v : positive v -> (0 < value v)%Q.
Proof. unfold positive, value. by destruct (as_num v). Qed.

Lemma number_pynum v : number v -> exists n, as_pynum v = Some n.
Proof. intros [q Hq]. destruct v; try discriminate Hq; by eexists. Qed.

Lemma or_overflow_bind {A B} (P : A -> Prop) (Q : B -> Prop) (r : res A)
    (k : A -> res B) :
  or_overflow P r -> (forall a, P a -> or_overflow Q (k a)) -> or_overflow Q (r ≫= k).
Proof. destruct r as [a|e]; simpl; [by intros Ha Hk; apply Hk | done]. Qed.

Lemma or_overflow_impl {A} (P Q : A -> Prop) (r : res A) :
  or_overflow P r -> (forall a, P a -> Q a) -> or_overflow Q r.
Proof. destruct r as [a|e]; simpl; [by intros Ha H; apply H | done]. Qed.

Lemma float_of_int_overflow z : or_overflow (fun _ => True) (float_of_int z).
Proof. unfold float_of_int. by destruct (round_double (inject_Z z)). Qed.

Lemma to_float_overflow n : or_overflow (fun _ => True) (to_float n).
Proof. destruct n; simpl; [apply float_of_int_overflow | done]. Qed.

Lemma num_add_overflow a b : or_overflow (fun _ => True) (num_add a b).
Proof.
  assert (H : or_overflow (fun _ : pynum => True)
                (x ← to_float a; y ← to_float b; OK (NFloat (float_add x y)))).
  { eapply or_overflow_bind; [apply to_float_overflow|]. intros x _.
    eapply or_overflow_bind; [apply to_float_overflow|]. by intros y _. }
  destruct a, b; simpl in *; done.
Qed.

Lemma num_truediv_overflow a b :
  num_is_zero b = false -> or_overflow (fun _ => True) (num_truediv a b).
Proof.
  intros Hb.
  assert (H : or_overflow (fun _ : pyfloat => True)
                (x ← to_float a; y ← to_float b;
                 if num_is_zero b then Raise ZeroDivisionError else OK (float_div x y))).
  { eapply or_overflow_bind; [apply to_float_overflow|]. intros x _.
    eapply or_overflow_bind; [apply to_float_overflow|]. intros y _. by rewrite Hb. }
  destruct a as [x|f], b as [y|g]; try exact H.
  unfold num_truediv. simpl in Hb. rewrite Hb.
  by destruct (round_double (inject_Z x / inject_Z y)).
Qed.

Lemma py_add_overflow a b :
  number a -> number b -> or_overflow (fun _ => True) (py_add a b).
Proof.
  intros [x Hx]%number_pynum [y Hy]%number_pynum. unfold py_add. rewrite Hx, Hy.
  apply num_add_overflow.
Qed.

Lemma py_sum_from_overflow acc l :
  Forall number l -> or_overflow (fun _ => True) (py_sum_from acc l).
Proof.
  intros Hl. revert acc. induction Hl as [|v l Hv Hl IH]; intros acc; simpl; [done|].
  destruct (number_pynum v Hv) as [n ->].
  eapply or_overflow_bind; [apply num_add_overflow|]. intros acc' _. apply IH.
Qed.

Lemma py_sum_from_ints acc l :
  Forall is_int l -> py_sum_from (NInt acc) l = OK (NInt (acc + int_total l)).
Proof.
  intros Hl. revert acc. induction Hl as [|v l [z ->] Hl IH]; intros acc; simpl.
  - by rewrite Z.add_0_r.
  - rewrite IH. by rewrite Z.add_assoc.
Qed.

Lemma of_nat_not_zero {A} (l : list A) :
  l <> [] -> (Z.of_nat (length l) =? 0)%Z = false.
Proof. intros Hne. destruct l; [done|]. apply Z.eqb_neq. simpl length. lia. Qed.

(** The mean as the interpreter computes it. *)
Lemma py_mean_spec l :
  l <> [] -> Forall number l -> or_overflow (fun a => is_mean a l) (py_mean l).
Proof.
  intros Hne Hl.
  destruct (py_mean l) as [a|e] eqn:Hmean; simpl.
  - split; [done|]. intros Hints. unfold py_mean, py_sum in Hmean.
    rewrite (py_sum_from_ints 0 l Hints), Z.add_0_l in Hmean.
    unfold mbind, res_bind, num_truediv in Hmean.
    rewrite (of_nat_not_zero l Hne) in Hmean.
    set (r := round_double _) in *. destruct r; congruence.
  - assert (H : or_overflow (fun _ => True) (py_mean l)).
    { unfold py_mean. eapply or_overflow_bind; [by apply py_sum_from_overflow|].
      intros t _. apply num_truediv_overflow. by apply of_nat_not_zero. }
    by rewrite Hmean in H.
Qed.

Lemma half_sum_spec a b :
  number a -> number b ->
  or_overflow (fun f => forall x y, a = VInt x -> b = VInt y ->
                          f = round_double (inject_Z (x + y) / inject_Z 2))
    (half_sum a b).
Proof.
  intros Ha Hb. destruct (half_sum a b) as [f|e] eqn:Hhalf; simpl.
  - intros x y -> ->. unfold half_sum, py_add, mbind, res_bind in Hhalf.
    cbn [as_pynum num_add num_truediv Z.eqb] in Hhalf.
    set (r := round_double _) in *. destruct r; congruence.
  - assert (H : or_overflow (fun _ => True) (half_sum a b)).
    { unfold half_sum. eapply or_overflow_bind; [by apply py_add_overflow|].
      intros t _. by apply num_truediv_overflow. }
    by rewrite Hhalf in H.
Qed.

Lemma py_lt_number a b :
  number a -> number b -> py_lt a b = OK (is_lt (Qcompare (value a) (value b))).
Proof.
  intros Ha Hb. unfold py_lt, key_lt.
  by rewrite (key_cmp_numbers a b _ _ (number_value a Ha) (number_value b Hb)).
Qed.

Lemma py_gt_number a b :
  number a -> number b -> py_gt a b = OK (is_lt (Qcompare (value b) (value a))).
Proof. intros Ha Hb. unfold py_gt. by apply (py_lt_number b a). Qed.

Lemma py_min_from_number m l :
  number m -> Forall number l ->
  exists r, py_min_from m l = OK r /\ r ∈ m :: l
            /\ forall v, v ∈ m :: l -> (value r <= value v)%Q.
Proof.
  intros Hm Hl. revert m Hm.
  induction Hl as [|x l Hx Hl IH]; intros m Hm; simpl.
  - exists m. split; [done|]. split; [by constructor|].
    intros v Hv. apply list_elem_of_singleton in Hv as ->. apply Qle_refl.
  - rewrite (py_lt_number x m Hx Hm). simpl.
    destruct (is_lt (Qcompare (value x) (value m))) eqn:Hlt.
    + apply is_lt_Qcompare in Hlt.
      destruct (IH x Hx) as (r & Hr & Hin & Hleast). exists r.
      split; [done|]. split; [set_solver|].
      intros v Hv. apply elem_of_cons in Hv as [->|Hv]; [|by apply Hleast].
      apply Qle_trans with (value x); [apply Hleast; by constructor|].
      by apply Qlt_le_weak.
    + assert (Hle : (value m <= value x)%Q).
      { apply Qnot_lt_le. intros H. apply is_lt_Qcompare in H. congruence. }
      destruct (IH m Hm) as (r & Hr & Hin & Hleast). exists r.
      split; [done|]. split; [set_solver|].
      intros v Hv. apply elem_of_cons in Hv as [->|Hv]; [apply Hleast; by constructor|].
      apply elem_of_cons in Hv as [->|Hv]; [|apply Hleast; by constructor].
      apply Qle_trans with (value m); [apply Hleast; by constructor | done].
Qed.

Lemma py_max_from_number m l :
  number m -> Forall number l ->
  exists r, py_max_from m l = OK r /\ r ∈ m :: l
            /\ forall v, v ∈ m :: l -> (value v <= value r)%Q.
Proof.
  intros Hm Hl. revert m Hm.
  induction Hl as [|x l Hx Hl IH]; intros m Hm; simpl.
  - exists m. split; [done|]. split; [by constructor|].
    intros v Hv. apply list_elem_of_singleton in Hv as ->. apply Qle_refl.
  - rewrite (py_gt_number x m Hx Hm). simpl.
    destruct (is_lt (Qcompare (value m) (value x))) eqn:Hlt.
    + apply is_lt_Qcompare in Hlt.
      destruct (IH x Hx) as (r & Hr & Hin & Hmost). exists r.
      split; [done|]. split; [set_solver|].
      intros v Hv. apply elem_of_cons in Hv as [->|Hv]; [|by apply Hmost].
      apply Qle_trans with (value x); [by apply Qlt_le_weak|].
      apply Hmost; by constructor.
    + assert (Hle : (value x <= value m)%Q).
      { apply Qnot_lt_le. intros H. apply is_lt_Qcompare in H. congruence. }
      destruct (IH m Hm) as (r & Hr & Hin & Hmost). exists r.
      split; [done|]. split; [set_solver|].
      intros v Hv. apply elem_of_cons in Hv as [->|Hv]; [apply Hmost; by constructor|].
      apply elem_of_cons in Hv as [->|Hv]; [|apply Hmost; by constructor].
      apply Qle_trans with (value m); [done | apply Hmost; by constructor].
Qed.

Lemma py_min_number l :
  l <> [] -> Forall number l -> exists r, py_min l = OK r /\ is_minimum r l.
Proof.
  intros Hne Hl. destruct l as [|m l]; [done|].
  apply Forall_cons in Hl as [Hm Hl].
  destruct (py_min_from_number m l Hm Hl) as (r & Hr & Hin & Hleast).
  exists r. by split.
Qed.

Lemma py_max_number l :
  l <> [] -> Forall number l -> exists r, py_max l = OK r /\ is_maximum r l.
Proof.
  intros Hne Hl. destruct l as [|m l]; [done|].
  apply Forall_cons in Hl as [Hm Hl].
  destruct (py_max_from_number m l Hm Hl) as (r & Hr & Hin & Hmost).
  exists r. by split.
Qed.


(** ** Arithmetic within the range of floats *)

Section FloatRange.
Local Open Scope Q_scope.

Lemma pow2_Qpower e : pow2 e == 2 ^ e.
Proof.
unfold pow2. destruct (Z.leb_spec 0 e) as [H|H].
- apply (Zpower_Qpower 2 e H).
- rewrite (Zpower_Qpower 2 (- e)) by lia.
  rewrite Qpower_opp. change (inject_Z 2) with 2.
  apply Qinv_involutive.
Qed.

Lemma pow2_pos e : 0 < pow2 e.
Proof. rewrite pow2_Qpower. apply Qpower_0_lt. reflexivity. Qed.

Lemma pow2_le e f : (e <= f)%Z -> pow2 e <= pow2 f.
Proof.
intros H. rewrite !pow2_Qpower. apply Qpower_le_compat_l; [exact H|]. discriminate.
Qed.

Lemma pow2_lt_inv e f : pow2 e < pow2 f -> (e < f)%Z.
Proof.
rewrite !pow2_Qpower. intros H.
apply (Qpower_lt_compat_l_inv 2); [exact H | reflexivity].
Qed.

Lemma pow2_sub e f : pow2 (e - f) == pow2 e / pow2 f.
Proof. rewrite !pow2_Qpower. apply Qpower_minus. discriminate. Qed.

Lemma pow2_succ e : pow2 (e + 1) == 2 * pow2 e.
Proof.
rewrite !pow2_Qpower. rewrite Qpower_plus by discriminate.
rewrite Qpower_1_r. apply Qmult_comm.
Qed.

Lemma rne_upper t : inject_Z (rne t) <= t + (1 # 2).
Proof.
unfold rne. pose proof (Qfloor_le t) as Hf.
destruct (Qcompare_spec (t - inject_Z (Qfloor t)) (1 # 2)) as [H|H|H].
- destruct (Z.even (Qfloor t)); [lra|]. rewrite inject_Z_plus.
  change (inject_Z 1) with 1. lra.
- lra.
- rewrite inject_Z_plus. change (inject_Z 1) with 1. lra.
Qed.

(** Bounds on a positive rational from the binary logarithms of its
  numerator and denominator. *)
Lemma log2_quotient_lower a :
0 < a -> pow2 (Z.log2 (Qnum a) - Z.log2 (Zpos (Qden a)) - 1) <= a.
Proof.
intros Ha.
assert (Hn : (0 < Qnum a)%Z) by (unfold Qlt in Ha; simpl in Ha; lia).
pose proof (Z.log2_spec (Qnum a) Hn) as [Hn1 _].
pose proof (Z.log2_spec (Zpos (Qden a)) eq_refl) as [_ Hd2].
pose proof (Z.log2_nonneg (Qnum a)) as Hln.
pose proof (Z.log2_nonneg (Zpos (Qden a))) as Hld.
replace (Z.log2 (Qnum a) - Z.log2 (Z.pos (Qden a)) - 1)%Z
  with (Z.log2 (Qnum a) - Z.succ (Z.log2 (Z.pos (Qden a))))%Z by lia.
rewrite pow2_sub. unfold pow2.
destruct (Z.leb_spec 0 (Z.log2 (Qnum a))) as [_|?]; [|lia].
destruct (Z.leb_spec 0 (Z.succ (Z.log2 (Z.pos (Qden a))))) as [_|?]; [|lia].
set (N := (2 ^ Z.log2 (Qnum a))%Z) in *.
set (D := (2 ^ Z.succ (Z.log2 (Z.pos (Qden a))))%Z) in *.
clearbody N D.
assert (HD : (0 < D)%Z) by lia.
apply Qle_shift_div_r; [unfold Qlt; simpl; lia|].
unfold Qle. cbn [Qnum Qden Qmult inject_Z]. nia.
Qed.

Lemma qlog2_lt a e : 0 < a -> a < pow2 e -> (qlog2 a < e)%Z.
Proof.
intros Ha Hlt. unfold qlog2.
set (k := (Z.log2 (Qnum a) - Z.log2 (Z.pos (Qden a)))%Z).
destruct (Qle_bool (pow2 k) a) eqn:Hk.
- apply Qle_bool_iff in Hk. apply pow2_lt_inv. lra.
- pose proof (log2_quotient_lower a Ha) as Hlow. fold k in Hlow.
  apply pow2_lt_inv. lra.
Qed.

Lemma Qabs_pos x : ~ x == 0 -> 0 < Qabs x.
Proof.
intros H0. destruct (Qlt_le_dec 0 (Qabs x)) as [?|Hle]; [assumption|].
exfalso. apply H0. revert Hle. apply Qabs_case; intros ? ?; lra.
Qed.

(** A rational of magnitude below [2 ^ 1023] rounds to a finite float. *)
Lemma round_double_finite x :
Qabs x < pow2 1023 -> exists q, round_double x = Finite q.
Proof.
intros Hx. unfold round_double.
destruct (Qeq_bool x 0) eqn:H0; [by eexists|].
apply Qeq_bool_neq in H0. pose proof (Qabs_pos x H0) as Ha.
set (a := Qabs x) in *.
set (e := Z.max (qlog2 a - 52) (-1074)).
assert (He : (e <= 1022)%Z).
{ pose proof (qlog2_lt a 1023 Ha Hx). unfold e. lia. }
set (t := a / pow2 e).
assert (Hy : inject_Z (rne t) * pow2 e < pow2 1024).
{ pose proof (rne_upper t) as Hr. pose proof (pow2_pos e) as Hp.
  pose proof (pow2_le e 1022 He) as Hle.
  pose proof (pow2_succ 1022) as H1. pose proof (pow2_succ 1023) as H2.
  change (1022 + 1)%Z with 1023%Z in H1. change (1023 + 1)%Z with 1024%Z in H2.
  assert (Ht : t * pow2 e == a).
  { unfold t. field. lra. }
  set (P := pow2 e) in *. set (P2 := pow2 1022) in *.
  set (P3 := pow2 1023) in *. set (P4 := pow2 1024) in *.
  clearbody P P2 P3 P4.
  assert (Hmul : inject_Z (rne t) * P <= (t + (1 # 2)) * P).
  { apply Qmult_le_compat_r; lra. }
  lra. }
destruct (Qle_bool (pow2 1024) _) eqn:Hb; [|by eexists].
apply Qle_bool_iff in Hb. fold a e t in Hb. lra.
Qed.

Lemma pow2_float_range : pow2 1023 = inject_Z float_range.
Proof. reflexivity. Qed.

Lemma int_in_range z :
(Z.abs z < float_range)%Z -> Qabs (inject_Z z) < pow2 1023.
Proof.
intros H. rewrite pow2_float_range.
change (Qabs (inject_Z z)) with (inject_Z (Z.abs z)). by rewrite <- Zlt_Qlt.
Qed.

Lemma float_of_int_returns z :
(Z.abs z < float_range)%Z -> exists q, float_of_int z = OK (Finite q).
Proof.
intros H. unfold float_of_int.
destruct (round_double_finite (inject_Z z) (int_in_range z H)) as [q ->]. by exists q.
Qed.

Lemma quotient_in_range x y :
y <> 0%Z -> (Z.abs x < float_range)%Z ->
Qabs (inject_Z x / inject_Z y) < pow2 1023.
Proof.
intros Hy Hx. eapply Qle_lt_trans; [|apply (int_in_range x Hx)].
unfold Qdiv. rewrite Qabs_Qmult, Qabs_Qinv.
change (Qabs (inject_Z y)) with (inject_Z (Z.abs y)).
assert (H1 : 1 <= inject_Z (Z.abs y)).
{ change 1 with (inject_Z 1). rewrite <- Zle_Qle. lia. }
pose proof (Qabs_nonneg (inject_Z x)) as H0.
apply Qle_shift_div_r; [lra|]. 
set (A := Qabs (inject_Z x)) in *. set (B := inject_Z (Z.abs y)) in *.
clearbody A B. nra.
Qed.

Lemma truediv_ints_returns x y :
y <> 0%Z -> (Z.abs x < float_range)%Z ->
exists q, num_truediv (NInt x) (NInt y) = OK (Finite q).
Proof.
intros Hy Hx. unfold num_truediv.
destruct (Z.eqb_spec y 0) as [->|_]; [done|].
destruct (round_double_finite _ (quotient_in_range x y Hy Hx)) as [q ->]. by exists q.
Qed.

End FloatRange.

Lemma to_float_returns n : convertible n -> exists f, to_float n = OK f.
Proof.
  destruct n as [z|f]; simpl; [|by eexists].
  intros H. destruct (float_of_int_returns z H) as [q ->]. by eexists.
Qed.

Lemma num_add_returns a b :
  convertible a -> convertible b ->
  exists c, num_add a b = OK c
            /\ match a, b with
               | NInt x, NInt y => c = NInt (x + y)
               | _, _ => exists f, c = NFloat f
               end.
Proof.
  intros Ha Hb.
  destruct (to_float_returns a Ha) as [x Hx], (to_float_returns b Hb) as [y Hy].
  destruct a as [za|fa], b as [zb|fb]; cbn [num_add];
    try (rewrite Hx; cbn [mbind res_bind]; rewrite Hy; cbn [mbind res_bind]);
    eexists; (split; [reflexivity|]); try reflexivity; by eexists.
Qed.

Lemma num_truediv_returns a b :
  convertible a -> convertible b -> num_is_zero b = false ->
  exists f, num_truediv a b = OK f.
Proof.
  intros Ha Hb Hz.
  destruct (to_float_returns a Ha) as [x Hx], (to_float_returns b Hb) as [y Hy].
  destruct a as [za|fa], b as [zb|fb]; cbn [num_truediv];
    try (rewrite Hx; cbn [mbind res_bind]; rewrite Hy; cbn [mbind res_bind]; rewrite Hz;
         by eexists).
  simpl in Hz. apply Z.eqb_neq in Hz.
  destruct (truediv_ints_returns za zb Hz Ha) as [q Hq]. exists (Finite q). exact Hq.
Qed.

Lemma positive_int_at_most M v :
  positive v -> int_at_most M v ->
  exists n, as_pynum v = Some n /\ partial_sum M n.
Proof.
  destruct v as [|z|q|s]; simpl; try done.
  - unfold positive. simpl. intros Hz Hm. exists (NInt z). split; [done|]. simpl.
    change 0%Q with (inject_Z 0) in Hz. rewrite <- Zlt_Qlt in Hz. lia.
  - intros _ _. by exists (NFloat (Finite q)).
Qed.

Lemma partial_sum_convertible K n :
  partial_sum K n -> (K < float_range)%Z -> convertible n.
Proof. destruct n as [z|f]; simpl; [lia | done]. Qed.

Lemma py_sum_from_returns M l :
  (0 <= M)%Z -> Forall positive l -> Forall (int_at_most M) l ->
  forall acc K,
    (0 <= K)%Z -> partial_sum K acc -> (K + Z.of_nat (length l) * M < float_range)%Z ->
    exists t, py_sum_from acc l = OK t /\ partial_sum (K + Z.of_nat (length l) * M) t.
Proof.
  intros HM Hpos Hle. induction Hpos as [|v l Hv Hpos IH]; intros acc K HK Hacc Hrange.
  - exists acc. split; [done|]. simpl. by rewrite Z.add_0_r.
  - apply Forall_cons in Hle as [Hvm Hle].
    destruct (positive_int_at_most M v Hv Hvm) as (n & Hn & Hsmall).
    cbn [py_sum_from]. rewrite Hn.
    assert (Hlen : (Z.of_nat (length (v :: l)) = Z.of_nat (length l) + 1)%Z)
      by (simpl length; lia).
    rewrite Hlen in *.
    assert (Hl0 : (0 <= Z.of_nat (length l) * M)%Z) by nia.
    destruct (num_add_returns acc n) as (c & Hc & Hshape).
    { eapply partial_sum_convertible; [exact Hacc | lia]. }
    { eapply partial_sum_convertible; [exact Hsmall | lia]. }
    rewrite Hc. cbn [mbind res_bind].
    destruct (IH Hle c (K + M)%Z) as (t & Ht & Hsum).
    + lia.
    + destruct acc as [za|fa], n as [zn|fn]; simpl in *;
        try (by destruct Hshape as [f ->]). subst c. simpl. lia.
    + lia.
    + exists t. split; [done|].
      by replace (K + (Z.of_nat (length l) + 1) * M)%Z
        with (K + M + Z.of_nat (length l) * M)%Z by lia.
Qed.

(** [sum(l) / len(l)] returns when the positive prices [l] hold no int
    above [M] and [len(l) * M] is within the range of floats. *)
Lemma py_mean_returns M l :
  (1 <= M)%Z -> l <> [] -> Forall positive l -> Forall (int_at_most M) l ->
  (Z.of_nat (length l) * M < float_range)%Z ->
  exists a, py_mean l = OK a.
Proof.
  intros HM Hne Hpos Hle Hrange. unfold py_mean, py_sum.
  destruct (py_sum_from_returns M l ltac:(lia) Hpos Hle (NInt 0) 0%Z) as (t & -> & Ht);
    [lia | simpl; lia | lia |].
  cbn [mbind res_bind]. rewrite Z.add_0_l in Ht.
  assert (Hlen : (1 <= Z.of_nat (length l))%Z) by (destruct l; [done | simpl length; lia]).
  apply num_truediv_returns.
  - eapply partial_sum_convertible; [exact Ht | exact Hrange].
  - simpl. nia.
  - simpl. apply Z.eqb_neq. lia.
Qed.

Lemma half_sum_returns M a b :
  (1 <= M)%Z -> positive a -> positive b -> int_at_most M a -> int_at_most M b ->
  (2 * M < float_range)%Z ->
  exists f, half_sum a b = OK f.
Proof.
  intros HM Ha Hb Hma Hmb Hrange. unfold half_sum, py_add.
  destruct (positive_int_at_most M a Ha Hma) as (x & -> & Hx).
  destruct (positive_int_at_most M b Hb Hmb) as (y & -> & Hy).
  destruct (num_add_returns x y) as (c & -> & Hshape).
  { eapply partial_sum_convertible; [exact Hx | lia]. }
  { eapply partial_sum_convertible; [exact Hy | lia]. }
  cbn [mbind res_bind]. apply num_truediv_returns.
  - destruct x as [zx|fx], y as [zy|fy]; simpl in *;
      try (by destruct Hshape as [f ->]). subst c. simpl. lia.
  - simpl. lia.
  - reflexivity.
Qed.

(** ** [PriceValidator.analyze_prices] *)

Lemma positive_prices_of_cons p products :
  positive_prices_of (p :: products)
  = match price p with
    | Some v => if decide (positive v) then v :: positive_prices_of products
                else positive_prices_of products
    | None => positive_prices_of products
    end.
Proof.
  unfold positive_prices_of. simpl. destruct (price p) as [v|]; [|done].
  by rewrite filter_cons.
Qed.

Lemma positive_prices_of_positive products : Forall positive (positive_prices_of products).
Proof. unfold positive_prices_of. apply Forall_forall. intros v Hv.
  by apply list_elem_of_filter in Hv as [Hv _]. Qed.

Lemma positive_iff v : number v -> positive v <-> (0 < value v)%Q.
Proof. intros Hv. unfold positive. by rewrite (number_value v Hv). Qed.

Lemma py_gt_zero v :
  number v -> py_gt v (VInt 0) = OK (bool_decide (positive v)).
Proof.
  intros Hv. rewrite (py_gt_number v (VInt 0) Hv) by (by eexists). f_equal.
  change (value (VInt 0)) with 0%Q.
  case_bool_decide as H; rewrite (positive_iff v Hv) in H.
  - by apply is_lt_Qcompare.
  - apply not_true_is_false. intros H'. by apply is_lt_Qcompare in H'.
Qed.

Lemma numeric_price_default p :
  numeric_price p -> number (default (VInt 0) (price p)).
Proof.
  unfold numeric_price, price_key. destruct (price p) as [v|]; simpl; [done|].
  intros _. by eexists.
Qed.

Lemma default_price_positive p :
  positive (default (VInt 0) (price p))
  <-> exists v, price p = Some v /\ positive v.
Proof.
  destruct (price p) as [v|]; simpl.
  - split; [by exists v | by intros (w & [= ->] & H)].
  - split; [|by intros (w & [=] & _)]. unfold positive. simpl.
    intros H. by apply Qlt_irrefl in H.
Qed.

Lemma positive_prices_value products :
  Forall numeric_price products ->
  PriceValidator.positive_prices products = OK (positive_prices_of products).
Proof.
  induction 1 as [|p products Hp Hps IH]; [done|]. simpl.
  rewrite (py_gt_zero _ (numeric_price_default p Hp)). simpl. rewrite IH. simpl.
  f_equal. rewrite positive_prices_of_cons.
  case_bool_decide as Hpos.
  - apply default_price_positive in Hpos as (v & Hv & Hpos). rewrite Hv. simpl.
    by rewrite decide_True.
  - destruct (price p) as [v|] eqn:Hv; [|done].
    rewrite decide_False; [done|]. intros H. apply Hpos. simpl. done.
Qed.

Lemma sort_numbers l :
  Forall number l ->
  exists s, py_sorted KVal l = OK s /\ Permutation l s /\ ascending KVal s.
Proof.
  intros Hl. destruct (py_sorted_total KVal num_key l) as [s Hs];
    [apply key_cmp_num | exact Hl |].
  exists s. split; [done|].
  split; [by eapply py_sorted_perm | by eapply py_sorted_ascending].
Qed.

Lemma py_index_lt {A} (l : list A) i :
  i < length l -> exists x, py_index l i = OK x /\ l !! i = Some x.
Proof.
  intros Hi. unfold py_index. destruct (lookup_lt_is_Some_2 l i Hi) as [x Hx].
  rewrite Hx. by exists x.
Qed.

Lemma ascending_non_decreasing l :
  Forall number l -> ascending KVal l -> non_decreasing l.
Proof.
  unfold ascending, non_decreasing. intros Hnum Hasc.
  induction Hasc as [|x l Hl IH Hx]; [constructor|].
  apply Forall_cons in Hnum as [Hnx Hnum]. constructor; [by apply IH|].
  apply Forall_forall. intros y Hy. rewrite Forall_forall in Hx, Hnum.
  specialize (Hx y Hy). unfold key_order in Hx.
  by apply (key_leq_numbers x y _ _ (number_value x Hnx) (number_value y (Hnum y Hy))).
Qed.

Lemma median_of_spec s :
  s <> [] -> Forall number s ->
  or_overflow (fun m => is_median m s) (PriceValidator.median_of s).
Proof.
  intros Hne Hs. unfold PriceValidator.median_of, is_median.
  assert (Hlen : 0 < length s) by (destruct s; [done | simpl; lia]).
  destruct (length s mod 2 =? 1)%nat eqn:Hodd.
  - destruct (py_index_lt s (length s / 2)) as (m & -> & Hlk).
    { apply Nat.div_lt; lia. }
    simpl. by exists m.
  - apply Nat.eqb_neq in Hodd.
    assert (Hge : 2 <= length s).
    { destruct (length s) as [|[|n]]; [lia | simpl in Hodd; done | lia]. }
    destruct (py_index_lt s (length s / 2 - 1)) as (a & -> & Hla).
    { pose proof (Nat.div_lt (length s) 2). lia. }
    destruct (py_index_lt s (length s / 2)) as (b & -> & Hlb).
    { apply Nat.div_lt; lia. }
    assert (Hna : number a).
    { rewrite Forall_forall in Hs. apply Hs. by eapply list_elem_of_lookup_2. }
    assert (Hnb : number b).
    { rewrite Forall_forall in Hs. apply Hs. by eapply list_elem_of_lookup_2. }
    pose proof (half_sum_spec a b Hna Hnb) as Hhalf.
    assert (Hdef : half_sum a b = (s0 ← py_add a b; num_truediv s0 (NInt 2))) by done.
    cbn [mbind res_bind].
    destruct (py_add a b) as [t|e] eqn:Ht; cbn [mbind res_bind] in *.
    + destruct (num_truediv t (NInt 2)) as [f|e] eqn:Hf; cbn [mbind res_bind] in *.
      * rewrite Hdef in Hhalf. simpl in Hhalf. exists a, b, f. by rewrite Hdef.
      * by rewrite Hdef in Hhalf.
    + by rewrite Hdef in Hhalf.
Qed.

(** ** Prices that are not numbers *)

Lemma py_gt_not_number v :
  as_num v = None -> py_gt v (VInt 0) = Raise TypeError.
Proof.
  intros Hv. unfold py_gt, key_lt.
  by rewrite (key_cmp_not_number_r (VInt 0) v (inject_Z 0) eq_refl Hv).
Qed.

Lemma positive_prices_raises products p v :
  p ∈ products -> price p = Some v -> as_num v = None ->
  PriceValidator.positive_prices products = Raise TypeError.
Proof.
  intros Hp Hv Hn. induction products as [|x products IH]; [by apply elem_of_nil in Hp|].
  cbn [PriceValidator.positive_prices].
  destruct (as_num (default (VInt 0) (price x))) as [q|] eqn:Hx.
  - assert (Hin : p ∈ products).
    { apply elem_of_cons in Hp as [->|Hp]; [|done]. rewrite Hv in Hx. simpl in Hx.
      congruence. }
    rewrite (py_gt_number _ (VInt 0)) by (by eexists). simpl.
    by rewrite (IH Hin).
  - by rewrite (py_gt_not_number _ Hx).
Qed.

(** Statistics do not depend on the arrangement of the prices. *)

Lemma int_total_perm l s : Permutation l s -> int_total l = int_total s.
Proof.
  induction 1 as [|x l s H IH|x y l|l s u H1 IH1 H2 IH2]; simpl.
  - reflexivity.
  - by rewrite IH.
  - destruct x, y; lia.
  - by rewrite IH1.
Qed.

Lemma is_minimum_perm m l s : Permutation l s -> is_minimum m s -> is_minimum m l.
Proof.
  intros H [Hin Hle]. split; [by rewrite H|]. intros v Hv. apply Hle. by rewrite <- H.
Qed.

Lemma is_maximum_perm m l s : Permutation l s -> is_maximum m s -> is_maximum m l.
Proof.
  intros H [Hin Hle]. split; [by rewrite H|]. intros v Hv. apply Hle. by rewrite <- H.
Qed.

(** Grouping by platform. *)

Lemma dict_get_group_append t k v d :
  dict_get t (PriceValidator.group_append k v d)
  = if decide (t = k) then Some (default [] (dict_get k d) ++ [v]) else dict_get t d.
Proof.
  induction d as [|[k' vs] d IH]; simpl.
  - destruct (String.eqb_spec t k) as [->|Hne].
    + by rewrite decide_True.
    + by rewrite decide_False.
  - destruct (String.eqb_spec k k') as [->|Hk]; simpl.
    + destruct (String.eqb_spec t k') as [->|Ht].
      * by rewrite decide_True.
      * by rewrite decide_False.
    + destruct (String.eqb_spec t k') as [->|Ht].
      * by rewrite decide_False.
      * exact IH.
Qed.

Lemma group_append_keys k v d :
  forall t, t ∈ (PriceValidator.group_append k v d).*1 <-> t = k \/ t ∈ d.*1.
Proof.
  intros t. induction d as [|[k' vs] d IH]; simpl.
  - set_solver.
  - destruct (String.eqb_spec k k') as [->|Hk]; simpl; set_solver.
Qed.

Lemma group_append_nodup k v d :
  NoDup d.*1 -> NoDup (PriceValidator.group_append k v d).*1.
Proof.
  induction d as [|[k' vs] d IH]; simpl; intros Hnd.
  - apply NoDup_singleton.
  - apply NoDup_cons in Hnd as [Hk' Hnd].
    destruct (String.eqb_spec k k') as [->|Hk]; simpl.
    + by apply NoDup_cons.
    + apply NoDup_cons. split; [|by apply IH].
      rewrite group_append_keys. intros [->|H]; done.
Qed.

Lemma group_append_good k v d :
  positive v -> Forall good_group d -> Forall good_group (PriceValidator.group_append k v d).
Proof.
  intros Hv. induction 1 as [|[k' vs] d [Hne Hpos] Hd IH]; simpl.
  - repeat constructor; simpl; [done | done].
  - destruct (String.eqb_spec k k') as [->|Hk]; constructor; try done.
    split; simpl in *; [by destruct vs | apply Forall_app; by repeat constructor].
Qed.

Lemma positive_on_platform_cons t p products :
  positive_prices_of (on_platform t (p :: products))
  = (if decide (default "unknown" (platform p) = t)
     then match price p with
          | Some v => if decide (positive v) then [v] else []
          | None => []
          end
     else [])
    ++ positive_prices_of (on_platform t products).
Proof.
  unfold on_platform. rewrite filter_cons.
  destruct (decide (default "unknown" (platform p) = t)); [|done].
  rewrite positive_prices_of_cons. destruct (price p) as [v|]; [|done].
  by destruct (decide (positive v)).
Qed.

Lemma group_by_platform_spec products d :
  Forall numeric_price products ->
  exists d',
    PriceValidator.group_by_platform products d = OK d'
    /\ (forall t,
         dict_get t d'
         = match dict_get t d, positive_prices_of (on_platform t products) with
           | None, [] => None
           | o, g => Some (default [] o ++ g)
           end)
    /\ (NoDup d.*1 -> NoDup d'.*1)
    /\ (Forall good_group d -> Forall good_group d').
Proof.
  intros Hnum. revert d. induction Hnum as [|p products Hp Hps IH]; intros d; simpl.
  - exists d. split; [done|]. split; [|done]. intros t.
    destruct (dict_get t d); [by rewrite app_nil_r | done].
  - rewrite (py_gt_zero _ (numeric_price_default p Hp)). simpl.
    case_bool_decide as Hpos.
    + destruct (IH (PriceValidator.group_append (default "unknown" (platform p))
                      (default (VInt 0) (price p)) d)) as (d' & Hd' & Hget & Hnd & Hgood).
      exists d'. split; [done|]. split; [|split].
      * intros t. rewrite Hget, dict_get_group_append, positive_on_platform_cons.
        apply default_price_positive in Hpos as (v & Hv & Hposv). rewrite Hv. simpl.
        rewrite (decide_True (P := positive v)) by done.
        destruct (decide (t = default "unknown" (platform p))) as [->|Hne].
        -- rewrite decide_True by done.
           destruct (dict_get (default "unknown" (platform p)) d) as [vs|]; simpl.
           ++ by rewrite <- app_assoc.
           ++ done.
        -- rewrite decide_False by done. done.
      * intros H. apply Hnd. by apply group_append_nodup.
      * intros H. apply Hgood. by apply group_append_good.
    + destruct (IH d) as (d' & Hd' & Hget & Hnd & Hgood).
      exists d'. split; [done|]. split; [|done].
      intros t. rewrite Hget, positive_on_platform_cons.
      destruct (decide (default "unknown" (platform p) = t)); [|done].
      destruct (price p) as [v|] eqn:Hv; [|done].
      rewrite decide_False; [done|]. intros H. apply Hpos. simpl. done.
Qed.

Lemma platform_stats_spec prices :
  prices <> [] -> Forall positive prices ->
  or_overflow (fun st => summarises st prices) (PriceValidator.platform_stats prices).
Proof.
  intros Hne Hpos.
  assert (Hnum : Forall number prices)
    by (eapply Forall_impl; [exact Hpos | apply positive_number]).
  unfold PriceValidator.platform_stats.
  pose proof (py_mean_spec prices Hne Hnum) as Hmean. unfold py_mean in Hmean.
  destruct (py_sum prices) as [t|e]; simpl in *; [|done].
  destruct (num_truediv t _) as [a|e] eqn:Ha; simpl in *; [|done].
  destruct (py_min_number prices Hne Hnum) as (lo & -> & Hlo). simpl.
  destruct (py_max_number prices Hne Hnum) as (hi & -> & Hhi). simpl.
  unfold summarises. simpl. auto.
Qed.

Lemma res_map_stats groups :
  Forall good_group groups ->
  or_overflow
    (fun stats =>
       stats.*1 = groups.*1
       /\ forall t,
            match dict_get t groups with
            | Some prices => exists st, dict_get t stats = Some st /\ summarises st prices
            | None => dict_get t stats = None
            end)
    (res_map (fun '(platform, prices) =>
                st ← PriceValidator.platform_stats prices; OK (platform, st)) groups).
Proof.
  induction 1 as [|[k vs] groups [Hne Hpos] Hg IH]; simpl.
  - split; [done|]. by intros t.
  - pose proof (platform_stats_spec vs Hne Hpos) as Hst.
    destruct (PriceValidator.platform_stats vs) as [st|e]; simpl in *; [|done].
    destruct (res_map _ groups) as [stats|e]; simpl in *; [|done].
    destruct IH as [Hkeys Hget]. split; [simpl; by f_equal|].
    intros t. simpl. destruct (String.eqb t k); [by exists st | apply Hget].
Qed.

(** ** Price analysis within the range of floats *)

Lemma bind_OK_inv {A B} (r : res A) (k : A -> res B) b :
  r ≫= k = OK b -> exists a, r = OK a /\ k a = OK b.
Proof. destruct r as [a|e]; [by exists a | done]. Qed.

Lemma median_of_returns M s :
  (1 <= M)%Z -> s <> [] -> Forall positive s -> Forall (int_at_most M) s ->
  (Z.of_nat (length s) * M < float_range)%Z ->
  exists m, PriceValidator.median_of s = OK m.
Proof.
  intros HM Hne Hpos Hle Hrange. unfold PriceValidator.median_of.
  assert (Hlen : 0 < length s) by (destruct s; [done | simpl; lia]).
  destruct (length s mod 2 =? 1)%nat eqn:Hodd.
  - destruct (py_index_lt s (length s / 2)) as (m & -> & _).
    { apply Nat.div_lt; lia. }
    by eexists.
  - apply Nat.eqb_neq in Hodd.
    assert (Hge : 2 <= length s).
    { destruct (length s) as [|[|n]]; [lia | simpl in Hodd; done | lia]. }
    destruct (py_index_lt s (length s / 2 - 1)) as (a & -> & Hla).
    { pose proof (Nat.div_lt (length s) 2). lia. }
    destruct (py_index_lt s (length s / 2)) as (b & -> & Hlb).
    { apply Nat.div_lt; lia. }
    apply list_elem_of_lookup_2 in Hla, Hlb. rewrite Forall_forall in Hpos, Hle.
    destruct (half_sum_returns M a b HM (Hpos a Hla) (Hpos b Hlb) (Hle a Hla) (Hle b Hlb))
      as [f Hf]; [nia|].
    unfold half_sum in Hf. apply bind_OK_inv in Hf as (t & Ht & Hf).
    cbn [mbind res_bind]. rewrite Ht. cbn [mbind res_bind]. rewrite Hf. by eexists.
Qed.

Lemma platform_stats_returns M prices :
  (1 <= M)%Z -> prices <> [] -> Forall positive prices -> Forall (int_at_most M) prices ->
  (Z.of_nat (length prices) * M < float_range)%Z ->
  exists st, PriceValidator.platform_stats prices = OK st.
Proof.
  intros HM Hne Hpos Hle Hrange.
  assert (Hnum : Forall number prices)
    by (eapply Forall_impl; [exact Hpos | apply positive_number]).
  destruct (py_mean_returns M prices HM Hne Hpos Hle Hrange) as [a Ha].
  unfold py_mean in Ha. apply bind_OK_inv in Ha as (t & Ht & Ha).
  unfold PriceValidator.platform_stats. rewrite Ht. cbn [mbind res_bind]. rewrite Ha.
  destruct (py_min_number prices Hne Hnum) as (lo & -> & _).
  destruct (py_max_number prices Hne Hnum) as (hi & -> & _).
  by eexists.
Qed.

Lemma res_map_stats_returns M n (groups : list (string * list pyval)) :
  (1 <= M)%Z -> (Z.of_nat n * M < float_range)%Z ->
  Forall (fun g => good_group g /\ Forall (int_at_most M) g.2 /\ length g.2 <= n) groups ->
  exists stats,
    res_map (fun '(platform, prices) =>
               st ← PriceValidator.platform_stats prices; OK (platform, st)) groups
    = OK stats.
Proof.
  intros HM Hrange. induction 1 as [|[k vs] groups ([Hne Hpos] & Hle & Hlen) Hg IH].
  - by eexists.
  - cbn [res_map]. simpl in *.
    destruct (platform_stats_returns M vs HM Hne Hpos Hle) as [st ->]; [nia|].
    destruct IH as [stats ->]. by eexists.
Qed.

Lemma dict_get_elem_of {V} k (v : V) d :
  NoDup d.*1 -> (k, v) ∈ d -> dict_get k d = Some v.
Proof.
  induction d as [|[k' v'] d IH]; simpl; intros Hnd Hin; [by apply elem_of_nil in Hin|].
  apply NoDup_cons in Hnd as [Hk' Hnd].
  apply elem_of_cons in Hin as [[= -> ->]|Hin].
  - by rewrite String.eqb_refl.
  - destruct (String.eqb_spec k k') as [->|_]; [|by apply IH].
    exfalso. apply Hk'. apply list_elem_of_fmap. by exists (k', v).
Qed.

Lemma positive_prices_of_at_most M products :
  Forall (int_price_at_most M) products ->
  Forall (int_at_most M) (positive_prices_of products).
Proof.
  intros H. apply Forall_forall. intros v Hv. unfold positive_prices_of in Hv.
  apply list_elem_of_filter in Hv as [_ Hv]. apply list_elem_of_omap in Hv as (p & Hp & Hv).
  rewrite Forall_forall in H. specialize (H p Hp). unfold int_price_at_most in H.
  by rewrite Hv in H.
Qed.

Lemma positive_prices_of_length products :
  length (positive_prices_of products) <= length products.
Proof.
  unfold positive_prices_of. etrans; [apply length_filter|].
  induction products as [|p products IH]; [done|].
  change (omap price (p :: products))
    with (match price p with
          | Some y => y :: omap price products
          | None => omap price products
          end).
  destruct (price p); simpl length; lia.
Qed.

(** Price analysis returns when the prices are numbers or missing, no
    int price exceeds [M], and the number of products times [M] is
    within the range of floats. *)
Lemma analyze_prices_returns M products :
  (1 <= M)%Z -> Forall numeric_price products ->
  Forall (int_price_at_most M) products ->
  (Z.of_nat (length products) * M < float_range)%Z ->
  exists pa, PriceValidator.analyze_prices products = OK pa.
Proof.
  intros HM Hnum Hle Hrange.
  destruct products as [|p0 products0]; [by eexists|].
  cbv beta iota zeta delta [PriceValidator.analyze_prices].
  set (products := p0 :: products0) in *.
  rewrite (positive_prices_value products Hnum).
  pose proof (positive_prices_of_positive products) as Hpos.
  pose proof (positive_prices_of_at_most M products Hle) as Hple.
  pose proof (positive_prices_of_length products) as Hplen.
  destruct (positive_prices_of products) as [|v prices'] eqn:Hprices; [by eexists|].
  set (prices := v :: prices') in *.
  assert (Hnumbers : Forall number prices)
    by (eapply Forall_impl; [exact Hpos | apply positive_number]).
  destruct (sort_numbers prices Hnumbers) as (s & Hs & Hperm & Hasc).
  assert (Hsne : s <> []).
  { intros ->. apply Permutation_nil_r in Hperm. discriminate Hperm. }
  assert (Hsnum : Forall number s) by (by rewrite <- Hperm).
  assert (Hspos : Forall positive s) by (by rewrite <- Hperm).
  assert (Hsle : Forall (int_at_most M) s) by (by rewrite <- Hperm).
  assert (Hslen : length s <= length products).
  { by rewrite <- (Permutation_length Hperm). }
  assert (Hsrange : (Z.of_nat (length s) * M < float_range)%Z) by nia.
  destruct (median_of_returns M s HM Hsne Hspos Hsle Hsrange) as [m Hm].
  destruct (py_min_number s Hsne Hsnum) as (lo & Hlo & _).
  destruct (py_max_number s Hsne Hsnum) as (hi & Hhi & _).
  destruct (py_mean_returns M s HM Hsne Hspos Hsle Hsrange) as [a Ha].
  unfold py_mean in Ha. apply bind_OK_inv in Ha as (t & Ht & Ha).
  destruct (group_by_platform_spec products [] Hnum) as (groups & Hgroups & Hget & Hnd & Hgood).
  destruct (res_map_stats_returns M (length products) groups HM Hrange) as [stats Hstats].
  { specialize (Hgood (Forall_nil_2 _)). specialize (Hnd (NoDup_nil_2)).
    apply Forall_forall. intros [k vs] Hin.
    rewrite Forall_forall in Hgood. split; [by apply Hgood|]. simpl.
    pose proof (dict_get_elem_of k vs groups Hnd Hin) as Hk.
    rewrite (Hget k) in Hk. simpl in Hk.
    destruct (positive_prices_of (on_platform k products)) as [|x g] eqn:Hg; [done|].
    injection Hk as <-. rewrite <- Hg. split.
    - apply positive_prices_of_at_most. unfold on_platform.
      apply Forall_forall. intros p [_ Hp]%list_elem_of_filter.
      rewrite Forall_forall in Hle. by apply Hle.
    - etrans; [apply positive_prices_of_length|]. unfold on_platform.
      exact (length_filter _ products). }
  unfold mbind, res_bind. cbv beta iota. rewrite Hs, Hm, Hlo, Hhi, Ht. cbv beta iota zeta.
  rewrite Ha, Hgroups. fold (@mbind res res_bind). 
  unfold mbind, res_bind in Hstats. rewrite Hstats. by eexists.
Qed.

(** The outcome of price analysis on products whose prices are numbers
    or missing. *)
Lemma analyze_prices_outcome (products : list Product) :
  Forall numeric_price products ->
  let prices := positive_prices_of products in
  match PriceValidator.analyze_prices products with
  | OK pa =>
      (prices = [] -> pa = PriceValidator.zero_analysis)
      /\ (prices <> [] ->
          exists s,
            py_sorted KVal prices = OK s /\ Permutation prices s /\ non_decreasing s
            /\ PriceValidator.count pa = length prices
            /\ is_minimum (PriceValidator.min pa) prices
            /\ is_maximum (PriceValidator.max pa) prices
            /\ (exists a, PriceValidator.average pa = SFloat a /\ is_mean a s)
            /\ is_median (PriceValidator.median pa) s
            /\ exists stats,
                 PriceValidator.by_platform pa = Some stats /\ NoDup stats.*1
                 /\ forall t,
                      match positive_prices_of (on_platform t products) with
                      | [] => dict_get t stats = None
                      | g => exists st, dict_get t stats = Some st /\ summarises st g
                      end)
  | Raise e => e = OverflowError /\ prices <> []
  end.
Proof.
  intros Hnum.
  destruct products as [|p0 products0].
  { simpl. split; [done|]. by intros H. }
  cbv beta iota zeta delta [PriceValidator.analyze_prices].
  set (products := p0 :: products0) in *.
  rewrite (positive_prices_value products Hnum).
  pose proof (positive_prices_of_positive products) as Hpos.
  destruct (positive_prices_of products) as [|v prices'] eqn:Hprices.
  { simpl. split; [done|]. by intros H. }
  set (prices := v :: prices') in *.
  assert (Hne : prices <> []) by done.
  assert (Hnumbers : Forall number prices)
    by (eapply Forall_impl; [exact Hpos | apply positive_number]).
  destruct (sort_numbers prices Hnumbers) as (s & Hs & Hperm & Hasc).
  assert (Hsne : s <> []).
  { intros ->. apply Permutation_nil_r in Hperm. discriminate Hperm. }
  assert (Hsnum : Forall number s) by (by rewrite <- Hperm).
  pose proof (median_of_spec s Hsne Hsnum) as Hmed.
  destruct (py_min_number s Hsne Hsnum) as (lo & Hlo & Hmin).
  destruct (py_max_number s Hsne Hsnum) as (hi & Hhi & Hmax).
  pose proof (py_mean_spec s Hsne Hsnum) as Hmean.
  destruct (group_by_platform_spec products [] Hnum) as (groups & Hgroups & Hget & Hnd & Hgood).
  pose proof (res_map_stats groups (Hgood (Forall_nil_2 _))) as Hstats.
  unfold mbind, res_bind. cbv beta iota. rewrite Hs.
  destruct (PriceValidator.median_of s) as [m|e]; simpl in Hmed; [|done].
  rewrite Hlo, Hhi.
  destruct (py_sum s) as [t|e] eqn:Ht.
  2:{ unfold py_mean in Hmean. rewrite Ht in Hmean. done. }
  destruct (num_truediv t (NInt (Z.of_nat (length s)))) as [a|e] eqn:Ha.
  2:{ unfold py_mean in Hmean. rewrite Ht in Hmean. simpl in Hmean. rewrite Ha in Hmean.
      done. }
  assert (Hmean' : is_mean a s).
  { unfold py_mean in Hmean. rewrite Ht in Hmean. simpl in Hmean. by rewrite Ha in Hmean. }
  rewrite Hgroups.
  destruct (res_map _ groups) as [stats|e]; simpl in Hstats; [|done].
  destruct Hstats as [Hkeys Hsget].
  split; [done|]. intros _. exists s.
  cbn [PriceValidator.count PriceValidator.min PriceValidator.max
       PriceValidator.average PriceValidator.median PriceValidator.by_platform].
  split; [done|]. split; [done|].
  split; [by apply ascending_non_decreasing|].
  split; [symmetry; by apply Permutation_length|].
  split; [by eapply is_minimum_perm|].
  split; [by eapply is_maximum_perm|].
  split; [by exists a|].
  split; [done|].
  exists stats. split; [done|]. split; [rewrite Hkeys; apply Hnd; constructor|].
  intros u. specialize (Hget u). specialize (Hsget u). simpl in Hget.
  destruct (positive_prices_of (on_platform u products)) as [|x g].
  - by rewrite Hget in Hsget.
  - rewrite Hget in Hsget. exact Hsget.
Qed.

(** The statement "price analysis returns the statistics of the
    strictly positive prices, or the zeroed record when there are none"
    fails on three kinds of input.  A price that is not a number is not
    a positive price, yet the analysis of a product priced with a string
    raises [TypeError] instead of returning the zeroed record.  The int
    price [2 ^ 1024] is beyond the range of floats, so the division that
    computes the average raises [OverflowError].  And the average of the
    int prices 10, 10 and 11 is not their arithmetic mean 31/3 but the
    float next to it. *)
Lemma analyze_prices_not_as_stated :
  positive_prices_of [sample_product "a" (Some (VStr "x")) "jd"] = []
  /\ PriceValidator.analyze_prices [sample_product "a" (Some (VStr "x")) "jd"]
     = Raise TypeError
  /\ positive_prices_of [sample_product "a" (Some (VInt (2 ^ 1024))) "jd"]
     = [VInt (2 ^ 1024)]
  /\ PriceValidator.analyze_prices [sample_product "a" (Some (VInt (2 ^ 1024))) "jd"]
     = Raise OverflowError
  /\ (PriceValidator.average <$>
        PriceValidator.analyze_prices
          [sample_product "a" (Some (VInt 10)) "jd"; sample_product "b" (Some (VInt 10)) "jd";
           sample_product "c" (Some (VInt 11)) "jd"])
     = OK (SFloat (Finite (5817149518686891 # 562949953421312)))
  /\ ~ (5817149518686891 # 562949953421312 == 31 # 3)%Q.
Proof.
  do 5 (split; [vm_compute; reflexivity|]).
  intros H. vm_compute in H. discriminate H.
Qed.

(** C6, amended.  For products whose prices are numbers or missing, the
    prices taken into account are exactly the strictly positive ones.
    Without any, the analysis returns the zeroed record.  Otherwise it
    either raises [OverflowError] (an int beyond the float range meets
    float arithmetic) or returns: the count, minimum and maximum of the
    positive prices; as average the float the interpreter computes for
    [sum / count] over the ascending arrangement, which for int prices
    is the float nearest to the arithmetic mean; as median the middle
    element of the ascending arrangement for an odd count and the float
    of [(a + b) / 2] for the two middle elements of an even one, again
    the nearest float for ints; and for every platform with a positive
    price the count, average, minimum and maximum of that platform's
    positive prices.  It does return when no int price exceeds a bound
    [M] such that the number of products times [M] is below [2 ^ 1023].
    A price that is not a number makes the analysis raise [TypeError].
    Prices [10, 20, 30] give median 20, [10, 20, 30, 40] give 25.0, and
    [10, 10, 11] give the average 10.333333333333334. *)
Theorem analyze_prices_spec (products : list Product) :
  (Forall numeric_price products ->
   let prices := positive_prices_of products in
   match PriceValidator.analyze_prices products with
   | OK pa =>
       (prices = [] -> pa = PriceValidator.zero_analysis)
       /\ (prices <> [] ->
           exists s,
             py_sorted KVal prices = OK s /\ Permutation prices s /\ non_decreasing s
             /\ PriceValidator.count pa = length prices
             /\ is_minimum (PriceValidator.min pa) prices
             /\ is_maximum (PriceValidator.max pa) prices
             /\ (exists a, PriceValidator.average pa = SFloat a /\ is_mean a s)
             /\ is_median (PriceValidator.median pa) s
             /\ exists stats,
                  PriceValidator.by_platform pa = Some stats /\ NoDup stats.*1
                  /\ forall t,
                       match positive_prices_of (on_platform t products) with
                       | [] => dict_get t stats = None
                       | g => exists st, dict_get t stats = Some st /\ summarises st g
                       end)
   | Raise e => e = OverflowError /\ prices <> []
   end)
  /\ (forall M, (1 <= M)%Z -> Forall numeric_price products ->
      Forall (int_price_at_most M) products ->
      (Z.of_nat (length products) * M < float_range)%Z ->
      exists pa, PriceValidator.analyze_prices products = OK pa)
  /\ (forall p v, p ∈ products -> price p = Some v -> as_num v = None ->
      PriceValidator.analyze_prices products = Raise TypeError)
  /\ (PriceValidator.median <$>
        PriceValidator.analyze_prices
          [sample_product "c" (Some (VInt 30)) "jd"; sample_product "a" (Some (VInt 10)) "jd";
           sample_product "b" (Some (VInt 20)) "pdd"])
     = OK (SValue (VInt 20))
  /\ (PriceValidator.median <$>
        PriceValidator.analyze_prices
          [sample_product "c" (Some (VInt 30)) "jd"; sample_product "a" (Some (VInt 10)) "jd";
           sample_product "d" (Some (VInt 40)) "pdd"; sample_product "b" (Some (VInt 20)) "pdd"])
     = OK (SFloat (Finite 25))
  /\ (PriceValidator.average <$>
        PriceValidator.analyze_prices
          [sample_product "a" (Some (VInt 10)) "jd"; sample_product "b" (Some (VInt 10)) "jd";
           sample_product "c" (Some (VInt 11)) "jd"])
     = OK (SFloat (Finite (5817149518686891 # 562949953421312))).
Proof.
  split; [apply analyze_prices_outcome|].
  split; [intros M; apply analyze_prices_returns|].
  split; [|repeat split; vm_compute; reflexivity].
  intros p v Hp Hv Hn. unfold PriceValidator.analyze_prices.
  destruct products as [|x products]; [by apply elem_of_nil in Hp|].
  by rewrite (positive_prices_raises _ p v Hp Hv Hn).
Qed.

(** ** Best deals of a completed run *)

Lemma analyze_prices_ok_numeric products pa :
  PriceValidator.analyze_prices products = OK pa -> Forall numeric_price products.
Proof.
  intros H. apply Forall_forall. intros p Hp. unfold numeric_price, price_key.
  destruct (price p) as [v|] eqn:Hv; [|done]. simpl.
  destruct (as_num v) as [q|] eqn:Hq; [by eexists|].
  unfold PriceValidator.analyze_prices in H.
  destruct products as [|x products]; [by apply elem_of_nil in Hp|].
  by rewrite (positive_prices_raises _ p v Hp Hv Hq) in H.
Qed.

Lemma key_order_costs_no_more x y :
  numeric_price x -> numeric_price y -> key_order price_key x y -> costs_no_more x y.
Proof.
  unfold numeric_price, key_order, costs_no_more, price_key.
  destruct (price x) as [v|], (price y) as [w|]; simpl; try done.
  - intros [a Ha] [b Hb] Hle. exists a, b. split; [done|]. split; [done|].
    by apply (key_leq_numbers v w a b Ha Hb).
  - intros _ _ H. by apply key_leq_inf_l in H.
Qed.

Lemma ascending_cheapest_first l :
  Forall numeric_price l -> ascending price_key l -> cheapest_first l.
Proof.
  unfold ascending, cheapest_first. intros Hnum Hasc.
  induction Hasc as [|x l Hl IH Hx]; [constructor|].
  apply Forall_cons in Hnum as [Hnx Hnum]. constructor; [by apply IH|].
  apply Forall_forall. intros y Hy. rewrite Forall_forall in Hx, Hnum.
  apply key_order_costs_no_more; [done | by apply Hnum | by apply Hx].
Qed.

Lemma cheapest_first_take n l : cheapest_first l -> cheapest_first (take n l).
Proof.
  unfold cheapest_first. intros H. revert n.
  induction H as [|x l Hl IH Hx]; intros [|n]; simpl; try constructor; auto.
  apply Forall_take. exact Hx.
Qed.

Section BestDeals.
Context {text : Text} (float_repr : Q -> string).

Local Abbreviation execute := (FilterAgent.execute float_repr).

(** C5. When the pipeline completes, [best_deals] is the first
    [min 5 filtered_count] products of the filtered list arranged by
    price, whatever [sort_by] ordered the main list: in that
    arrangement, which is the stable sort of the filtered list on the
    price with a missing price as +infinity, every product costs no
    more than each product after it and the products without a price
    stand last; so [best_deals] has [min 5 filtered_count] elements
    and its prices are non-decreasing. *)
Theorem best_deals_are_the_cheapest (task : FilterAgent.FilterTask) :
  FilterAgent.status (execute task) = "success" ->
  exists filtered by_price deals,
    FilterAgent.filtered_products (execute task) = Some filtered
    /\ FilterAgent.filtered_count (execute task) = Some (length filtered)
    /\ FilterAgent.best_deals (execute task) = Some deals
    /\ Permutation filtered by_price
    /\ cheapest_first by_price
    /\ py_sorted price_key filtered = OK by_price
    /\ ascending price_key by_price
    /\ deals = take (Nat.min 5 (length filtered)) by_price
    /\ length deals = Nat.min 5 (length filtered)
    /\ cheapest_first deals
    /\ ascending price_key deals.
Proof.
  unfold FilterAgent.execute, FilterAgent.try_body.
  destruct (FilterAgent.price_filter_step _ _) as [ps1|e]; [|by simpl].
  destruct (FilterAgent.sort_products _ _) as [ps3|e]; [|by simpl].
  destruct (PriceValidator.analyze_prices ps3) as [pa|e] eqn:Hpa; [|by simpl].
  destruct (PriceValidator.find_best_deals ps3 5) as [bd|e] eqn:Hbd; [|by simpl].
  simpl. intros _.
  destruct (find_best_deals_spec ps3 5 bd Hbd) as (s & Hs & Hperm & Hasc & Hbd' & Hlen & Hbasc);
    [lia|].
  pose proof (analyze_prices_ok_numeric ps3 pa Hpa) as Hnum.
  assert (Hcheap : cheapest_first s).
  { apply ascending_cheapest_first; [by rewrite <- Hperm | done]. }
  exists ps3, s, bd. repeat split; try done.
  rewrite Hbd'. by apply cheapest_first_take.
Qed.

End BestDeals.

(** ** Insertion-ordered dictionaries *)

Lemma dict_get_set {V} k k' (v : V) d :
  dict_get k (dict_set k' v d) = if decide (k = k') then Some v else dict_get k d.
Proof.
  induction d as [|[k0 v0] d IH]; simpl.
  - destruct (String.eqb_spec k k') as [->|Hne];
      [by rewrite decide_True | by rewrite decide_False].
  - destruct (String.eqb_spec k' k0) as [->|Hk]; simpl.
    + destruct (String.eqb_spec k k0) as [->|Hne];
        [by rewrite decide_True | by rewrite decide_False].
    + destruct (String.eqb_spec k k0) as [->|Hne]; [by rewrite decide_False | exact IH].
Qed.

Lemma dict_get_is_Some {V} k (d : list (string * V)) :
  is_Some (dict_get k d) <-> k ∈ d.*1.
Proof.
  induction d as [|[k0 v0] d IH]; simpl.
  - split; [by intros [? ?] | by intros ?%elem_of_nil].
  - rewrite elem_of_cons. destruct (String.eqb_spec k k0) as [->|Hne].
    + split; [by left | by eexists].
    + rewrite IH. split; [by right | by intros [?|?]].
Qed.

Lemma dict_set_fresh {V} k (v : V) d :
  k ∉ d.*1 -> dict_set k v d = d ++ [(k, v)].
Proof.
  induction d as [|[k0 v0] d IH]; simpl; intros Hk; [done|].
  apply not_elem_of_cons in Hk as [Hne Hk].
  destruct (String.eqb_spec k k0) as [->|_]; [done|]. by rewrite IH.
Qed.

(** ** The provider registry and the search tasks *)

Section Coordinator.
Context {text : Text} (float_repr : Q -> string) {W : Type}.

Local Abbreviation Coordinator := (@CoordinatorAgent.Coordinator W).
Local Abbreviation Coroutine := (@CoordinatorAgent.Coroutine W).

Lemma agent_map_registered (self : Coordinator) platform :
  is_Some (dict_get platform (CoordinatorAgent.agent_map self))
  <-> registered platform.
Proof. rewrite dict_get_is_Some. reflexivity. Qed.

Lemma create_search_tasks_platforms (self : Coordinator) params platforms :
  (CoordinatorAgent.create_search_tasks self params platforms).*1
  = filter registered platforms.
Proof.
  induction platforms as [|p platforms IH]; [done|].
  cbn [CoordinatorAgent.create_search_tasks]. rewrite filter_cons.
  destruct (dict_get p (CoordinatorAgent.agent_map self)) as [agent|] eqn:Hget.
  - rewrite decide_True
      by (apply (proj1 (agent_map_registered self p)); by rewrite Hget).
    rewrite fmap_cons. cbn [fst]. by rewrite IH.
  - rewrite decide_False; [done|]. intros H.
    apply (proj2 (agent_map_registered self p)) in H.
    rewrite Hget in H. by destruct H.
Qed.

(** Every search task is [agent.run(search_task_params)] for the agent
    registered under its platform. *)
Lemma create_search_tasks_runs (self : Coordinator) params platforms :
  Forall (fun t : string * Coroutine =>
            exists agent, dict_get t.1 (CoordinatorAgent.agent_map self) = Some agent
                          /\ t.2 = BaseAgent.run agent params)
         (CoordinatorAgent.create_search_tasks self params platforms).
Proof.
  induction platforms as [|p platforms IH]; [constructor|].
  cbn [CoordinatorAgent.create_search_tasks].
  destruct (dict_get p (CoordinatorAgent.agent_map self)) as [agent|] eqn:Hget;
    [|exact IH].
  constructor; [|exact IH]. by exists agent.
Qed.

(** ** Running the searches *)

Lemma run_sequential_results (search_tasks : list (string * Coroutine)) w :
  Forall2 (fun t r => returned_by t.2 r) search_tasks
          (CoordinatorAgent.run_sequential search_tasks w).1.
Proof.
  revert w. induction search_tasks as [|[p task] search_tasks IH]; intros w; simpl.
  - constructor.
  - destruct (task w) as [result w1] eqn:Htask.
    specialize (IH w1).
    destruct (CoordinatorAgent.run_sequential search_tasks w1) as [results w2].
    simpl in *. constructor; [|done]. exists w. simpl. by rewrite Htask.
Qed.

Lemma pick_Some {A} k (l : list A) x rest :
  CoordinatorAgent.pick k l = Some (x, rest) ->
  l ≡ₚ x :: rest /\ length l = S (length rest).
Proof.
  unfold CoordinatorAgent.pick. destruct (l !! k) as [y|] eqn:Hk; [|done].
  intros [= <- <-].
  pose proof (take_drop_middle l k y Hk) as Hl.
  split.
  - rewrite <- Hl at 1. symmetry. apply Permutation_middle.
  - rewrite <- Hl at 1. rewrite !length_app. simpl. lia.
Qed.

Lemma pick_lt {A} k (l : list A) :
  k < length l -> is_Some (CoordinatorAgent.pick k l).
Proof.
  intros Hk. unfold CoordinatorAgent.pick.
  destruct (lookup_lt_is_Some_2 l k Hk) as [x ->]. by eexists.
Qed.

Lemma gather_complete_spec n (pending : list (nat * Coroutine)) sched w :
  length pending = n ->
  (CoordinatorAgent.gather_complete n pending sched w).1.*1 ≡ₚ pending.*1
  /\ Forall (fun ir : nat * CoordinatorAgent.SearchResult =>
               exists task, (ir.1, task) ∈ pending /\ returned_by task ir.2)
            (CoordinatorAgent.gather_complete n pending sched w).1.
Proof.
  revert pending sched w. induction n as [|n IH]; intros pending sched w Hlen; simpl.
  - destruct pending; [|done]. split; [done | constructor].
  - destruct (pick_lt (hd 0 sched mod length pending) pending) as [[[i task] rest] Hpick].
    { apply Nat.mod_upper_bound. lia. }
    rewrite Hpick. destruct (pick_Some _ _ _ _ Hpick) as [Hperm Hlen'].
    destruct (task w) as [result w1] eqn:Htask.
    destruct (IH rest (tl sched) w1) as [IHperm IHall]; [lia|].
    destruct (CoordinatorAgent.gather_complete n rest (tl sched) w1) as [completed w2].
    simpl in *. split.
    + rewrite Hperm. simpl. by constructor.
    + constructor.
      * exists task. simpl. split; [rewrite Hperm; by constructor|].
        exists w. simpl. by rewrite Htask.
      * eapply Forall_impl; [exact IHall|]. intros [j r] (t & Hin & Hret).
        exists t. split; [|done]. rewrite Hperm. by constructor.
Qed.

End Coordinator.

Section Gather.
Context {W : Type}.

Local Abbreviation Coroutine := (@CoordinatorAgent.Coroutine W).

Lemma result_at_elem_of i completed r :
  CoordinatorAgent.result_at i completed = Some r -> (i, r) ∈ completed.
Proof.
  induction completed as [|[j r'] completed IH]; simpl; [done|].
  destruct (Nat.eqb_spec i j) as [->|Hne].
  - intros [= ->]. by constructor.
  - intros H. right. by apply IH.
Qed.

Lemma result_at_is_Some i (completed : list (nat * CoordinatorAgent.SearchResult)) :
  i ∈ completed.*1 -> is_Some (CoordinatorAgent.result_at i completed).
Proof.
  induction completed as [|[j r'] completed IH]; simpl.
  - by intros ?%elem_of_nil.
  - destruct (Nat.eqb_spec i j) as [->|Hne]; [by eexists|].
    intros [?|?]%elem_of_cons; [done | by apply IH].
Qed.

Lemma omap_seq_Forall2 {A B} (P : A -> B -> Prop) (l : list A) (f : nat -> option B) k :
  (forall j a, l !! j = Some a -> exists b, f (k + j) = Some b /\ P a b) ->
  Forall2 P l (omap f (seq k (length l))).
Proof.
  revert k. induction l as [|a l IH]; intros k H; simpl; [constructor|].
  destruct (H 0 a eq_refl) as (b & Hb & HP). rewrite Nat.add_0_r in Hb.
  rewrite Hb. constructor; [done|]. apply IH. intros j a' Hj.
  destruct (H (S j) a' Hj) as (b' & Hb' & HP'). exists b'.
  split; [|done]. by rewrite <- Hb', Nat.add_succ_r.
Qed.

Lemma imap_offset_keys {A} (l : list A) k :
  (imap (fun i t => (k + i, t)) l).*1 = seq k (length l).
Proof.
  revert k. induction l as [|a l IH]; intros k; [done|].
  rewrite imap_cons, fmap_cons. cbn [fst length seq]. f_equal; [lia|].
  rewrite <- (IH (S k)). f_equal. apply imap_ext. intros i x _. simpl.
  f_equal. lia.
Qed.

Lemma imap_index_keys {A} (l : list A) :
  (imap (fun i t => (i, t)) l).*1 = seq 0 (length l).
Proof. apply (imap_offset_keys l 0). Qed.

(** Whatever the completion order, [gather] returns the result of the
    i-th task at position i. *)
Lemma gather_results (tasks : list Coroutine) sched w :
  Forall2 returned_by tasks (CoordinatorAgent.gather tasks sched w).1.
Proof.
  unfold CoordinatorAgent.gather.
  destruct (gather_complete_spec (length tasks) (imap (fun i t => (i, t)) tasks) sched w)
    as [Hperm Hall]; [by rewrite length_imap|].
  destruct (CoordinatorAgent.gather_complete _ _ _ _) as [completed w'].
  simpl in *. apply omap_seq_Forall2. intros j a Hj. simpl.
  destruct (result_at_is_Some j completed) as [b Hb].
  { rewrite Hperm, imap_index_keys. apply elem_of_seq.
    apply lookup_lt_Some in Hj. lia. }
  exists b. split; [done|].
  apply result_at_elem_of in Hb. rewrite Forall_forall in Hall.
  destruct (Hall _ Hb) as (task & Hin & Hret). simpl in *.
  apply elem_of_lookup_imap in Hin as (i & t & [= -> ->] & Ht).
  rewrite Hj in Ht. by injection Ht as ->.
Qed.

Lemma run_searches_results parallel sched (search_tasks : list (string * Coroutine)) w :
  Forall2 (fun t r => returned_by t.2 r) search_tasks
          (CoordinatorAgent.run_searches parallel sched search_tasks w).1.
Proof.
  unfold CoordinatorAgent.run_searches. destruct parallel.
  - pose proof (gather_results (snd <$> search_tasks) sched w) as H.
    rewrite Forall2_fmap_l in H. exact H.
  - apply run_sequential_results.
Qed.

(** The completion order of [gather] is a rearrangement of the task
    positions: every task is run, once. *)
Lemma gather_completes_each_task_once (tasks : list Coroutine) sched w :
  (CoordinatorAgent.gather_complete (length tasks) (imap (fun i t => (i, t)) tasks)
     sched w).1.*1 ≡ₚ seq 0 (length tasks).
Proof.
  destruct (gather_complete_spec (length tasks) (imap (fun i t => (i, t)) tasks) sched w)
    as [Hperm _]; [by rewrite length_imap|].
  by rewrite Hperm, imap_index_keys.
Qed.

(** ** Collecting the results *)

Lemma collect_spec (search_tasks : list (string * Coroutine)) results rbp all :
  length search_tasks = length results ->
  CoordinatorAgent.collect search_tasks results rbp all
  = OK (assign_all rbp (zip search_tasks.*1 results),
        all ++ concat (map contributed results)).
Proof.
  revert results rbp all.
  induction search_tasks as [|[p task] search_tasks IH];
    intros [|r results] rbp all Hlen; try discriminate Hlen.
  - simpl. by rewrite app_nil_r.
  - cbn [CoordinatorAgent.collect]. rewrite IH by (simpl in Hlen; lia).
    simpl. unfold contributed at 2. f_equal. f_equal.
    destruct (CoordinatorAgent.is_success r); [by rewrite <- app_assoc | done].
Qed.

Lemma assign_all_get d prs k :
  is_Some (dict_get k (assign_all d prs)) <-> is_Some (dict_get k d) \/ k ∈ prs.*1.
Proof.
  revert d. induction prs as [|[p r] prs IH]; intros d; simpl.
  - split; [by left | by intros [?|?%elem_of_nil]].
  - rewrite IH, dict_get_set, elem_of_cons. simpl.
    destruct (decide (k = p)) as [->|Hne].
    + split; [intros _; right; by left | intros _; left; by eexists].
    + split; [intros [?|?]; [by left | right; by right]
             | intros [?|[?|?]]; [by left | done | by right]].
Qed.

Lemma assign_all_fresh d names results :
  NoDup (d.*1 ++ names) -> length names = length results ->
  assign_all d (zip names results) = d ++ zip names results.
Proof.
  revert d results. induction names as [|p names IH];
    intros d [|r results] Hnd Hlen; try discriminate Hlen; simpl.
  - by rewrite app_nil_r.
  - rewrite dict_set_fresh.
    + rewrite IH; [by rewrite <- app_assoc | | by injection Hlen].
      rewrite fmap_app. simpl. by rewrite <- app_assoc.
    + apply NoDup_app in Hnd as (_ & Hd & _). intros H. apply (Hd p H). by constructor.
Qed.

Lemma zip_functional (names : list string) (results : list CoordinatorAgent.SearchResult)
    p r r' :
  NoDup names -> (p, r) ∈ zip names results -> (p, r') ∈ zip names results -> r = r'.
Proof.
  intros Hnd H1 H2.
  apply list_elem_of_lookup in H1 as [i Hi]. apply list_elem_of_lookup in H2 as [j Hj].
  apply lookup_zip_with_Some in Hi as (p1 & r1 & [= <- <-] & Hpi & Hri).
  apply lookup_zip_with_Some in Hj as (p2 & r2 & [= <- <-] & Hpj & Hrj).
  assert (i = j) as -> by (by eapply NoDup_lookup).
  congruence.
Qed.

End Gather.

(** ** Successful results *)

Lemma is_success_succeeded r : CoordinatorAgent.is_success r = true <-> succeeded r.
Proof.
  unfold CoordinatorAgent.is_success, succeeded.
  destruct (CoordinatorAgent.status r) as [s|]; [|done].
  rewrite String.eqb_eq. split; [by intros -> | by intros [= ->]].
Qed.

Lemma is_success_decide r :
  CoordinatorAgent.is_success r = bool_decide (succeeded r).
Proof.
  case_bool_decide as H.
  - by apply is_success_succeeded.
  - apply not_true_is_false. by rewrite is_success_succeeded.
Qed.

Lemma filter_is_success results :
  List.filter CoordinatorAgent.is_success results = filter succeeded results.
Proof.
  induction results as [|r results IH]; [done|]. simpl. rewrite filter_cons.
  rewrite is_success_decide, IH. by case_bool_decide; [rewrite decide_True | rewrite decide_False].
Qed.

Lemma contributed_products results :
  concat (map contributed results) = products_of_succeeded results.
Proof.
  unfold products_of_succeeded.
  induction results as [|r results IH]; [done|]. simpl. rewrite filter_cons, IH.
  unfold contributed. rewrite is_success_decide.
  by case_bool_decide; [rewrite decide_True | rewrite decide_False].
Qed.

Lemma counts_of_succeeded results :
  foldr Z.add 0%Z
    (map (fun r => default 0%Z (CoordinatorAgent.count r))
         (List.filter CoordinatorAgent.is_success results))
  = count_of_succeeded results.
Proof. by rewrite filter_is_success. Qed.

(** ** [CoordinatorAgent.execute] *)

Section CoordinatorClaims.
Context {text : Text} (float_repr : Q -> string) {W : Type}.

Local Abbreviation Coordinator := (@CoordinatorAgent.Coordinator W).

Lemma run_filter_agent task (w : W) :
  BaseAgent.run (FilterAgent.as_agent float_repr) task w
  = (FilterAgent.execute float_repr task, w).
Proof. reflexivity. Qed.

(** [BaseAgent.run] turns an exception into an error result. *)
Lemma run_captures_exception {T R} `{BaseAgent.ErrorDict R}
    (agent : BaseAgent.Agent W T R) task (w w' : W) e :
  BaseAgent.execute agent task w = (Raise e, w') ->
  BaseAgent.run agent task w = (BaseAgent.error_dict e (BaseAgent.name agent), w').
Proof. intros Hraise. unfold BaseAgent.run. by rewrite Hraise. Qed.

Lemma run_returns_result {T R} `{BaseAgent.ErrorDict R}
    (agent : BaseAgent.Agent W T R) task (w w' : W) result :
  BaseAgent.execute agent task w = (OK result, w') ->
  BaseAgent.run agent task w = (result, w').
Proof. intros Hok. unfold BaseAgent.run. by rewrite Hok. Qed.

Lemma coordinator_execute_value (self : Coordinator) sched task w :
  let criteria :=
    default FilterAgent.empty_criteria (CoordinatorAgent.search_criteria task) in
  let requested := default ["jd"; "taobao"; "pdd"] (CoordinatorAgent.platforms task) in
  let params :=
    {| CoordinatorAgent.sp_search_criteria := criteria;
       CoordinatorAgent.sp_max_results :=
         default 10%Z (CoordinatorAgent.max_results_per_platform task) |} in
  let search_tasks := CoordinatorAgent.create_search_tasks self params requested in
  let searched :=
    CoordinatorAgent.run_searches (default true (CoordinatorAgent.parallel task))
      sched search_tasks w in
  let all := concat (map contributed searched.1) in
  let by_platform := assign_all [] (zip search_tasks.*1 searched.1) in
  let filter_result :=
    FilterAgent.execute float_repr
      {| FilterAgent.products := Some all;
         FilterAgent.search_criteria := Some criteria;
         FilterAgent.filter_duplicates := Some true;
         FilterAgent.sort_by := Some "price" |} in
  CoordinatorAgent.execute float_repr self sched task w
  = ({| CoordinatorAgent.result_status := "success";
        CoordinatorAgent.result_error := None;
        CoordinatorAgent.result_search_criteria := criteria;
        CoordinatorAgent.results_by_platform := Some by_platform;
        CoordinatorAgent.all_products := Some all;
        CoordinatorAgent.filtered_products :=
          Some (default [] (FilterAgent.filtered_products filter_result));
        CoordinatorAgent.best_deals :=
          Some (default [] (FilterAgent.best_deals filter_result));
        CoordinatorAgent.price_analysis := FilterAgent.price_analysis filter_result;
        CoordinatorAgent.summary :=
          Some (CoordinatorAgent.generate_summary criteria by_platform filter_result) |},
     searched.2).
Proof.
  intros criteria requested params search_tasks searched all by_platform filter_result.
  unfold CoordinatorAgent.execute, CoordinatorAgent.try_body.
  fold criteria requested params search_tasks searched.
  pose proof (run_searches_results (default true (CoordinatorAgent.parallel task))
                sched search_tasks w) as Hres.
  fold searched in Hres. apply Forall2_length in Hres.
  destruct searched as [results w1] eqn:Hsearched. simpl in Hres.
  rewrite (collect_spec search_tasks results [] [] Hres).
  rewrite run_filter_agent. reflexivity.
Qed.

Lemma Forall2_with_Forall {A B} (P : A -> Prop) (Q : A -> B -> Prop) l k :
  Forall P l -> Forall2 Q l k -> Forall2 (fun x y => P x /\ Q x y) l k.
Proof.
  intros HP HQ. induction HQ as [|x y l k Hxy HQ IH]; [constructor|].
  apply Forall_cons in HP as [Hx HP]. constructor; auto.
Qed.

Lemma search_results_come_from_agents (self : Coordinator) params requested parallel
    sched w :
  Forall2 (fun t r =>
             exists agent,
               dict_get t.1 (CoordinatorAgent.agent_map self) = Some agent
               /\ returned_by (BaseAgent.run agent params) r)
    (CoordinatorAgent.create_search_tasks self params requested)
    (CoordinatorAgent.run_searches parallel sched
       (CoordinatorAgent.create_search_tasks self params requested) w).1.
Proof.
  eapply Forall2_impl.
  - apply Forall2_with_Forall;
      [apply create_search_tasks_runs | apply run_searches_results].
  - intros t r [(agent & Hget & Hrun) Hret]. exists agent. split; [done|].
    by rewrite <- Hrun.
Qed.

(** C1.  The coordinator creates one search per requested platform id
    found in the registry, in request order, ids outside the registry
    being skipped; each result is what the registered agent's [run]
    returned.  Whatever order the searches complete in, the product
    list handed to the filter agent is the concatenation, in request
    order, of the [products] of the results whose status is
    ['success']; a failed result contributes nothing but its platform
    is still a key of [results_by_platform]. *)
Theorem coordinator_combines_in_request_order
    (self : Coordinator) (sched : list nat) (task : CoordinatorAgent.CoordinatorTask)
    (w : W) :
  let criteria :=
    default FilterAgent.empty_criteria (CoordinatorAgent.search_criteria task) in
  let requested := default ["jd"; "taobao"; "pdd"] (CoordinatorAgent.platforms task) in
  let params :=
    {| CoordinatorAgent.sp_search_criteria := criteria;
       CoordinatorAgent.sp_max_results :=
         default 10%Z (CoordinatorAgent.max_results_per_platform task) |} in
  let search_tasks := CoordinatorAgent.create_search_tasks self params requested in
  let results :=
    (CoordinatorAgent.run_searches (default true (CoordinatorAgent.parallel task))
       sched search_tasks w).1 in
  let result := (CoordinatorAgent.execute float_repr self sched task w).1 in
  let filter_result :=
    FilterAgent.execute float_repr
      {| FilterAgent.products := Some (products_of_succeeded results);
         FilterAgent.search_criteria := Some criteria;
         FilterAgent.filter_duplicates := Some true;
         FilterAgent.sort_by := Some "price" |} in
  search_tasks.*1 = filter registered requested
  /\ Forall2 (fun t r =>
                exists agent,
                  dict_get t.1 (CoordinatorAgent.agent_map self) = Some agent
                  /\ returned_by (BaseAgent.run agent params) r)
             search_tasks results
  /\ CoordinatorAgent.result_status result = "success"
  /\ CoordinatorAgent.all_products result = Some (products_of_succeeded results)
  /\ (exists by_platform,
        CoordinatorAgent.results_by_platform result = Some by_platform
        /\ forall p, is_Some (dict_get p by_platform) <-> p ∈ search_tasks.*1)
  /\ CoordinatorAgent.filtered_products result
     = Some (default [] (FilterAgent.filtered_products filter_result))
  /\ CoordinatorAgent.best_deals result
     = Some (default [] (FilterAgent.best_deals filter_result))
  /\ CoordinatorAgent.price_analysis result = FilterAgent.price_analysis filter_result.
Proof.
  intros criteria requested params search_tasks results result filter_result.
  pose proof (search_results_come_from_agents self params requested
                (default true (CoordinatorAgent.parallel task)) sched w) as Hfrom.
  fold search_tasks in Hfrom. fold results in Hfrom.
  subst result filter_result. rewrite coordinator_execute_value.
  fold criteria requested params search_tasks results.
  rewrite contributed_products.
  cbn [fst CoordinatorAgent.result_status CoordinatorAgent.all_products
       CoordinatorAgent.results_by_platform CoordinatorAgent.filtered_products
       CoordinatorAgent.best_deals CoordinatorAgent.price_analysis].
  split; [apply create_search_tasks_platforms|].
  split; [exact Hfrom|].
  split; [done|]. split; [done|].
  split; [|done].
  eexists. split; [reflexivity|]. intros p. rewrite assign_all_get.
  rewrite fst_zip by (apply Forall2_length in Hfrom; rewrite length_fmap; lia).
  split; [intros [[? [=]]|?]; done | by right].
Qed.

End CoordinatorClaims.

(** ** The summary *)

Lemma assign_all_nodup names results :
  NoDup names -> length names = length results ->
  assign_all [] (zip names results) = zip names results.
Proof.
  intros Hnd Hlen. by rewrite (assign_all_fresh [] names results).
Qed.

Lemma summary_membership (names : list string)
    (results : list CoordinatorAgent.SearchResult) (f : CoordinatorAgent.SearchResult -> bool)
    p :
  p ∈ map fst (List.filter (fun pr => f pr.2) (zip names results))
  <-> exists r, (p, r) ∈ zip names results /\ f r = true.
Proof.
  rewrite list_elem_of_In, in_map_iff. split.
  - intros ([p' r] & Hfst & Hin). simpl in Hfst. subst p'.
    apply filter_In in Hin as [Hin Hf]. exists r. by rewrite list_elem_of_In.
  - intros (r & Hin & Hf). exists (p, r). split; [done|].
    apply filter_In. by rewrite <- list_elem_of_In.
Qed.

Section SummaryClaims.
Context {text : Text} (float_repr : Q -> string) {W : Type}.

Local Abbreviation Coordinator := (@CoordinatorAgent.Coordinator W).

(** C7.  An exception raised by a provider's [execute] is turned by
    [run] into a result with status ['error'] carrying the exception,
    which is not a successful result; every result still is what its
    own agent's [run] returned, the coordinator returns status
    ['success'], and for a request without repeated platform ids the
    summary lists a platform under [successful_platforms] if the
    status of its own result is ['success'] and under
    [failed_platforms] otherwise, and [total_products_found] is the
    sum of [count] over the results with status ['success'] only. *)
Theorem provider_failure_is_contained
    (self : Coordinator) (sched : list nat) (task : CoordinatorAgent.CoordinatorTask)
    (w : W) :
  let criteria :=
    default FilterAgent.empty_criteria (CoordinatorAgent.search_criteria task) in
  let requested := default ["jd"; "taobao"; "pdd"] (CoordinatorAgent.platforms task) in
  let params :=
    {| CoordinatorAgent.sp_search_criteria := criteria;
       CoordinatorAgent.sp_max_results :=
         default 10%Z (CoordinatorAgent.max_results_per_platform task) |} in
  let search_tasks := CoordinatorAgent.create_search_tasks self params requested in
  let results :=
    (CoordinatorAgent.run_searches (default true (CoordinatorAgent.parallel task))
       sched search_tasks w).1 in
  let result := (CoordinatorAgent.execute float_repr self sched task w).1 in
  NoDup requested ->
  (forall (agent : BaseAgent.Agent W CoordinatorAgent.SearchParams
                     CoordinatorAgent.SearchResult) w0 w1 e,
      BaseAgent.execute agent params w0 = (Raise e, w1) ->
      BaseAgent.run agent params w0
      = ({| CoordinatorAgent.status := Some "error";
            CoordinatorAgent.platform := None;
            CoordinatorAgent.products := None;
            CoordinatorAgent.count := None;
            CoordinatorAgent.error := Some e;
            CoordinatorAgent.agent := Some (BaseAgent.name agent) |}, w1)
      /\ ~ succeeded (BaseAgent.run agent params w0).1)
  /\ Forall2 (fun t r =>
                exists agent,
                  dict_get t.1 (CoordinatorAgent.agent_map self) = Some agent
                  /\ returned_by (BaseAgent.run agent params) r)
             search_tasks results
  /\ CoordinatorAgent.result_status result = "success"
  /\ CoordinatorAgent.results_by_platform result = Some (zip search_tasks.*1 results)
  /\ exists s,
       CoordinatorAgent.summary result = Some s
       /\ CoordinatorAgent.total_products_found s = count_of_succeeded results
       /\ forall i p r,
            search_tasks.*1 !! i = Some p -> results !! i = Some r ->
            if decide (succeeded r)
            then p ∈ CoordinatorAgent.successful_platforms s
                 /\ p ∉ CoordinatorAgent.failed_platforms s
            else p ∈ CoordinatorAgent.failed_platforms s
                 /\ p ∉ CoordinatorAgent.successful_platforms s.
Proof.
  intros criteria requested params search_tasks results result Hnd.
  pose proof (search_results_come_from_agents self params requested
                (default true (CoordinatorAgent.parallel task)) sched w) as Hfrom.
  fold search_tasks in Hfrom. fold results in Hfrom.
  assert (Hlen : length search_tasks.*1 = length results).
  { apply Forall2_length in Hfrom. by rewrite length_fmap. }
  assert (Hnames : NoDup search_tasks.*1).
  { unfold search_tasks. rewrite create_search_tasks_platforms. by apply NoDup_filter. }
  subst result. rewrite (coordinator_execute_value float_repr).
  fold criteria requested params search_tasks results.
  cbn [fst CoordinatorAgent.result_status CoordinatorAgent.results_by_platform
       CoordinatorAgent.summary].
  rewrite (assign_all_nodup _ _ Hnames Hlen).
  split.
  { intros agent w0 w1 e Hraise.
    rewrite (run_captures_exception agent params w0 w1 e Hraise).
    split; [done|]. intros Hs. discriminate Hs. }
  split; [exact Hfrom|]. split; [done|]. split; [done|].
  eexists. split; [reflexivity|].
  cbn [CoordinatorAgent.generate_summary CoordinatorAgent.total_products_found
       CoordinatorAgent.successful_platforms CoordinatorAgent.failed_platforms].
  split.
  { change (map snd (zip search_tasks.*1 results)) with ((zip search_tasks.*1 results).*2).
    rewrite snd_zip by lia. apply counts_of_succeeded. }
  intros i p r Hp Hr.
  assert (Hin : (p, r) ∈ zip search_tasks.*1 results).
  { apply list_elem_of_lookup. exists i. apply lookup_zip_with_Some. by exists p, r. }
  destruct (decide (succeeded r)) as [Hs|Hs];
    [apply is_success_succeeded in Hs
    |apply (not_iff_compat (is_success_succeeded r)), not_true_is_false in Hs].
  - split.
    + apply summary_membership. by exists r.
    + intros H. apply (summary_membership _ _ (fun r => negb (CoordinatorAgent.is_success r)))
        in H as (r' & Hin' & Hf).
      rewrite (zip_functional _ _ p r' r Hnames Hin' Hin), Hs in Hf. done.
  - split.
    + apply (summary_membership _ _ (fun r => negb (CoordinatorAgent.is_success r))).
      exists r. by rewrite Hs.
    + intros H. apply summary_membership in H as (r' & Hin' & Hf).
      rewrite (zip_functional _ _ p r' r Hnames Hin' Hin), Hs in Hf. done.
Qed.

End SummaryClaims.

(** ** The statements at concrete inputs *)

Section ConcreteInputs.
#[local] Existing Instance ascii_text.



(** Seven products, the main list ordered by title: the best deals are
  the five cheapest, in the order of their prices. *)
Lemma best_deals_are_the_cheapest_witness :
let task :=
  {| FilterAgent.products :=
       Some [sample_product "a" (Some (VInt 70)) "jd";
             sample_product "b" (Some (VInt 20)) "pdd";
             sample_product "c" (Some (VInt 50)) "jd";
             sample_product "d" (Some (VInt 10)) "pdd";
             sample_product "e" (Some (VInt 60)) "jd";
             sample_product "f" (Some (VInt 30)) "pdd";
             sample_product "g" (Some (VInt 40)) "jd"];
     FilterAgent.search_criteria :=
       Some {| brand := None; model := None; max_price := Some (VInt 100) |};
     FilterAgent.filter_duplicates := Some true;
     FilterAgent.sort_by := Some "title" |} in
FilterAgent.status (FilterAgent.execute sample_float_repr task) = "success"
/\ FilterAgent.filtered_products (FilterAgent.execute sample_float_repr task)
   = Some [sample_product "a" (Some (VInt 70)) "jd";
           sample_product "b" (Some (VInt 20)) "pdd";
           sample_product "c" (Some (VInt 50)) "jd";
           sample_product "d" (Some (VInt 10)) "pdd";
           sample_product "e" (Some (VInt 60)) "jd";
           sample_product "f" (Some (VInt 30)) "pdd";
           sample_product "g" (Some (VInt 40)) "jd"]
/\ FilterAgent.best_deals (FilterAgent.execute sample_float_repr task)
   = Some [sample_product "d" (Some (VInt 10)) "pdd";
           sample_product "b" (Some (VInt 20)) "pdd";
           sample_product "f" (Some (VInt 30)) "pdd";
           sample_product "g" (Some (VInt 40)) "jd";
           sample_product "c" (Some (VInt 50)) "jd"]
/\ cheapest_first
     [sample_product "d" (Some (VInt 10)) "pdd";
      sample_product "b" (Some (VInt 20)) "pdd";
      sample_product "f" (Some (VInt 30)) "pdd";
      sample_product "g" (Some (VInt 40)) "jd";
      sample_product "c" (Some (VInt 50)) "jd"].
Proof.
intros task.
assert (Hstatus : FilterAgent.status (FilterAgent.execute sample_float_repr task)
                  = "success") by (vm_compute; reflexivity).
destruct (best_deals_are_the_cheapest sample_float_repr task Hstatus)
  as (filtered & by_price & deals & Hf & _ & Hd & _ & _ & Hs & _ & Hdeals & _ & Hcheap & _).
assert (Hf' : FilterAgent.filtered_products (FilterAgent.execute sample_float_repr task)
              = Some [sample_product "a" (Some (VInt 70)) "jd";
                      sample_product "b" (Some (VInt 20)) "pdd";
                      sample_product "c" (Some (VInt 50)) "jd";
                      sample_product "d" (Some (VInt 10)) "pdd";
                      sample_product "e" (Some (VInt 60)) "jd";
                      sample_product "f" (Some (VInt 30)) "pdd";
                      sample_product "g" (Some (VInt 40)) "jd"])
  by (vm_compute; reflexivity).
split; [exact Hstatus|]. split; [exact Hf'|].
rewrite Hf' in Hf. injection Hf as <-.
vm_compute in Hs. injection Hs as <-.
vm_compute in Hdeals. rewrite Hdeals in Hd, Hcheap.
split; [exact Hd | exact Hcheap].
Defined.

Lemma analyze_prices_spec_witness :
Forall numeric_price
  [sample_product "c" (Some (VInt 30)) "jd"; sample_product "a" (Some (VFloat (21 # 2))) "pdd";
   sample_product "b" None "jd"]
/\ Forall (int_price_at_most 30)
     [sample_product "c" (Some (VInt 30)) "jd";
      sample_product "a" (Some (VFloat (21 # 2))) "pdd"; sample_product "b" None "jd"]
/\ (3 * 30 < float_range)%Z
/\ exists pa a,
     PriceValidator.analyze_prices
       [sample_product "c" (Some (VInt 30)) "jd";
        sample_product "a" (Some (VFloat (21 # 2))) "pdd";
        sample_product "b" None "jd"] = OK pa
     /\ PriceValidator.count pa = 2
     /\ is_minimum (PriceValidator.min pa) [VInt 30; VFloat (21 # 2)]
     /\ is_maximum (PriceValidator.max pa) [VInt 30; VFloat (21 # 2)]
     /\ PriceValidator.average pa = SFloat a
     /\ is_mean a [VFloat (21 # 2); VInt 30]
     /\ is_median (PriceValidator.median pa) [VFloat (21 # 2); VInt 30].
Proof.
assert (Hnum : Forall numeric_price
          [sample_product "c" (Some (VInt 30)) "jd";
           sample_product "a" (Some (VFloat (21 # 2))) "pdd";
           sample_product "b" None "jd"]).
{ repeat constructor; by eexists. }
assert (Hle : Forall (int_price_at_most 30)
          [sample_product "c" (Some (VInt 30)) "jd";
           sample_product "a" (Some (VFloat (21 # 2))) "pdd";
           sample_product "b" None "jd"]).
{ repeat constructor. unfold int_price_at_most. simpl. lia. }
assert (Hrange : (3 * 30 < float_range)%Z) by reflexivity.
split; [exact Hnum|]. split; [exact Hle|]. split; [exact Hrange|].
pose proof (analyze_prices_spec
              [sample_product "c" (Some (VInt 30)) "jd";
               sample_product "a" (Some (VFloat (21 # 2))) "pdd";
               sample_product "b" None "jd"]) as (H & Hret & _).
specialize (H Hnum). cbv zeta in H.
destruct (Hret 30%Z ltac:(lia) Hnum Hle Hrange) as [pa Hpa].
rewrite Hpa in H. destruct H as [_ H].
assert (Hprices : positive_prices_of
                    [sample_product "c" (Some (VInt 30)) "jd";
                     sample_product "a" (Some (VFloat (21 # 2))) "pdd";
                     sample_product "b" None "jd"]
                  = [VInt 30; VFloat (21 # 2)]) by (vm_compute; reflexivity).
rewrite Hprices in H.
destruct (H ltac:(discriminate))
  as (s & Hs & _ & _ & Hcount & Hmin & Hmax & (a & Ha & Hmean) & Hmed & _).
vm_compute in Hs. injection Hs as <-.
exists pa, a.
split; [exact Hpa|]. split; [exact Hcount|]. split; [exact Hmin|].
split; [exact Hmax|]. split; [exact Ha|]. split; [exact Hmean | exact Hmed].
Defined.

Lemma sort_products_spec_witness :
Forall numeric_price
  [sample_product "b" None "jd"; sample_product "a" (Some (VInt 10)) "pdd"]
/\ "shop" <> "price" /\ "shop" <> "platform" /\ "shop" <> "title"
/\ (exists r,
      FilterAgent.sort_products
        [sample_product "b" None "jd"; sample_product "a" (Some (VInt 10)) "pdd"] "price"
      = OK r
      /\ Permutation
           [sample_product "b" None "jd"; sample_product "a" (Some (VInt 10)) "pdd"] r
      /\ ascending price_key r)
/\ FilterAgent.sort_products
     [sample_product "b" None "jd"; sample_product "a" (Some (VInt 10)) "pdd"] "shop"
   = OK [sample_product "b" None "jd"; sample_product "a" (Some (VInt 10)) "pdd"].
Proof.
assert (Hnum : Forall numeric_price
          [sample_product "b" None "jd"; sample_product "a" (Some (VInt 10)) "pdd"]).
{ repeat constructor. by eexists. }
split; [exact Hnum|].
split; [discriminate|]. split; [discriminate|]. split; [discriminate|].
split.
- exact (proj1 (proj2 (sort_products_spec _ "shop")) Hnum).
- apply (proj1 (proj2 (proj2 (proj2 (proj2 (sort_products_spec _ "shop"))))));
    discriminate.
Defined.

Lemma best_deals_include_nonpositive_prices_witness :
let free := sample_product "free sample" (Some (VInt 0)) "jd" in
let phone := sample_product "phone" (Some (VInt 10)) "pdd" in
PriceValidator.find_best_deals [phone; free] 5 = OK [free; phone]
/\ (0 < 5)%Z /\ Forall numeric_price [phone; free] /\ free ∈ [phone; free]
/\ price free = Some (VInt 0) /\ as_num (VInt 0) = Some 0%Q /\ (0 <= 0)%Q
/\ exists h w r, head [free; phone] = Some h /\ h ∈ [phone; free] /\ price h = Some w
                 /\ as_num w = Some r /\ (r <= 0)%Q.
Proof.
intros free phone.
assert (Hnum : Forall numeric_price [phone; free]) by (repeat constructor; by eexists).
assert (Hin : free ∈ [phone; free]) by (right; left).
assert (Hle : (0 <= 0)%Q) by apply Qle_refl.
split; [reflexivity|]. split; [reflexivity|]. split; [exact Hnum|]. split; [exact Hin|].
split; [reflexivity|]. split; [reflexivity|]. split; [exact Hle|].
exact (proj1 best_deals_include_nonpositive_prices [phone; free] 5%Z [free; phone]
         free (VInt 0) 0%Q eq_refl eq_refl Hnum Hin eq_refl eq_refl Hle).
Defined.

(** One platform fails and the other returns two products: the total
  is 2, the failing platform is listed as failed and the other as
  successful. *)
Lemma provider_failure_is_contained_witness :
NoDup ["jd"; "pdd"]
/\ CoordinatorAgent.result_status
     (CoordinatorAgent.execute sample_float_repr sample_coordinator [1; 0]
        (sample_coordinator_task ["jd"; "pdd"] true) tt).1 = "success"
/\ exists s,
     CoordinatorAgent.summary
       (CoordinatorAgent.execute sample_float_repr sample_coordinator [1; 0]
          (sample_coordinator_task ["jd"; "pdd"] true) tt).1 = Some s
     /\ CoordinatorAgent.total_products_found s = 2%Z
     /\ "jd" ∈ CoordinatorAgent.failed_platforms s
     /\ "jd" ∉ CoordinatorAgent.successful_platforms s
     /\ "pdd" ∈ CoordinatorAgent.successful_platforms s
     /\ "pdd" ∉ CoordinatorAgent.failed_platforms s.
Proof.
assert (Hnd : NoDup ["jd"; "pdd"]).
{ apply (bool_decide_unpack _). vm_compute. exact I. }
split; [exact Hnd|].
pose proof (provider_failure_is_contained sample_float_repr sample_coordinator [1; 0]
              (sample_coordinator_task ["jd"; "pdd"] true) tt Hnd)
  as (_ & _ & Hstatus & _ & s & Hs & Htotal & Hlists).
split; [exact Hstatus|].
exists s. split; [exact Hs|].
split; [rewrite Htotal; vm_compute; reflexivity|].
pose proof (Hlists 0 "jd" _ eq_refl eq_refl) as Hjd.
pose proof (Hlists 1 "pdd" _ eq_refl eq_refl) as Hpdd.
destruct (decide (succeeded _)) as [Hfail|_] in Hjd; [discriminate Hfail|].
destruct (decide (succeeded _)) as [_|Hok] in Hpdd; [|by destruct Hok].
destruct Hjd as [Hjd1 Hjd2]. destruct Hpdd as [Hpdd1 Hpdd2]. done.
Defined.

(** Four requested ids, one of them outside the registry; the searches
  complete in the order taobao, jd, pdd, as the log of the world
  shows, and the combined list holds the products of pdd and then of
  taobao, the order of the request. *)
Lemma coordinator_combines_in_request_order_witness :
let run :=
  CoordinatorAgent.execute sample_float_repr logging_coordinator [2; 1; 0]
    (sample_coordinator_task ["pdd"; "amazon"; "jd"; "taobao"] true) [] in
run.2 = ["taobao"; "jd"; "pdd"]
/\ filter registered ["pdd"; "amazon"; "jd"; "taobao"] = ["pdd"; "jd"; "taobao"]
/\ CoordinatorAgent.result_status run.1 = "success"
/\ CoordinatorAgent.all_products run.1
   = Some [sample_product "iPhone 15 Pro 256G" (Some (VInt 7999)) "pdd";
           sample_product "iPhone 15 Pro 128G" (Some (VInt 6999)) "pdd";
           sample_product "iPhone 15 Pro 512G" (Some (VInt 8999)) "taobao"]
/\ exists by_platform,
     CoordinatorAgent.results_by_platform run.1 = Some by_platform
     /\ is_Some (dict_get "jd" by_platform)
     /\ dict_get "amazon" by_platform = None.
Proof.
intros run.
pose proof (coordinator_combines_in_request_order sample_float_repr logging_coordinator
              [2; 1; 0] (sample_coordinator_task ["pdd"; "amazon"; "jd"; "taobao"] true) [])
  as (Htasks & _ & Hstatus & Hall & (by_platform & Hby & Hkeys) & _).
subst run.
split; [vm_compute; reflexivity|].
split; [vm_compute; reflexivity|].
split; [exact Hstatus|].
split; [rewrite Hall; vm_compute; reflexivity|].
exists by_platform. split; [exact Hby|]. split.
- apply Hkeys. rewrite Htasks. vm_compute. right. left.
- apply eq_None_not_Some. rewrite Hkeys, Htasks. vm_compute.
  intros H. repeat (apply elem_of_cons in H as [H|H]; [discriminate H|]).
  by apply elem_of_nil in H.
Defined.

(** The scenario of one failing and one working platform, evaluated:
  the working platform's two products are found, the failing platform
  is listed as failed, and the completion order [pdd, jd] leaves the
  request order of the results untouched. *)
Lemma failing_platform_scenario :
let result :=
  (CoordinatorAgent.execute sample_float_repr sample_coordinator [1; 0]
     (sample_coordinator_task ["jd"; "unknown-shop"; "pdd"] true) tt).1 in
CoordinatorAgent.result_status result = "success"
/\ (CoordinatorAgent.total_products_found <$> CoordinatorAgent.summary result) = Some 2%Z
/\ (CoordinatorAgent.failed_platforms <$> CoordinatorAgent.summary result) = Some ["jd"]
/\ (CoordinatorAgent.successful_platforms <$> CoordinatorAgent.summary result)
   = Some ["pdd"]
/\ (CoordinatorAgent.after_filtering <$> CoordinatorAgent.summary result) = Some 2
/\ (length <$> CoordinatorAgent.all_products result) = Some 2
/\ (map fst <$> CoordinatorAgent.results_by_platform result) = Some ["jd"; "pdd"].
Proof. vm_compute. done. Qed.

End ConcreteInputs.

(** * Further properties of the aggregation pipeline *)

(** ** When the pipeline succeeds *)

Lemma sublist_Forall {A} (P : A -> Prop) (l k : list A) :
  l `sublist_of` k -> Forall P k -> Forall P l.
Proof.
  intros Hsub Hk. apply Forall_forall. intros x Hx.
  rewrite Forall_forall in Hk. apply Hk. by eapply elem_of_sublist.
Qed.


Lemma price_filter_step_sublist criteria products ps1 :
  FilterAgent.price_filter_step criteria products = OK ps1 -> ps1 `sublist_of` products.
Proof.
  rewrite price_filter_step_value. intros [= <-].
  destruct (max_price criteria) as [mp|]; [|done].
  destruct (truthy mp); [apply sublist_filter | done].
Qed.




Section ExecuteSucceeds.
Context {text : Text} (float_repr : Q -> string).

Local Abbreviation execute := (FilterAgent.execute float_repr).

(** The result of a run in which no step raised. *)
Lemma execute_success_inv task :
FilterAgent.status (execute task) = "success" ->
exists ps1 ps3 pa bd,
  let ps := default [] (FilterAgent.products task) in
  let ps2 := if default true (FilterAgent.filter_duplicates task)
             then FilterAgent.remove_duplicates float_repr ps1 else ps1 in
  FilterAgent.price_filter_step
    (default FilterAgent.empty_criteria (FilterAgent.search_criteria task)) ps = OK ps1
  /\ FilterAgent.sort_products ps2 (default "price" (FilterAgent.sort_by task)) = OK ps3
  /\ PriceValidator.analyze_prices ps3 = OK pa
  /\ PriceValidator.find_best_deals ps3 5 = OK bd
  /\ execute task
     = {| FilterAgent.status := "success";
          FilterAgent.filtered_products := Some ps3;
          FilterAgent.original_count := Some (length ps);
          FilterAgent.filtered_count := Some (length ps3);
          FilterAgent.price_analysis := Some pa;
          FilterAgent.best_deals := Some bd;
          FilterAgent.error := None; FilterAgent.agent := None |}.
Proof.
unfold FilterAgent.execute, FilterAgent.try_body.
destruct (FilterAgent.price_filter_step _ _) as [ps1|e] eqn:Hstep; [|by simpl].
destruct (FilterAgent.sort_products _ _) as [ps3|e] eqn:Hsort; [|by simpl].
destruct (PriceValidator.analyze_prices ps3) as [pa|e] eqn:Hpa; [|by simpl].
destruct (PriceValidator.find_best_deals ps3 5) as [bd|e] eqn:Hbd; [|by simpl].
intros _. exists ps1, ps3, pa, bd. cbv zeta.
split; [done|]. split; [exact Hsort|]. split; [exact Hpa|]. split; [exact Hbd|].
reflexivity.
Qed.

Lemma remove_duplicates_sublist products :
FilterAgent.remove_duplicates float_repr products `sublist_of` products.
Proof. by destruct (remove_duplicates_loop_keys float_repr products ∅) as (_ & _ & ?). Qed.

Lemma int_price_at_most_sublist M (l k : list Product) :
l `sublist_of` k -> Forall (int_price_at_most M) k -> Forall (int_price_at_most M) l.
Proof. apply sublist_Forall. Qed.




(** X1.  A successful run reports the length of the input as
  [original_count] and the length of [filtered_products] as
  [filtered_count]; the filtered products are taken from the input,
  each at most as often as it occurs there, so [filtered_count] does
  not exceed [original_count]. *)
Theorem execute_success_counts (task : FilterAgent.FilterTask) :
FilterAgent.status (execute task) = "success" ->
exists filtered,
  FilterAgent.filtered_products (execute task) = Some filtered
  /\ FilterAgent.original_count (execute task)
     = Some (length (default [] (FilterAgent.products task)))
  /\ FilterAgent.filtered_count (execute task) = Some (length filtered)
  /\ filtered ⊆+ default [] (FilterAgent.products task)
  /\ length filtered <= length (default [] (FilterAgent.products task))
  /\ FilterAgent.error (execute task) = None.
Proof.
intros Hok. destruct (execute_success_inv task Hok) as (ps1 & ps3 & pa & bd & H).
cbv zeta in H. destruct H as (Hstep & Hsort & _ & _ & ->). simpl.
assert (Hsub : ps3 ⊆+ default [] (FilterAgent.products task)).
{ apply sort_products_perm in Hsort. rewrite <- Hsort.
  apply sublist_submseteq. etrans; [|by eapply price_filter_step_sublist].
  destruct (default true (FilterAgent.filter_duplicates task)); [|done].
  apply remove_duplicates_sublist. }
exists ps3. repeat split; try done. by apply submseteq_length.
Qed.



End ExecuteSucceeds.

(** ** Bounds on the statistics *)

(** X4.  When the analysis of products with numeric or missing prices,
    at least one of them positive, returns, the reported minimum is
    positive, every positive price lies between the minimum and the
    maximum, and so does the median of an odd number of prices.  The
    average is a rounded float and can lie outside: three prices of
    99.9 have the average 99.90000000000002. *)
Theorem analyze_prices_bounds (products : list Product) (pa : PriceValidator.PriceAnalysis) :
  Forall numeric_price products -> positive_prices_of products <> [] ->
  PriceValidator.analyze_prices products = OK pa ->
  (0 < value (PriceValidator.min pa))%Q
  /\ (forall v, v ∈ positive_prices_of products ->
        (value (PriceValidator.min pa) <= value v)%Q
        /\ (value v <= value (PriceValidator.max pa))%Q)
  /\ (value (PriceValidator.min pa) <= value (PriceValidator.max pa))%Q
  /\ (length (positive_prices_of products) mod 2 = 1 ->
      exists m, PriceValidator.median pa = SValue m
                /\ (value (PriceValidator.min pa) <= value m)%Q
                /\ (value m <= value (PriceValidator.max pa))%Q)
  /\ (PriceValidator.analyze_prices
        [sample_product "a" (Some (VFloat (3514918771674317 # 35184372088832))) "jd";
         sample_product "b" (Some (VFloat (3514918771674317 # 35184372088832))) "jd";
         sample_product "c" (Some (VFloat (3514918771674317 # 35184372088832))) "jd"]
      ≫= fun r => OK (PriceValidator.average r, PriceValidator.max r))
     = OK (SFloat (Finite (7029837543348635 # 70368744177664)),
           VFloat (3514918771674317 # 35184372088832)).
Proof.
  intros Hnum Hne Hpa.
  pose proof (analyze_prices_outcome products Hnum) as H. cbv zeta in H.
  rewrite Hpa in H. destruct H as [_ H].
  destruct (H Hne) as (s & _ & Hperm & _ & _ & Hmin & Hmax & _ & Hmed & _).
  pose proof (positive_prices_of_positive products) as Hpos.
  pose proof Hmin as [Hlo_in Hlo]. pose proof Hmax as [Hhi_in Hhi].
  split.
  { apply positive_value. rewrite Forall_forall in Hpos. by apply Hpos. }
  split; [intros v Hv; split; [by apply Hlo | by apply Hhi]|].
  split; [by apply Hlo|].
  split; [|vm_compute; reflexivity].
  intros Hodd. unfold is_median in Hmed.
  rewrite <- (Permutation_length Hperm), Hodd in Hmed. simpl in Hmed.
  destruct Hmed as (m & Hm & ->). exists m. split; [done|].
  apply list_elem_of_lookup_2 in Hm. rewrite <- Hperm in Hm.
  split; [by apply Hlo | by apply Hhi].
Qed.

(** X5.  Price analysis raises [TypeError] as soon as one product
    carries a price that is not a number (a string, or [None]), even if
    all other prices are fine. *)
Theorem analyze_prices_raises (products : list Product) (p : Product) (v : pyval) :
  p ∈ products -> price p = Some v -> as_num v = None ->
  PriceValidator.analyze_prices products = Raise TypeError.
Proof.
  intros Hp Hv Hn. unfold PriceValidator.analyze_prices.
  destruct products as [|x products]; [by apply elem_of_nil in Hp|].
  by rewrite (positive_prices_raises _ p v Hp Hv Hn).
Qed.

(** ** Best deals as a prefix of the filtered products *)

Section BestDealsPrefix.
Context {text : Text} (float_repr : Q -> string).

Lemma find_best_deals_sorted_input products :
ascending price_key products ->
PriceValidator.find_best_deals products 5 = OK (take 5 products).
Proof.
intros Hasc. unfold PriceValidator.find_best_deals.
destruct products as [|p products]; [done|].
by rewrite (py_sorted_ascending_id price_key _ Hasc).
Qed.

(** X6.  When the main list is sorted by price (the default, and what
  the coordinator asks for), the best deals of a successful run are
  the first five filtered products, or all of them if there are fewer. *)
Theorem best_deals_prefix_of_filtered (task : FilterAgent.FilterTask) :
default "price" (FilterAgent.sort_by task) = "price" ->
FilterAgent.status (FilterAgent.execute float_repr task) = "success" ->
exists filtered,
  FilterAgent.filtered_products (FilterAgent.execute float_repr task) = Some filtered
  /\ FilterAgent.best_deals (FilterAgent.execute float_repr task)
     = Some (take 5 filtered)
  /\ ascending price_key filtered.
Proof.
intros Hby Hok.
destruct (execute_success_inv float_repr task Hok) as (ps1 & ps3 & pa & bd & H).
cbv zeta in H. destruct H as (_ & Hsort & _ & Hbd & ->). simpl.
rewrite Hby, sort_products_price in Hsort.
pose proof (py_sorted_ascending price_key _ _ Hsort) as Hasc.
rewrite (find_best_deals_sorted_input ps3 Hasc) in Hbd. injection Hbd as <-.
by exists ps3.
Qed.

End BestDealsPrefix.

(** ** Deduplication and the price filter as list operations *)

Section DedupFacts.
Context {text : Text} (float_repr : Q -> string).

(** X7.  Deduplication returns its input unchanged exactly when no two
  products share a key; otherwise the result is strictly shorter. *)
Theorem remove_duplicates_fixpoint (products : list Product) :
(FilterAgent.remove_duplicates float_repr products = products
 <-> NoDup (map (FilterAgent.dedup_key float_repr) products))
/\ (length (FilterAgent.remove_duplicates float_repr products) = length products
    <-> NoDup (map (FilterAgent.dedup_key float_repr) products)).
Proof.
destruct (remove_duplicates_loop_keys float_repr products ∅) as (Hnd & _ & Hsub).
assert (Hfix : NoDup (map (FilterAgent.dedup_key float_repr) products) ->
               FilterAgent.remove_duplicates float_repr products = products).
{ intros H. apply remove_duplicates_loop_nodup; [done | set_solver]. }
split; split.
- intros Heq. unfold FilterAgent.remove_duplicates in Heq. by rewrite Heq in Hnd.
- exact Hfix.
- intros Hlen. apply sublist_submseteq in Hsub.
  apply submseteq_length_Permutation in Hsub; [|unfold FilterAgent.remove_duplicates in Hlen; lia].
  change (map (FilterAgent.dedup_key float_repr) products)
    with (FilterAgent.dedup_key float_repr <$> products).
  rewrite <- Hsub. exact Hnd.
- intros H. by rewrite (Hfix H).
Qed.

End DedupFacts.



(** * Further properties of the coordinator *)

(** ** The summary as a partition of the platforms *)

Lemma filter_partition {A} (f : A -> bool) (l : list A) :
  List.filter f l ++ List.filter (fun x => negb (f x)) l ≡ₚ l.
Proof.
  induction l as [|x l IH]; [done|]. simpl. destruct (f x); simpl.
  - by constructor.
  - rewrite <- Permutation_middle. by constructor.
Qed.

Lemma list_filter_sublist {A} (f : A -> bool) (l : list A) :
  List.filter f l `sublist_of` l.
Proof.
  induction l as [|x l IH]; [done|]. simpl.
  destruct (f x); [by apply sublist_skip | by apply sublist_cons].
Qed.

(** X9.  In every summary the successful and the failed platforms
    together are exactly the keys of [results_by_platform]: each key is
    listed once, under the heading its result's status decides, and both
    lists keep the dictionary order. *)
Theorem summary_partitions_platforms {text : Text} (criteria : Criteria)
    (by_platform : list (string * CoordinatorAgent.SearchResult))
    (filter_result : FilterAgent.FilterResult) :
  let s := CoordinatorAgent.generate_summary criteria by_platform filter_result in
  CoordinatorAgent.successful_platforms s ++ CoordinatorAgent.failed_platforms s
    ≡ₚ by_platform.*1
  /\ CoordinatorAgent.successful_platforms s `sublist_of` by_platform.*1
  /\ CoordinatorAgent.failed_platforms s `sublist_of` by_platform.*1
  /\ (forall p r, (p, r) ∈ by_platform -> CoordinatorAgent.is_success r = true ->
                  p ∈ CoordinatorAgent.successful_platforms s)
  /\ (forall p r, (p, r) ∈ by_platform -> CoordinatorAgent.is_success r = false ->
                  p ∈ CoordinatorAgent.failed_platforms s).
Proof.
  cbv zeta. cbn [CoordinatorAgent.generate_summary CoordinatorAgent.successful_platforms
                 CoordinatorAgent.failed_platforms].
  change (@map (string * CoordinatorAgent.SearchResult) string fst)
    with (@fmap list _ (string * CoordinatorAgent.SearchResult) string fst).
  split; [|split; [|split; [|split]]].
  - rewrite <- fmap_app. apply fmap_Permutation. apply filter_partition.
  - apply fmap_sublist, list_filter_sublist.
  - apply fmap_sublist, list_filter_sublist.
  - intros p r Hin Hs. apply list_elem_of_fmap. exists (p, r). split; [done|].
    apply list_elem_of_In, filter_In. split; [by apply list_elem_of_In | done].
  - intros p r Hin Hs. apply list_elem_of_fmap. exists (p, r). split; [done|].
    apply list_elem_of_In, filter_In. split; [by apply list_elem_of_In|].
    simpl. by rewrite Hs.
Qed.

(** ** Repeated platform ids *)

Lemma dict_set_keys_nodup {V} k (v : V) d : NoDup d.*1 -> NoDup (dict_set k v d).*1.
Proof.
  induction d as [|[k0 v0] d IH]; simpl; intros Hnd.
  - apply NoDup_singleton.
  - apply NoDup_cons in Hnd as [Hk0 Hnd].
    destruct (String.eqb_spec k k0) as [->|Hne]; simpl.
    + by apply NoDup_cons.
    + apply NoDup_cons. split; [|by apply IH].
      intros Hin. apply Hk0. apply dict_get_is_Some.
      apply dict_get_is_Some in Hin. rewrite dict_get_set in Hin.
      by rewrite decide_False in Hin.
Qed.

Lemma assign_all_keys_nodup d prs : NoDup d.*1 -> NoDup (assign_all d prs).*1.
Proof.
  revert d. induction prs as [|[p r] prs IH]; intros d Hnd; [done|].
  simpl. apply IH. by apply dict_set_keys_nodup.
Qed.

Lemma assign_all_last d prs p :
  dict_get p (assign_all d prs)
  = match last (filter (fun pr => pr.1 = p) prs) with
    | Some pr => Some pr.2
    | None => dict_get p d
    end.
Proof.
  revert d. induction prs as [|[k r] prs IH]; intros d; [done|].
  cbn [assign_all foldl]. fold (assign_all (dict_set k r d) prs). rewrite IH.
  rewrite filter_cons. cbn [fst snd].
  destruct (decide (k = p)) as [->|Hne].
  - rewrite dict_get_set, decide_True by done.
    destruct (filter (fun pr => pr.1 = p) prs) as [|x l] eqn:Hf; [done|].
    rewrite last_cons_cons. destruct (last (x :: l)) eqn:Hl; [done|].
    by apply last_None in Hl.
  - by rewrite dict_get_set, decide_False by done.
Qed.

Section RepeatedIds.
Context {text : Text} (float_repr : Q -> string) {W : Type}.

(** X10.  When a platform id occurs several times in a request its agent
  is run once per occurrence and every successful run contributes its
  products, but [results_by_platform] has one entry per platform and
  keeps the result of the last occurrence. *)
Theorem results_by_platform_keeps_last
  (self : @CoordinatorAgent.Coordinator W) (sched : list nat)
  (task : CoordinatorAgent.CoordinatorTask) (w : W) :
let criteria :=
  default FilterAgent.empty_criteria (CoordinatorAgent.search_criteria task) in
let requested := default ["jd"; "taobao"; "pdd"] (CoordinatorAgent.platforms task) in
let params :=
  {| CoordinatorAgent.sp_search_criteria := criteria;
     CoordinatorAgent.sp_max_results :=
       default 10%Z (CoordinatorAgent.max_results_per_platform task) |} in
let search_tasks := CoordinatorAgent.create_search_tasks self params requested in
let results :=
  (CoordinatorAgent.run_searches (default true (CoordinatorAgent.parallel task))
     sched search_tasks w).1 in
let result := (CoordinatorAgent.execute float_repr self sched task w).1 in
length results = length (filter registered requested)
/\ exists by_platform,
     CoordinatorAgent.results_by_platform result = Some by_platform
     /\ NoDup by_platform.*1
     /\ forall p,
          dict_get p by_platform
          = snd <$> last (filter (fun pr => pr.1 = p)
                            (zip (filter registered requested) results)).
Proof.
intros criteria requested params search_tasks results result.
pose proof (run_searches_results (default true (CoordinatorAgent.parallel task))
              sched search_tasks w) as Hres.
apply Forall2_length in Hres. fold results in Hres.
pose proof (create_search_tasks_platforms self params requested) as Hnames.
fold search_tasks in Hnames.
split.
{ by rewrite <- Hnames, length_fmap. }
subst result. rewrite (coordinator_execute_value float_repr).
fold criteria requested params search_tasks results.
cbn [fst CoordinatorAgent.results_by_platform]. eexists. split; [reflexivity|].
split; [apply assign_all_keys_nodup; constructor|].
intros p. rewrite assign_all_last, Hnames.
by destruct (last _).
Qed.

(** ** Counts in the summary *)

Lemma filtered_count_bound task :
exists n, FilterAgent.filtered_count (FilterAgent.execute float_repr task) = Some n
          /\ n <= length (default [] (FilterAgent.products task)).
Proof.
destruct (decide (FilterAgent.status (FilterAgent.execute float_repr task) = "success"))
  as [Hok|Herr].
- destruct (execute_success_inv float_repr task Hok) as (ps1 & ps3 & pa & bd & H).
  cbv zeta in H. destruct H as (Hstep & Hsort & _ & _ & ->). simpl.
  exists (length ps3). split; [done|].
  apply sort_products_perm, Permutation_length in Hsort. rewrite <- Hsort.
  apply price_filter_step_sublist, sublist_length in Hstep.
  etrans; [|exact Hstep].
  destruct (default true (FilterAgent.filter_duplicates task)); [|done].
  apply sublist_length, remove_duplicates_sublist.
- destruct (execute_error_shape float_repr task Herr) as (_ & _ & -> & _).
  exists 0. split; [done | lia].
Qed.

Lemma total_found_honest (results : list CoordinatorAgent.SearchResult) :
Forall (fun r => CoordinatorAgent.is_success r = true ->
                 CoordinatorAgent.count r
                 = Some (Z.of_nat (length (default [] (CoordinatorAgent.products r)))))
       results ->
foldr Z.add 0%Z
  (map (fun r => default 0%Z (CoordinatorAgent.count r))
       (List.filter CoordinatorAgent.is_success results))
= Z.of_nat (length (concat (map contributed results))).
Proof.
induction 1 as [|r results Hr Hrs IH]; [done|].
cbn [List.filter map concat]. rewrite length_app, Nat2Z.inj_add, <- IH.
unfold contributed at 1. destruct (CoordinatorAgent.is_success r) eqn:Hs.
- cbn [map foldr]. by rewrite (Hr eq_refl).
- simpl. lia.
Qed.

(** X11.  The summary never reports more products after filtering than
  the coordinator collected; and when every successful platform
  result carries a [count] equal to the number of its products, and no
  platform id is repeated, [total_products_found] is the number of
  collected products. *)
Theorem summary_counts
  (self : @CoordinatorAgent.Coordinator W) (sched : list nat)
  (task : CoordinatorAgent.CoordinatorTask) (w : W) :
let requested := default ["jd"; "taobao"; "pdd"] (CoordinatorAgent.platforms task) in
let params :=
  {| CoordinatorAgent.sp_search_criteria :=
       default FilterAgent.empty_criteria (CoordinatorAgent.search_criteria task);
     CoordinatorAgent.sp_max_results :=
       default 10%Z (CoordinatorAgent.max_results_per_platform task) |} in
let results :=
  (CoordinatorAgent.run_searches (default true (CoordinatorAgent.parallel task))
     sched (CoordinatorAgent.create_search_tasks self params requested) w).1 in
let result := (CoordinatorAgent.execute float_repr self sched task w).1 in
exists s all,
  CoordinatorAgent.summary result = Some s
  /\ CoordinatorAgent.all_products result = Some all
  /\ CoordinatorAgent.after_filtering s <= length all
  /\ (NoDup requested ->
      Forall (fun r => CoordinatorAgent.is_success r = true ->
                       CoordinatorAgent.count r
                       = Some (Z.of_nat (length (default []
                                                   (CoordinatorAgent.products r)))))
             results ->
      CoordinatorAgent.total_products_found s = Z.of_nat (length all)
      /\ (Z.of_nat (CoordinatorAgent.after_filtering s)
          <= CoordinatorAgent.total_products_found s)%Z).
Proof.
intros requested params results result.
pose proof (run_searches_results (default true (CoordinatorAgent.parallel task))
              sched (CoordinatorAgent.create_search_tasks self params requested) w)
  as Hres.
apply Forall2_length in Hres. fold results in Hres.
pose proof (create_search_tasks_platforms self params requested) as Hnames.
subst result. rewrite (coordinator_execute_value float_repr).
fold requested params results.
cbn [fst CoordinatorAgent.summary CoordinatorAgent.all_products].
eexists. eexists. split; [reflexivity|]. split; [reflexivity|].
cbn [CoordinatorAgent.generate_summary CoordinatorAgent.after_filtering
     CoordinatorAgent.total_products_found].
match goal with
| |- context [FilterAgent.execute float_repr ?t] =>
    destruct (filtered_count_bound t) as (n & Hn & Hle)
end.
rewrite Hn. cbn [default from_option id FilterAgent.products] in Hle |- *.
split; [exact Hle|].
intros Hnd Hhonest.
assert (Htotal :
  foldr Z.add 0%Z
    (map (fun r => default 0%Z (CoordinatorAgent.count r))
       (List.filter CoordinatorAgent.is_success
          (map snd (assign_all []
             (zip (CoordinatorAgent.create_search_tasks self params requested).*1
                  results)))))
  = Z.of_nat (length (concat (map contributed results)))).
{ rewrite assign_all_nodup.
  - change (map snd (zip (CoordinatorAgent.create_search_tasks self params requested).*1
                       results))
      with ((zip (CoordinatorAgent.create_search_tasks self params requested).*1
               results).*2).
    rewrite snd_zip by (rewrite length_fmap; lia).
    by apply total_found_honest.
  - rewrite Hnames. by apply NoDup_filter.
  - rewrite length_fmap. lia. }
rewrite Htotal. split; [done | lia].
Qed.

End RepeatedIds.

(** * Product validation and the platform search agents *)

Lemma prefix_refl s : String.prefix s s = true.
Proof.
  induction s as [|c s IH]; [done|]. simpl.
  destruct (Ascii.ascii_dec c c); [done | congruence].
Qed.

Lemma py_in_refl s : py_in s s = true.
Proof. destruct s as [|c s]; [done|]. cbn [py_in]. by rewrite prefix_refl. Qed.

Lemma py_in_empty s : py_in EmptyString s = true.
Proof. by destruct s. Qed.

Lemma texts_differ_spec a b :
  ProductExtractor.texts_differ a b = false <-> texts_overlap b a.
Proof.
  unfold ProductExtractor.texts_differ, texts_overlap.
  destruct (py_in b a), (py_in a b); simpl; split; intros H; try done; auto.
  by destruct H.
Qed.

Section ProductValidation.
Context {text : Text}.

Lemma text_agrees_overlap found e :
text_agrees found (Some e) ->
ProductExtractor.texts_differ (py_strip (py_lower (default EmptyString found)))
  (py_strip (py_lower e)) = false.
Proof.
intros H. apply texts_differ_spec. destruct found as [f|]; simpl in *.
- unfold normal in H. rewrite H. left. apply py_in_refl.
- right. rewrite py_lower_empty, py_strip_empty. apply py_in_empty.
Qed.

(** The price test of the validation, on numbers. *)
Lemma key_lt_numbers v w p q :
as_num v = Some p -> as_num w = Some q ->
key_lt (KVal v) (KVal w) = OK (negb (Qle_bool q p)).
Proof.
intros Hv Hw. unfold key_lt. rewrite (key_cmp_numbers v w p q Hv Hw). simpl. f_equal.
destruct (Qcompare p q) eqn:Hc; simpl; symmetry.
- apply Qeq_alt in Hc. apply negb_false_iff, Qle_bool_iff. rewrite Hc. apply Qle_refl.
- apply Qlt_alt in Hc. apply negb_true_iff. apply not_true_is_false.
  intros H%Qle_bool_iff. exact (Qlt_not_le _ _ Hc H).
- apply Qgt_alt in Hc. apply negb_false_iff, Qle_bool_iff. by apply Qlt_le_weak.
Qed.



(** X13.  The validation accepts every product whose brand and model are
  missing or equal to the requested ones up to case and surrounding
  white space, and whose price is a number within the budget; prices
  of zero or below are accepted. *)
Theorem validate_product_match_accepts (p : Product) (criteria : Criteria) :
text_agrees (product_brand p) (brand criteria) ->
text_agrees (product_model p) (model criteria) ->
price_allowed (max_price criteria) p ->
ProductExtractor.validate_product_match p criteria = OK true.
Proof.
intros Hb Hm Hp. unfold ProductExtractor.validate_product_match.
assert (Hprice : match max_price criteria with
                 | Some max_price =>
                     b ← key_lt (KVal max_price) (price_key p); OK (negb b)
                 | None => OK true
                 end = OK true).
{ unfold price_allowed in Hp. destruct (max_price criteria) as [mp|]; [|done].
  destruct Hp as (v & q & qm & Hv & Hq & Hqm & Hle).
  unfold price_key. rewrite Hv, (key_lt_numbers mp v qm q Hqm Hq).
  apply Qle_bool_iff in Hle. by rewrite Hle. }
destruct (brand criteria) as [b|].
- rewrite (text_agrees_overlap _ _ Hb).
  destruct (model criteria) as [m|]; [|exact Hprice].
  by rewrite (text_agrees_overlap _ _ Hm).
- destruct (model criteria) as [m|]; [|exact Hprice].
  by rewrite (text_agrees_overlap _ _ Hm).
Qed.

(** The validation raises nothing but [TypeError]. *)
Lemma validate_product_match_raises p criteria e :
ProductExtractor.validate_product_match p criteria = Raise e -> e = TypeError.
Proof.
unfold ProductExtractor.validate_product_match.
destruct (match brand criteria with Some _ => _ | None => _ end); [done|].
destruct (match model criteria with Some _ => _ | None => _ end); [done|].
destruct (max_price criteria) as [mp|]; [|done].
unfold key_lt.
destruct (key_cmp (KVal mp) (price_key p)) as [c|e'] eqn:Hc; [done|].
simpl. intros [= <-].
unfold key_cmp, price_key in Hc.
destruct (price p) as [v|].
- destruct mp as [| z | q | s], v as [| z' | q' | s']; simpl in Hc; congruence.
- destruct mp as [| z | q | s]; simpl in Hc; congruence.
Qed.

Lemma validate_loop_spec products criteria acc :
match SearchAgents.validate_loop products criteria acc with
| OK r =>
    r = acc ++ filter (validated criteria) products
    /\ Forall (fun p => is_Some (match ProductExtractor.validate_product_match p criteria
                                 with OK b => Some b | Raise _ => None end)) products
| Raise e =>
    e = TypeError
    /\ exists p, p ∈ products
                 /\ ProductExtractor.validate_product_match p criteria = Raise TypeError
end.
Proof.
revert acc. induction products as [|p products IH]; intros acc; simpl.
{ by rewrite app_nil_r. }
destruct (ProductExtractor.validate_product_match p criteria) as [b|e] eqn:Hp; simpl.
- specialize (IH (if b then acc ++ [p] else acc)).
  destruct (SearchAgents.validate_loop _ _ _) as [r|e].
  + destruct IH as [-> Hall]. split.
    * rewrite filter_cons. destruct b.
      -- rewrite decide_True by exact Hp. by rewrite <- app_assoc.
      -- rewrite decide_False; [done|]. unfold validated. by rewrite Hp.
    * constructor; [by rewrite Hp | done].
  + destruct IH as [-> (q & Hq & Hr)]. split; [done|].
    exists q. split; [by right | done].
- pose proof (validate_product_match_raises p criteria e Hp) as ->.
  split; [done|]. exists p. split; [by left | done].
Qed.

Lemma validate_loop_raises products criteria p e :
p ∈ products ->
ProductExtractor.validate_product_match p criteria = Raise e ->
SearchAgents.validate_loop products criteria [] = Raise TypeError.
Proof.
intros Hin Hp.
pose proof (validate_loop_spec products criteria []) as H.
destruct (SearchAgents.validate_loop products criteria []) as [r|e'].
- destruct H as [_ Hall]. rewrite Forall_forall in Hall.
  specialize (Hall p Hin). rewrite Hp in Hall. by destruct Hall.
- by destruct H as [-> _].
Qed.

Lemma py_take_length {A} (n : Z) (l : list A) :
(0 <= n)%Z -> (Z.of_nat (length (py_take n l)) <= n)%Z.
Proof.
intros Hn. unfold py_take. destruct (0 <=? n)%Z eqn:Hz; [|lia].
rewrite length_firstn. lia.
Qed.

Lemma list_filter_length_le {A} (P : A -> Prop) `{forall x, Decision (P x)} (l : list A) :
length (filter P l) <= length l.
Proof. apply sublist_length, sublist_filter. Qed.

End ProductValidation.

Section PlatformAgents.
Context {text : Text} {W Page : Type} (browser : SearchAgents.Browser W Page).

Local Abbreviation run_search site :=
(BaseAgent.run (SearchAgents.as_agent browser site)).

(** What the [try] block leaves behind. *)
Lemma try_body_outcome site criteria max_results w :
match SearchAgents.try_body browser site criteria max_results w with
| (OK r, page, _) =>
    is_Some page
    /\ (r = SearchAgents.failure site
              (Exception (SearchAgents.navigation_error site))
        \/ exists page' products w',
             extracts browser site criteria w page' products w'
             /\ r = {| CoordinatorAgent.status := Some "success";
                       CoordinatorAgent.platform := Some (SearchAgents.site_platform site);
                       CoordinatorAgent.products :=
                         Some (filter (validated criteria)
                                 (py_take max_results products));
                       CoordinatorAgent.count :=
                         Some (Z.of_nat (length (filter (validated criteria)
                                                   (py_take max_results products))));
                       CoordinatorAgent.error := None;
                       CoordinatorAgent.agent := None |})
| (Raise e, _, _) => True
end.
Proof.
unfold SearchAgents.try_body.
destruct (SearchAgents.create_page browser w) as [[page|e] w1] eqn:Hcreate; [|done].
destruct (SearchAgents.navigate browser page _ w1) as [[|] w2] eqn:Hnav; simpl.
- destruct (SearchAgents.extract_html browser page _) as [html w5] eqn:Hhtml.
  destruct (SearchAgents.extract_products browser html _ _ w5) as [products w6] eqn:Hex.
  pose proof (validate_loop_spec (py_take max_results products) criteria []) as Hloop.
  destruct (SearchAgents.validate_loop _ _ _) as [r|e]; [|done].
  destruct Hloop as [-> _]. simpl. split; [by eexists|]. right.
  exists page, products, w6. split; [|done].
  exists w1, w2, html, w5. done.
- split; [by eexists|]. by left.
Qed.

(** X14.  Whatever the browser and the extraction service do, a result
  obtained from a JD or PDD agent through [run] is of two kinds.  A
  successful result carries the platform tag, products that all pass
  the validation, their number as [count], and no more than
  [max_results] of them when that bound is not negative.  Any other
  result has status ['error'], carries an error and contributes no
  products. *)
Theorem search_agent_result_shape (site : SearchAgents.Site)
  (task : CoordinatorAgent.SearchParams) (w : W) :
let r := (run_search site task w).1 in
let criteria := CoordinatorAgent.sp_search_criteria task in
(CoordinatorAgent.is_success r = true ->
 CoordinatorAgent.platform r = Some (SearchAgents.site_platform site)
 /\ CoordinatorAgent.error r = None
 /\ exists ps, CoordinatorAgent.products r = Some ps
               /\ CoordinatorAgent.count r = Some (Z.of_nat (length ps))
               /\ Forall (validated criteria) ps
               /\ ((0 <= CoordinatorAgent.sp_max_results task)%Z ->
                   (Z.of_nat (length ps) <= CoordinatorAgent.sp_max_results task)%Z))
/\ (CoordinatorAgent.is_success r = false ->
    CoordinatorAgent.status r = Some "error"
    /\ is_Some (CoordinatorAgent.error r)
    /\ contributed r = []).
Proof.
cbv zeta. unfold BaseAgent.run. cbn [BaseAgent.execute SearchAgents.as_agent].
unfold SearchAgents.execute.
pose proof (try_body_outcome site (CoordinatorAgent.sp_search_criteria task)
              (CoordinatorAgent.sp_max_results task) w) as Hbody.
destruct (SearchAgents.try_body browser site _ _ w) as [[outcome page] w1].
assert (Hfail : forall e,
          CoordinatorAgent.is_success (SearchAgents.failure site e) = false) by done.
assert (Herr : forall e name,
          CoordinatorAgent.is_success
            (BaseAgent.error_dict (R:=CoordinatorAgent.SearchResult) e name) = false)
  by done.
assert (Hshape : forall r,
          (r = match outcome with
               | OK result => result
               | Raise e => SearchAgents.failure site e
               end) ->
          (CoordinatorAgent.is_success r = true ->
           CoordinatorAgent.platform r = Some (SearchAgents.site_platform site)
           /\ CoordinatorAgent.error r = None
           /\ exists ps, CoordinatorAgent.products r = Some ps
                /\ CoordinatorAgent.count r = Some (Z.of_nat (length ps))
                /\ Forall (validated (CoordinatorAgent.sp_search_criteria task)) ps
                /\ ((0 <= CoordinatorAgent.sp_max_results task)%Z ->
                    (Z.of_nat (length ps) <= CoordinatorAgent.sp_max_results task)%Z))
          /\ (CoordinatorAgent.is_success r = false ->
              CoordinatorAgent.status r = Some "error"
              /\ is_Some (CoordinatorAgent.error r)
              /\ contributed r = [])).
{ intros r ->. destruct outcome as [r|e].
  - destruct Hbody as [_ [-> | (page' & products & w' & _ & ->)]].
    + split; [done|]. intros _. split; [done|]. split; [by eexists | done].
    + split; [|done]. intros _. split; [done|]. split; [done|].
      eexists. split; [reflexivity|]. split; [reflexivity|]. split.
      * apply Forall_forall. intros p Hp. by apply list_elem_of_filter in Hp as [Hp _].
      * intros Hmax. pose proof (py_take_length (CoordinatorAgent.sp_max_results task)
                                   products Hmax) as Hlen.
        pose proof (list_filter_length_le
                      (validated (CoordinatorAgent.sp_search_criteria task))
                      (py_take (CoordinatorAgent.sp_max_results task) products)).
        lia.
  - split; [done|]. intros _. split; [done|]. split; [by eexists | done]. }
destruct page as [page|].
- destruct (SearchAgents.page_close browser page w1) as [[u|e] w2]; cbn [fst].
  + by apply Hshape.
  + split; [done|]. intros _. split; [done|]. split; [by eexists | done].
- cbn [fst]. by apply Hshape.
Qed.

(** X15.  A search never leaves a page open: for every way of counting
  open pages that creating a page raises by one, closing lowers by one
  and no other operation changes, the count after a search that
  returned is the count before it, on success, on a failed navigation
  and on an exception alike. *)
Theorem search_agent_closes_page (open_pages : W -> nat) (site : SearchAgents.Site)
  (task : CoordinatorAgent.SearchParams) (w w' : W)
  (r : CoordinatorAgent.SearchResult) :
counts_pages browser open_pages ->
SearchAgents.execute browser site task w = (OK r, w') ->
open_pages w' = open_pages w.
Proof.
intros (Hcreate & Hcreate' & Hnav & Hsleep & Hscroll & Hhtml & Hex & Hclose).
unfold SearchAgents.execute, SearchAgents.try_body.
destruct (SearchAgents.create_page browser w) as [[page|e] w1] eqn:Hc.
- apply Hcreate in Hc.
  set (url := SearchAgents.build_search_url _ _).
  pose proof (Hnav page url w1) as Hn.
  destruct (SearchAgents.navigate browser page url w1) as [success w2]. simpl in Hn.
  destruct success; simpl.
  + set (w4 := SearchAgents.scroll_page browser page 2 _).
    assert (H4 : open_pages w4 = open_pages w2).
    { unfold w4. by rewrite Hscroll, Hsleep. }
    pose proof (Hhtml page w4) as H5.
    destruct (SearchAgents.extract_html browser page w4) as [html w5]. simpl in H5.
    pose proof (Hex html (CoordinatorAgent.sp_search_criteria task)
                  (SearchAgents.site_platform site) w5) as H6.
    destruct (SearchAgents.extract_products browser html _ _ w5) as [products w6].
    simpl in H6.
    assert (Hw6 : open_pages w6 = S (open_pages w)) by congruence.
    destruct (SearchAgents.validate_loop _ _ _) as [vs|e];
      destruct (SearchAgents.page_close browser page w6) as [[[]|e'] w7] eqn:Hcl;
      try done; intros [= _ <-]; apply Hclose in Hcl; lia.
  + destruct (SearchAgents.page_close browser page w2) as [[[]|e'] w7] eqn:Hcl;
      try done. intros [= _ <-]. apply Hclose in Hcl. lia.
- apply Hcreate' in Hc. by intros [= _ <-].
Qed.

(** X16.  Once the page is open and the products are extracted, the
  search returns exactly the products among the first [max_results]
  extracted ones that pass the validation, in their order.  But if the
  validation of one of those raises, as it does for a price that is
  not a number under a numeric budget, the products of the whole
  platform are lost: the result is an error result without
  products. *)
Theorem search_agent_outcome (site : SearchAgents.Site)
  (task : CoordinatorAgent.SearchParams) (w w6 w7 : W) (page : Page)
  (products : list Product) :
let criteria := CoordinatorAgent.sp_search_criteria task in
let taken := py_take (CoordinatorAgent.sp_max_results task) products in
extracts browser site criteria w page products w6 ->
SearchAgents.page_close browser page w6 = (OK tt, w7) ->
((forall p, p ∈ taken ->
            ProductExtractor.validate_product_match p criteria <> Raise TypeError) ->
 SearchAgents.execute browser site task w
 = (OK {| CoordinatorAgent.status := Some "success";
          CoordinatorAgent.platform := Some (SearchAgents.site_platform site);
          CoordinatorAgent.products := Some (filter (validated criteria) taken);
          CoordinatorAgent.count :=
            Some (Z.of_nat (length (filter (validated criteria) taken)));
          CoordinatorAgent.error := None;
          CoordinatorAgent.agent := None |}, w7))
/\ (forall p, p ∈ taken ->
              ProductExtractor.validate_product_match p criteria = Raise TypeError ->
              SearchAgents.execute browser site task w
              = (OK (SearchAgents.failure site TypeError), w7)).
Proof.
intros criteria taken (w1 & w2 & html & w5 & Hc & Hn & Hh & Hx) Hclose.
unfold SearchAgents.execute, SearchAgents.try_body.
fold criteria. rewrite Hc, Hn. simpl. rewrite Hh, Hx. fold taken.
pose proof (validate_loop_spec taken criteria []) as Hloop.
split.
- intros Hall. destruct (SearchAgents.validate_loop taken criteria []) as [r|e].
  + destruct Hloop as [-> _]. simpl. by rewrite Hclose.
  + destruct Hloop as [_ (p & Hp & Hr)]. by destruct (Hall p Hp).
- intros p Hp Hr. rewrite (validate_loop_raises taken criteria p TypeError Hp Hr).
  by rewrite Hclose.
Qed.

End PlatformAgents.

(** X25.  Under a numeric budget the validation raises [TypeError] for
    a product whose brand and model pass and whose price is not a number
    (a text, or [None]); it does not answer [False] as
    [PriceValidator.validate_price] does. *)
Theorem validate_product_match_bad_price {text : Text} (p : Product) (criteria : Criteria)
    (m : pyval) (qm : Q) (v : pyval) :
  text_agrees (product_brand p) (brand criteria) ->
  text_agrees (product_model p) (model criteria) ->
  max_price criteria = Some m -> as_num m = Some qm ->
  price p = Some v -> as_num v = None ->
  ProductExtractor.validate_product_match p criteria = Raise TypeError.
Proof.
  intros Hb Hm Hmp Hqm Hv Hnum. unfold ProductExtractor.validate_product_match.
  assert (Hprice : (b ← key_lt (KVal m) (price_key p); OK (negb b)) = Raise TypeError).
  { unfold price_key, key_lt. rewrite Hv.
    destruct m as [| z | q | s], v as [| z' | q' | s']; simpl in *; congruence. }
  rewrite Hmp.
  destruct (brand criteria) as [b|].
  - rewrite (text_agrees_overlap _ _ Hb).
    destruct (model criteria) as [mo|]; [|exact Hprice].
    by rewrite (text_agrees_overlap _ _ Hm).
  - destruct (model criteria) as [mo|]; [|exact Hprice].
    by rewrite (text_agrees_overlap _ _ Hm).
Qed.

(** * The search history *)

Lemma find_snoc {A} (f : A -> bool) (l : list A) (x : A) :
  List.find f (l ++ [x])
  = match List.find f l with
    | Some y => Some y
    | None => if f x then Some x else None
    end.
Proof.
  induction l as [|y l IH]; simpl; [done|]. by destruct (f y).
Qed.

(** X17.  A record added under an id that is not yet in the history is
    found again under that id, and it stores the status of the result
    and the price of its first best deal; records that could be found
    before are still found, so of two records with the same id the
    older one is returned. *)
Theorem add_search_round_trip (history : list SearchHistory.SearchRecord)
    (now_id now_iso : string) (criteria : Criteria)
    (results : CoordinatorAgent.CoordinatorResult) (session : option string) :
  let added := SearchHistory.add_search history now_id now_iso criteria results session in
  SearchHistory.get_search_by_id history added.1 = None ->
  added.1 = ("search_" ++ now_id)%string
  /\ (exists r,
        SearchHistory.get_search_by_id added.2 added.1 = Some r
        /\ last added.2 = Some r
        /\ SearchHistory.session_id r = session
        /\ SearchHistory.timestamp r = now_iso
        /\ SearchHistory.search_criteria r = criteria
        /\ SearchHistory.status r = CoordinatorAgent.result_status results
        /\ SearchHistory.best_price (SearchHistory.summary r)
           = SearchHistory._get_best_price results)
  /\ (forall i r, SearchHistory.get_search_by_id history i = Some r ->
                  SearchHistory.get_search_by_id added.2 i = Some r).
Proof.
  intros added Hfresh. subst added. unfold SearchHistory.add_search in *.
  cbn [fst snd] in *. split; [done|]. split.
  - eexists. split; [|split; [apply last_snoc|done]].
    unfold SearchHistory.get_search_by_id in *. rewrite find_snoc, Hfresh.
    by rewrite String.eqb_refl.
  - intros i r Hr. unfold SearchHistory.get_search_by_id in *.
    by rewrite find_snoc, Hr.
Qed.

Section HistoryOfSearch.
Context {text : Text} (float_repr : Q -> string) {W : Type}.

Lemma execute_best_deals_least task first rest :
FilterAgent.best_deals (FilterAgent.execute float_repr task) = Some (first :: rest) ->
exists filtered,
  FilterAgent.filtered_products (FilterAgent.execute float_repr task) = Some filtered
  /\ first ∈ filtered
  /\ numeric_price first
  /\ forall p, p ∈ filtered -> key_order price_key first p.
Proof.
unfold FilterAgent.execute, FilterAgent.try_body.
destruct (FilterAgent.price_filter_step _ _) as [ps1|e] eqn:Hstep; [|by simpl].
destruct (FilterAgent.sort_products _ _) as [ps3|e] eqn:Hsort; [|by simpl].
destruct (PriceValidator.analyze_prices ps3) as [pa|e] eqn:Hpa; [|by simpl].
destruct (PriceValidator.find_best_deals ps3 5) as [bd|e] eqn:Hbd; [|by simpl].
simpl. intros [= ->]. exists ps3. split; [done|].
pose proof (analyze_prices_ok_numeric ps3 pa Hpa) as Hnum.
assert (Hne : ps3 <> []).
{ intros ->. simpl in Hbd. congruence. }
destruct (find_best_deals_head_least ps3 5 _ Hbd ltac:(lia) Hne Hnum)
  as (h & Hh & Hin & Hleast).
simpl in Hh. injection Hh as <-. split; [done|]. split; [|done].
rewrite Forall_forall in Hnum. by apply Hnum.
Qed.

(** X18.  The best price that the history stores for a coordinator
  result is the lowest price of the filtered products: it is a number,
  it is the price of one of them, and no filtered product has a lower
  price.  (A product without a price counts as the most expensive.) *)
Theorem recorded_best_price_is_least
  (self : @CoordinatorAgent.Coordinator W) (sched : list nat)
  (task : CoordinatorAgent.CoordinatorTask) (w : W)
  (now_id now_iso : string) (criteria : Criteria) (session : option string)
  (v : pyval) :
let result := (CoordinatorAgent.execute float_repr self sched task w).1 in
let record := SearchHistory.new_record now_id now_iso criteria result session in
SearchHistory.best_price (SearchHistory.summary record) = Some v ->
number v
/\ exists filtered,
     CoordinatorAgent.filtered_products result = Some filtered
     /\ (exists p, p ∈ filtered /\ price p = Some v)
     /\ forall p, p ∈ filtered -> key_leq (KVal v) (price_key p).
Proof.
intros result record. subst record result.
rewrite (coordinator_execute_value float_repr).
unfold SearchHistory.new_record, SearchHistory._get_best_price.
cbn [fst SearchHistory.summary SearchHistory.best_price CoordinatorAgent.best_deals
     CoordinatorAgent.filtered_products].
match goal with
| |- context [FilterAgent.execute float_repr ?t] => set (ftask := t)
end.
destruct (FilterAgent.best_deals (FilterAgent.execute float_repr ftask))
  as [[|first rest]|] eqn:Hbd; cbn [default from_option]; unfold id; try done.
intros Hv.
destruct (execute_best_deals_least ftask first rest Hbd)
  as (filtered & Hf & Hin & Hnum & Hleast).
unfold numeric_price, price_key in Hnum. rewrite Hv in Hnum.
split; [exact Hnum|]. exists filtered. rewrite Hf. split; [done|].
split; [by exists first|].
intros p Hp. specialize (Hleast p Hp). unfold key_order, price_key in Hleast.
by rewrite Hv in Hleast.
Qed.

End HistoryOfSearch.

(** ** Reading the history *)

Lemma StronglySorted_snoc {A} (R : A -> A -> Prop) l x :
  StronglySorted R l -> Forall (fun y => R y x) l -> StronglySorted R (l ++ [x]).
Proof.
  induction 1 as [|y l Hl IH Hy]; simpl; intros Hx.
  - repeat constructor.
  - apply Forall_cons in Hx as [Hyx Hx]. constructor; [by apply IH|].
    apply Forall_app. split; [done | by constructor].
Qed.

Lemma StronglySorted_rev {A} (R : A -> A -> Prop) l :
  StronglySorted R l -> StronglySorted (fun a b => R b a) (rev l).
Proof.
  induction 1 as [|x l Hl IH Hx]; simpl; [constructor|].
  apply StronglySorted_snoc; [done|].
  apply Forall_forall. intros y Hy. rewrite Forall_forall in Hx. apply Hx.
  apply list_elem_of_In. apply in_rev. by apply list_elem_of_In.
Qed.

Lemma StronglySorted_take {A} (R : A -> A -> Prop) n l :
  StronglySorted R l -> StronglySorted R (take n l).
Proof.
  intros H. revert n.
  induction H as [|x l Hl IH Hx]; intros [|n]; simpl; try constructor; auto.
  by apply Forall_take.
Qed.

Lemma py_take_is_take {A} (n : Z) (l : list A) : exists k, py_take n l = take k l.
Proof. unfold py_take. destruct (0 <=? n)%Z; by eexists. Qed.

Lemma py_sorted_reverse_spec {A} (key : A -> pykey) (l : list A) :
  Forall (fun x => str_key (key x)) l ->
  exists r, py_sorted_reverse key l = OK r
            /\ Permutation l r
            /\ StronglySorted (fun a b => key_order key b a) r.
Proof.
  intros Hstr. unfold py_sorted_reverse.
  destruct (py_sorted_total key str_key (rev l)) as [r Hr].
  - intros a b. apply key_cmp_str.
  - apply Forall_forall. intros x Hx. rewrite Forall_forall in Hstr. apply Hstr.
    apply list_elem_of_In. apply in_rev. by apply list_elem_of_In.
  - rewrite Hr. simpl. exists (rev r). split; [done|]. split.
    + apply py_sorted_perm in Hr. rewrite <- (Permutation_rev r), <- Hr.
      apply Permutation_rev.
    + apply StronglySorted_rev. by apply (py_sorted_ascending key) in Hr.
Qed.

Lemma of_session_sublist history session :
  SearchHistory.of_session history session `sublist_of` history.
Proof.
  unfold SearchHistory.of_session. destruct (text_given session); [|done].
  apply list_filter_sublist.
Qed.

Lemma of_session_in_session history session :
  text_given session = true ->
  Forall (in_session session) (SearchHistory.of_session history session).
Proof.
  intros Hs. unfold SearchHistory.of_session. rewrite Hs.
  apply Forall_forall. intros r Hr. apply list_elem_of_In, filter_In in Hr as [_ Hr].
  by apply bool_decide_eq_true in Hr.
Qed.

(** X19.  [get_history] never raises.  It returns records of the
    history, newest first; with a session id only records of that
    session; at most [limit] records when [limit] is not negative, and
    all records in question when there are no more than [limit]. *)
Theorem get_history_spec (history : list SearchHistory.SearchRecord)
    (session : option string) (limit : Z) :
  exists l,
    SearchHistory.get_history history session limit = OK l
    /\ l ⊆+ history
    /\ newest_first l
    /\ (text_given session = true -> Forall (in_session session) l)
    /\ ((0 <= limit)%Z -> (Z.of_nat (length l) <= limit)%Z)
    /\ ((Z.of_nat (length (SearchHistory.of_session history session)) <= limit)%Z ->
        l ≡ₚ SearchHistory.of_session history session).
Proof.
  unfold SearchHistory.get_history.
  destruct (py_sorted_reverse_spec (fun x => KVal (VStr (SearchHistory.timestamp x)))
              (SearchHistory.of_session history session)) as (r & Hr & Hperm & Hsorted).
  { by apply Forall_forall. }
  rewrite Hr. simpl. eexists. split; [reflexivity|].
  destruct (py_take_is_take limit r) as [k Hk].
  assert (Hsub : py_take limit r ⊆+ history).
  { rewrite Hk. etrans; [apply sublist_submseteq, sublist_take|].
    rewrite <- Hperm. apply sublist_submseteq, of_session_sublist. }
  split; [exact Hsub|]. split; [|split; [|split]].
  - rewrite Hk. by apply StronglySorted_take.
  - intros Hs. rewrite Hk.
    eapply sublist_Forall; [apply sublist_take|]. rewrite <- Hperm.
    by apply of_session_in_session.
  - apply py_take_length.
  - intros Hlen. pose proof (Permutation_length Hperm) as Hl. unfold py_take.
    destruct (0 <=? limit)%Z eqn:Hz; [|lia].
    rewrite firstn_all2 by lia. done.
Qed.

Lemma filter_session_cleared history session other :
  other <> session ->
  List.filter (fun h => bool_decide (SearchHistory.session_id h = other))
    (List.filter (fun h => negb (bool_decide (SearchHistory.session_id h = session)))
       history)
  = List.filter (fun h => bool_decide (SearchHistory.session_id h = other)) history.
Proof.
  intros Hne. induction history as [|h history IH]; [done|]. simpl.
  destruct (bool_decide (SearchHistory.session_id h = session)) eqn:Hs; simpl.
  - apply bool_decide_eq_true in Hs. rewrite IH.
    rewrite bool_decide_eq_false_2 by congruence. done.
  - by rewrite IH.
Qed.

Lemma filter_session_own history session :
  List.filter (fun h => bool_decide (SearchHistory.session_id h = session))
    (List.filter (fun h => negb (bool_decide (SearchHistory.session_id h = session)))
       history)
  = [].
Proof.
  induction history as [|h history IH]; [done|]. simpl.
  destruct (bool_decide (SearchHistory.session_id h = session)) eqn:Hs; simpl; [done|].
  by rewrite Hs.
Qed.

(** X20.  Clearing the history of a session removes the records of that
    session and no others: afterwards [get_history] finds nothing for
    it and answers as before for every other session.  A session id
    that is absent or the empty text clears the records of all
    sessions. *)
Theorem clear_history_spec (history : list SearchHistory.SearchRecord)
    (session other : option string) (limit : Z) :
  text_given other = true ->
  SearchHistory.get_history (SearchHistory.clear_history history session) other limit
  = if text_given session
    then if decide (other = session) then OK []
         else SearchHistory.get_history history other limit
    else OK [].
Proof.
  intros Ho. unfold SearchHistory.get_history, SearchHistory.clear_history,
    SearchHistory.of_session.
  rewrite Ho. destruct (text_given session).
  - destruct (decide (other = session)) as [->|Hne].
    + rewrite filter_session_own. simpl. unfold py_take. simpl.
      destruct (0 <=? limit)%Z; [by rewrite take_nil | done].
    + by rewrite filter_session_cleared.
  - simpl. unfold py_take. simpl. destruct (0 <=? limit)%Z; [by rewrite take_nil | done].
Qed.

(** * Statistics, sessions and metrics *)

(** ** Statistics of the history *)

Lemma brand_count_sum k (d : list (string * Z)) :
  foldr Z.add 0%Z (dict_set k (default 0%Z (dict_get k d) + 1)%Z d).*2
  = (foldr Z.add 0%Z d.*2 + 1)%Z.
Proof.
  induction d as [|[k0 v0] d IH]; [done|].
  cbn [dict_set dict_get]. destruct (String.eqb k k0).
  - simpl. lia.
  - rewrite !fmap_cons. cbn [fold_right snd]. rewrite IH. lia.
Qed.

Lemma count_brands_spec successful d t :
  NoDup d.*1 ->
  let r := SearchHistory.count_brands successful d t in
  NoDup r.1.*1
  /\ foldr Z.add 0%Z r.1.*2 = (foldr Z.add 0%Z d.*2 + Z.of_nat (length successful))%Z
  /\ r.2 = (t + results_of successful)%Z
  /\ (successful <> [] -> r.1 <> []).
Proof.
  revert d t. induction successful as [|x successful IH]; intros d t Hnd; cbv zeta.
  - simpl. split; [done|]. split; [lia|]. split; [unfold results_of; simpl; lia | done].
  - cbn [SearchHistory.count_brands].
    set (b := default "Unknown" (brand (SearchHistory.search_criteria x))).
    set (d' := dict_set b (default 0%Z (dict_get b d) + 1)%Z d).
    assert (Hnd' : NoDup d'.*1) by by apply dict_set_keys_nodup.
    destruct (IH d' (t + Z.of_nat (SearchHistory.after_filtering
                                     (SearchHistory.summary x)))%Z Hnd')
      as (H1 & H2 & H3 & H4).
    split; [exact H1|]. split; [|split].
    + rewrite H2. unfold d'. rewrite brand_count_sum. simpl length. lia.
    + rewrite H3. unfold results_of. simpl. lia.
    + intros _. destruct successful as [|y successful]; [|by apply H4].
      simpl. unfold d'. destruct d as [|[k0 v0] d]; simpl; [done|].
      by destruct (String.eqb b k0).
Qed.

Lemma max_by_count_spec best items :
  let r := SearchHistory.max_by_count best items in
  r ∈ best :: items /\ forall x, x ∈ best :: items -> (x.2 <= r.2)%Z.
Proof.
  revert best. induction items as [|item items IH]; intros best; cbv zeta; simpl.
  - split; [by left|]. intros x ->%list_elem_of_singleton. lia.
  - destruct (IH (if (best.2 <? item.2)%Z then item else best)) as [Hin Hmax].
    split.
    + apply elem_of_cons in Hin as [Hin|Hin]; [|by right; right].
      rewrite Hin. destruct (best.2 <? item.2)%Z; [right; by left | by left].
    + intros x Hx. destruct (Z.ltb_spec best.2 item.2) as [Hlt|Hge].
      * apply elem_of_cons in Hx as [->|Hx].
        -- etrans; [|apply (Hmax item); by left]. lia.
        -- apply Hmax. apply elem_of_cons in Hx as [->|Hx]; [by left | by right].
      * apply elem_of_cons in Hx as [->|Hx]; [apply Hmax; by left|].
        apply elem_of_cons in Hx as [->|Hx].
        -- etrans; [|apply (Hmax best); by left]. lia.
        -- apply Hmax. by right.
Qed.

Lemma dict_get_elem_of_inv {V} k (v : V) d : dict_get k d = Some v -> (k, v) ∈ d.
Proof.
  induction d as [|[k0 v0] d IH]; simpl; [done|].
  destruct (String.eqb_spec k k0) as [->|Hne].
  - intros [= ->]. by left.
  - intros H. right. by apply IH.
Qed.

Lemma filter_lengths {A} (f : A -> bool) (l : list A) :
  length l = length (List.filter f l) + length (List.filter (fun x => negb (f x)) l).
Proof. by rewrite <- (Permutation_length (filter_partition f l)), length_app. Qed.

Lemma results_of_nonneg l : (0 <= results_of l)%Z.
Proof. unfold results_of. induction l as [|r l IH]; simpl; lia. Qed.

(** X21.  The statistics of a history (or of one session of it) either
    are returned or the division for the average raises
    [OverflowError]; they are returned when the results of the
    successful searches number less than [2 ^ 1023].  The searches
    counted are the successful and the failed ones together; the brand
    distribution lists every brand once and its counts add up to the
    number of successful searches; the most searched brand has the
    largest count of the distribution; and the average is the float
    nearest to the number of filtered results per successful search. *)
Theorem get_search_statistics_spec (history : list SearchHistory.SearchRecord)
    (session : option string) :
  let records := SearchHistory.of_session history session in
  let successful := List.filter SearchHistory.is_success records in
  match SearchHistory.get_search_statistics history session with
  | OK st =>
      SearchHistory.total_searches st = length records
      /\ SearchHistory.successful_searches st = length successful
      /\ SearchHistory.total_searches st
         = SearchHistory.successful_searches st + SearchHistory.failed_searches st
      /\ (successful = [] -> SearchHistory.average_results st = SValue (VInt 0))
      /\ (records <> [] ->
          exists dist,
            SearchHistory.brand_distribution st = Some dist
            /\ NoDup dist.*1
            /\ foldr Z.add 0%Z dist.*2 = Z.of_nat (length successful)
            /\ (forall b, SearchHistory.most_searched_brand st = Some b ->
                  exists n, dict_get b dist = Some n
                            /\ forall b' n', dict_get b' dist = Some n' -> (n' <= n)%Z)
            /\ (successful <> [] ->
                is_Some (SearchHistory.most_searched_brand st)
                /\ SearchHistory.average_results st
                   = SFloat (round_double
                               (inject_Z (results_of successful)
                                / inject_Z (Z.of_nat (length successful))))))
  | Raise e => e = OverflowError /\ successful <> []
  end
  /\ ((results_of successful < float_range)%Z ->
      exists st, SearchHistory.get_search_statistics history session = OK st).
Proof.
  intros records successful. unfold SearchHistory.get_search_statistics.
  fold records. fold successful.
  pose proof (filter_lengths SearchHistory.is_success records) as Hlens.
  fold successful in Hlens.
  set (failed := List.filter (fun h => negb (SearchHistory.is_success h)) records) in *.
  assert (Hsub : records = [] -> successful = []) by (by intros H; unfold successful; rewrite H).
  clearbody successful failed. clearbody records.
  destruct records as [|r0 records'] eqn:Hrecords.
  { rewrite (Hsub eq_refl). split; [|by eexists]. simpl. done. }
  rewrite <- Hrecords in *. assert (Hne0 : records <> []) by (by rewrite Hrecords).
  clear Hrecords Hsub.
  pose proof (count_brands_spec successful [] 0%Z (NoDup_nil_2 (A:=string))) as Hcount.
  cbv zeta in Hcount.
  destruct (SearchHistory.count_brands successful [] 0%Z) as [dist total_results].
  cbn [fst snd] in Hcount. destruct Hcount as (Hnd & Hsum & Htotal & Hne).
  simpl in Hsum. rewrite Z.add_0_l in Htotal. subst total_results.
  assert (Hbrand : forall b,
            match dist with
            | [] => None
            | item :: rest => Some (SearchHistory.max_by_count item rest).1
            end = Some b ->
            exists n, dict_get b dist = Some n
                      /\ forall b' n', dict_get b' dist = Some n' -> (n' <= n)%Z).
  { intros b Hb. destruct dist as [|item rest]; [done|].
    injection Hb as <-.
    destruct (max_by_count_spec item rest) as [Hin Hmax]. cbv zeta in Hin, Hmax.
    set (m := SearchHistory.max_by_count item rest) in *.
    exists m.2. split.
    + apply dict_get_elem_of; [done|]. by destruct m.
    + intros b' n' Hb'. apply dict_get_elem_of_inv in Hb'. by apply (Hmax (b', n')). }
  destruct (decide (successful = [])) as [Hs|Hs].
  - assert (Havg : match successful with
                   | [] => OK (SValue (VInt 0))
                   | _ :: _ =>
                       a ← num_truediv (NInt (results_of successful))
                             (NInt (Z.of_nat (length successful)));
                       OK (SFloat a)
                   end = OK (SValue (VInt 0))) by (by rewrite Hs).
    rewrite Havg. cbn [mbind res_bind]. split; [|by eexists].
    cbn [SearchHistory.total_searches SearchHistory.successful_searches
         SearchHistory.failed_searches SearchHistory.brand_distribution
         SearchHistory.most_searched_brand SearchHistory.average_results].
    split; [done|]. split; [done|]. split; [exact Hlens|]. split; [done|].
    intros _. exists dist. split; [done|]. split; [done|]. split; [lia|].
    split; [exact Hbrand | done].
  - set (q := (inject_Z (results_of successful)
               / inject_Z (Z.of_nat (length successful)))%Q).
    assert (Hlen : Z.of_nat (length successful) <> 0%Z).
    { destruct successful; [done | simpl length; lia]. }
    assert (Havg : match successful with
                   | [] => OK (SValue (VInt 0))
                   | _ :: _ =>
                       a ← num_truediv (NInt (results_of successful))
                             (NInt (Z.of_nat (length successful)));
                       OK (SFloat a)
                   end
                   = match round_double q with
                     | Infinite _ => Raise OverflowError
                     | f => OK (SFloat f)
                     end).
    { assert (Hm : forall (X : Type) (x y : X),
                match successful with [] => x | _ :: _ => y end = y)
        by (intros; by destruct successful).
      rewrite Hm. unfold num_truediv. rewrite (proj2 (Z.eqb_neq _ _) Hlen). unfold q.
      by destruct (round_double _). }
    rewrite Havg. split.
    + assert (Hclauses : forall f, round_double q = f ->
                match f with Infinite _ => False | _ => True end ->
                let st := {| SearchHistory.total_searches := length records;
                             SearchHistory.successful_searches := length successful;
                             SearchHistory.failed_searches := length failed;
                             SearchHistory.most_searched_brand :=
                               match dist with
                               | [] => None
                               | item :: rest =>
                                   Some (SearchHistory.max_by_count item rest).1
                               end;
                             SearchHistory.average_results := SFloat f;
                             SearchHistory.brand_distribution := Some dist |} in
                SearchHistory.total_searches st = length records
                /\ SearchHistory.successful_searches st = length successful
                /\ SearchHistory.total_searches st
                   = SearchHistory.successful_searches st
                     + SearchHistory.failed_searches st
                /\ (successful = [] ->
                    SearchHistory.average_results st = SValue (VInt 0))
                /\ (records <> [] ->
                    exists dist0,
                      SearchHistory.brand_distribution st = Some dist0
                      /\ NoDup dist0.*1
                      /\ foldr Z.add 0%Z dist0.*2 = Z.of_nat (length successful)
                      /\ (forall b, SearchHistory.most_searched_brand st = Some b ->
                            exists n, dict_get b dist0 = Some n
                                      /\ forall b' n', dict_get b' dist0 = Some n' ->
                                                        (n' <= n)%Z)
                      /\ (successful <> [] ->
                          is_Some (SearchHistory.most_searched_brand st)
                          /\ SearchHistory.average_results st
                             = SFloat (round_double q)))).
      { intros f Hf _. cbv zeta.
        cbn [SearchHistory.total_searches SearchHistory.successful_searches
             SearchHistory.failed_searches SearchHistory.brand_distribution
             SearchHistory.most_searched_brand SearchHistory.average_results].
        split; [done|]. split; [done|]. split; [exact Hlens|]. split; [done|].
        intros _. exists dist. split; [done|]. split; [done|]. split; [lia|].
        split; [exact Hbrand|]. intros _. split; [|by rewrite Hf].
        specialize (Hne Hs). destruct dist; [done | by eexists]. }
      destruct (round_double q) as [x|neg|] eqn:Hq; cbn [mbind res_bind].
      * by apply (Hclauses (Finite x)).
      * done.
      * by apply (Hclauses NaN).
    + intros Hrange.
      destruct (round_double_finite q) as [x ->]; [|by eexists].
      apply quotient_in_range; [exact Hlen|].
      pose proof (results_of_nonneg successful). lia.
Qed.

(** ** Sessions *)

Lemma keeps_session_refl o : option_Forall2 (keeps_session 0) o o.
Proof. destruct o as [s|]; constructor. split; [lia | done]. Qed.

Local Ltac touched j i :=
  let sj := fresh "sj" in
  let Hj := fresh "Hj" in
  let Hne := fresh "Hne" in
  destruct (SessionManager.sessions _ !! j) as [sj|] eqn:Hj; simpl;
    [|apply keeps_session_refl];
  destruct (decide (j = i)) as [->|Hne];
    [ rewrite Hj, lookup_insert_eq; constructor; (split; [simpl; lia | done])
    | rewrite lookup_insert_ne by done; apply keeps_session_refl ].

Lemma perform_other (m : SessionManager.Manager) (c : session_call) (i : string) :
  ~ begins_or_ends i c ->
  option_Forall2 (keeps_session (increments i [c]))
    (SessionManager.sessions m !! i) (SessionManager.sessions (perform m c) !! i).
Proof.
  intros Hc.
  destruct c as [now1 now2 j prefs | now j | now j st | j | now j | j prefs | j];
    simpl in Hc |- *.
  - rewrite lookup_insert_ne by tauto. apply keeps_session_refl.
  - unfold SessionManager.get_session. touched j i.
  - unfold SessionManager.update_session_state. touched j i.
  - unfold SessionManager.increment_search_count.
    destruct (String.eqb_spec j i) as [->|Hne].
    + destruct (SessionManager.sessions m !! i) as [si|] eqn:Hi; simpl.
      * rewrite lookup_insert_eq. constructor. split; [simpl; lia | done].
      * rewrite Hi. constructor.
    + destruct (SessionManager.sessions m !! j) as [sj|] eqn:Hj; simpl.
      * rewrite lookup_insert_ne by done. apply keeps_session_refl.
      * apply keeps_session_refl.
  - unfold SessionManager.get_user_preferences, SessionManager.get_session.
    touched j i.
  - unfold SessionManager.update_user_preferences. touched j i.
  - unfold SessionManager.delete_session.
    destruct (SessionManager.sessions m !! j) as [sj|] eqn:Hj; simpl.
    + rewrite lookup_delete_ne by tauto. apply keeps_session_refl.
    + apply keeps_session_refl.
Qed.

Lemma increments_cons i c calls :
  increments i (c :: calls) = (increments i [c] + increments i calls)%Z.
Proof. destruct c; simpl; lia. Qed.

Lemma perform_all_other (m : SessionManager.Manager) (i : string)
    (calls : list session_call) :
  Forall (fun c => ~ begins_or_ends i c) calls ->
  option_Forall2 (keeps_session (increments i calls))
    (SessionManager.sessions m !! i)
    (SessionManager.sessions (perform_all m calls) !! i).
Proof.
  intros Hcalls. revert m. induction Hcalls as [|c calls Hc Hcalls IH]; intros m.
  - apply keeps_session_refl.
  - unfold perform_all. cbn [foldl]. fold (perform_all (perform m c) calls).
    pose proof (perform_other m c i Hc) as Hstep. specialize (IH (perform m c)).
    rewrite increments_cons.
    destruct (SessionManager.sessions m !! i) as [s|];
      destruct (SessionManager.sessions (perform m c) !! i) as [s1|];
      inversion Hstep as [? ? (H1 & H2 & H3)|]; subst;
      destruct (SessionManager.sessions (perform_all (perform m c) calls) !! i)
        as [s'|];
      inversion IH as [? ? (H1' & H2' & H3')|]; subst; constructor.
    split; [lia|]. split; congruence.
Qed.

(** X22.  Between its creation and its deletion a session counts the
    searches recorded for it: after any calls that neither create nor
    delete session [i], its [search_count] has grown by the number of
    [increment_search_count(i)] among them, and its id and creation time
    are unchanged.  For an id without a session the calls create none:
    counting a search for an unknown session is silently dropped. *)
Theorem session_counts_its_searches (m : SessionManager.Manager) (i : string)
    (calls : list session_call) :
  Forall (fun c => ~ begins_or_ends i c) calls ->
  match SessionManager.sessions m !! i with
  | Some s =>
      exists s',
        SessionManager.sessions (perform_all m calls) !! i = Some s'
        /\ SessionManager.search_count s'
           = (SessionManager.search_count s + increments i calls)%Z
        /\ SessionManager.id s' = SessionManager.id s
        /\ SessionManager.created_at s' = SessionManager.created_at s
  | None => SessionManager.sessions (perform_all m calls) !! i = None
  end.
Proof.
  intros Hcalls. pose proof (perform_all_other m i calls Hcalls) as H.
  destruct (SessionManager.sessions m !! i) as [s|]; inversion H as [s0 s' Hk|]; subst.
  - by exists s'.
  - done.
Qed.

(** ** Metrics *)

Lemma dict_set_keys_present {V} k (v w : V) d :
  dict_get k d = Some w -> (dict_set k v d).*1 = d.*1.
Proof.
  induction d as [|[k0 v0] d IH]; [done|]. cbn [dict_set dict_get].
  destruct (String.eqb k k0); [done|]. intros H. rewrite !fmap_cons. by rewrite IH.
Qed.

Lemma list_filter_snoc {A} (f : A -> bool) l x :
  List.filter f (l ++ [x]) = List.filter f l ++ (if f x then [x] else []).
Proof. induction l as [|y l IH]; simpl; [done|]. destruct (f y); simpl; by rewrite IH. Qed.

Lemma foldr_add_snoc (l : list Z) x :
  foldr Z.add 0%Z (l ++ [x]) = (foldr Z.add 0%Z l + x)%Z.
Proof. induction l as [|y l IH]; simpl; lia. Qed.

(** X23.  Whatever searches are recorded, the metrics stay consistent:
    the total is the number of recorded searches and the sum of the
    successful and the failed ones; one duration is kept per search and
    the average time is the float quotient of the float sum of all the
    durations, added in the order of the searches, by their number; the
    products found are those of the successful searches; the platform
    counters keep their three keys and count the searches of each
    platform, searches on other platforms being counted in the total
    only.  Three searches of 99.9 seconds each have the average
    99.90000000000002. *)
Theorem metrics_stay_consistent (calls : list search_call) :
  let m := record_calls calls in
  MetricsCollector.searches_total m = Z.of_nat (length calls)
  /\ MetricsCollector.searches_success m = count_calls call_success calls
  /\ MetricsCollector.searches_failed m
     = count_calls (fun c => negb (call_success c)) calls
  /\ MetricsCollector.searches_total m
     = (MetricsCollector.searches_success m + MetricsCollector.searches_failed m)%Z
  /\ MetricsCollector.search_times m = map call_duration calls
  /\ MetricsCollector.products_found m = found_by calls
  /\ (MetricsCollector.platforms_queried m).*1 = ["jd"; "taobao"; "pdd"]
  /\ (forall p, registered p ->
        dict_get p (MetricsCollector.platforms_queried m)
        = Some (count_calls (fun c => String.eqb (call_platform c) p) calls))
  /\ (calls <> [] ->
      MetricsCollector.average_search_time m
      = float_div (MetricsCollector.sum_times (map call_duration calls))
          (round_double (inject_Z (Z.of_nat (length calls)))))
  /\ MetricsCollector.average_search_time
       (record_calls
          [{| call_success := true; call_duration := 3514918771674317 # 35184372088832;
              call_products := 2; call_platform := "jd" |};
           {| call_success := true; call_duration := 3514918771674317 # 35184372088832;
              call_products := 0; call_platform := "pdd" |};
           {| call_success := false; call_duration := 3514918771674317 # 35184372088832;
              call_products := 0; call_platform := "jd" |}])
     = Finite (7029837543348635 # 70368744177664).
Proof.
  cbv zeta. revert calls.
  assert (H : forall calls,
    let m := record_calls calls in
    MetricsCollector.searches_total m = Z.of_nat (length calls)
    /\ MetricsCollector.searches_success m = count_calls call_success calls
    /\ MetricsCollector.searches_failed m
       = count_calls (fun c => negb (call_success c)) calls
    /\ MetricsCollector.searches_total m
       = (MetricsCollector.searches_success m + MetricsCollector.searches_failed m)%Z
    /\ MetricsCollector.search_times m = map call_duration calls
    /\ MetricsCollector.products_found m = found_by calls
    /\ (MetricsCollector.platforms_queried m).*1 = ["jd"; "taobao"; "pdd"]
    /\ (forall p, registered p ->
          dict_get p (MetricsCollector.platforms_queried m)
          = Some (count_calls (fun c => String.eqb (call_platform c) p) calls))
    /\ (calls <> [] ->
        MetricsCollector.average_search_time m
        = float_div (MetricsCollector.sum_times (map call_duration calls))
            (round_double (inject_Z (Z.of_nat (length calls)))))).
  2:{ intros calls. destruct (H calls) as (H1 & H2 & H3 & H4 & H5 & H6 & H7 & H8 & H9).
      do 8 (split; [assumption|]). split; [exact H9|]. vm_compute. reflexivity. }
  intros calls. cbv zeta. unfold record_calls.
  induction calls as [|c calls IH] using rev_ind.
  { simpl. repeat split; try done.
    intros p Hp. unfold registered in Hp. set_unfold in Hp.
    destruct Hp as [->|[->|[->|[]]]]; reflexivity. }
  rewrite foldl_app. cbn [foldl]. set (m := foldl record_call _ calls) in *.
  destruct IH as (Htotal & Hsucc & Hfail & Hsplit & Htimes & Hfound & Hkeys & Hplat & _).
  unfold record_call, MetricsCollector.record_search.
  cbn [MetricsCollector.searches_total MetricsCollector.searches_success
       MetricsCollector.searches_failed MetricsCollector.products_found
       MetricsCollector.platforms_queried MetricsCollector.average_search_time
       MetricsCollector.search_times].
  unfold count_calls, found_by in *.
  rewrite !list_filter_snoc, !length_app.
  split; [simpl; lia|].
  split; [destruct (call_success c); simpl; lia|].
  split; [destruct (call_success c); simpl; lia|].
  split; [destruct (call_success c); simpl; lia|].
  split; [by rewrite Htimes, map_app|].
  split.
  { destruct (call_success c).
    - rewrite map_app. cbn [map]. rewrite foldr_add_snoc. lia.
    - rewrite app_nil_r. lia. }
  split.
  { destruct (dict_get (call_platform c) (MetricsCollector.platforms_queried m))
      as [n|] eqn:Hn; [|done].
    by rewrite (dict_set_keys_present _ _ n). }
  split.
  { intros p Hp. specialize (Hplat p Hp).
    rewrite list_filter_snoc, length_app.
    destruct (dict_get (call_platform c) (MetricsCollector.platforms_queried m))
      as [n|] eqn:Hn.
    - rewrite dict_get_set. destruct (decide (p = call_platform c)) as [->|Hne].
      + rewrite String.eqb_refl. simpl. rewrite Hn in Hplat. injection Hplat as ->.
        f_equal. lia.
      + rewrite Hplat. destruct (String.eqb_spec (call_platform c) p) as [Heq|_];
          [by destruct Hne|]. simpl. f_equal. lia.
    - rewrite Hplat. destruct (String.eqb_spec (call_platform c) p) as [Heq|_].
      + rewrite Heq, Hplat in Hn. done.
      + simpl. f_equal. lia. }
  intros _. unfold MetricsCollector.float_of_len.
  by rewrite Htimes, map_app, !length_app, length_map.
Qed.

(** X24.  The recording loop of [search] in main.py records the same
    search once per requested platform: the total grows by the number
    of platforms, and after a successful search the number of products
    found grows by the number of filtered products times the number of
    platforms. *)
Theorem record_platforms_counts (m : MetricsCollector.Metrics) (success : bool)
    (duration : Q) (products_count : Z) (platforms : list string) :
  let m' := MetricsCollector.record_platforms m success duration products_count
              platforms in
  MetricsCollector.searches_total m'
  = (MetricsCollector.searches_total m + Z.of_nat (length platforms))%Z
  /\ MetricsCollector.products_found m'
     = (MetricsCollector.products_found m
        + if success then Z.of_nat (length platforms) * products_count else 0)%Z
  /\ length (MetricsCollector.search_times m')
     = length (MetricsCollector.search_times m) + length platforms.
Proof.
  cbv zeta. unfold MetricsCollector.record_platforms. revert m.
  induction platforms as [|p platforms IH]; intros m.
  - simpl. split; [lia|]. split; [destruct success; lia | lia].
  - cbn [foldl]. destruct (IH (MetricsCollector.record_search m success duration
                                 products_count p)) as (H1 & H2 & H3).
    rewrite H1, H2, H3. cbn [MetricsCollector.record_search
      MetricsCollector.searches_total MetricsCollector.products_found
      MetricsCollector.search_times length]. rewrite length_app. simpl.
    split; [lia|]. split; [destruct success; lia | lia].
Qed.

(** * The further properties at concrete inputs *)

Section FurtherConcreteInputs.
#[local] Existing Instance ascii_text.

Lemma execute_success_counts_witness :
let task :=
  sample_filter_task
    [sample_product "b" (Some (VInt 20)) "jd"; sample_product "a" (Some (VInt 10)) "pdd";
     sample_product "a" (Some (VInt 10)) "jd"; sample_product "c" (Some (VStr "n/a")) "jd"]
    (Some (VInt 8999)) in
FilterAgent.status (FilterAgent.execute sample_float_repr task) = "success"
/\ exists filtered,
     FilterAgent.filtered_products (FilterAgent.execute sample_float_repr task)
     = Some filtered
     /\ FilterAgent.original_count (FilterAgent.execute sample_float_repr task)
        = Some (length (default [] (FilterAgent.products task)))
     /\ FilterAgent.filtered_count (FilterAgent.execute sample_float_repr task)
        = Some (length filtered)
     /\ filtered ⊆+ default [] (FilterAgent.products task)
     /\ length filtered <= length (default [] (FilterAgent.products task))
     /\ FilterAgent.error (FilterAgent.execute sample_float_repr task) = None.
Proof.
intros task. split; [reflexivity|].
apply (execute_success_counts sample_float_repr task). reflexivity.
Defined.



Lemma analyze_prices_bounds_witness :
let products :=
  [sample_product "c" (Some (VInt 30)) "jd";
   sample_product "a" (Some (VFloat (21 # 2))) "pdd";
   sample_product "b" None "jd"; sample_product "d" (Some (VInt 0)) "jd";
   sample_product "e" (Some (VInt 20)) "jd"] in
Forall numeric_price products
/\ positive_prices_of products <> []
/\ exists pa,
     PriceValidator.analyze_prices products = OK pa
     /\ (0 < value (PriceValidator.min pa))%Q
     /\ (value (PriceValidator.min pa) <= value (PriceValidator.max pa))%Q
     /\ exists m, PriceValidator.median pa = SValue m
                  /\ (value (PriceValidator.min pa) <= value m)%Q
                  /\ (value m <= value (PriceValidator.max pa))%Q.
Proof.
intros products.
assert (Hnum : Forall numeric_price products) by (repeat constructor; by eexists).
assert (Hne : positive_prices_of products <> []) by (vm_compute; discriminate).
split; [exact Hnum|]. split; [exact Hne|].
destruct (PriceValidator.analyze_prices products) as [pa|e] eqn:Hpa;
  [|vm_compute in Hpa; discriminate Hpa].
destruct (analyze_prices_bounds products pa Hnum Hne Hpa)
  as (Hmin & _ & Hle & Hmed & _).
exists pa. split; [reflexivity|]. split; [exact Hmin|]. split; [exact Hle|].
apply Hmed. vm_compute. reflexivity.
Defined.

Lemma analyze_prices_raises_witness :
let bad := sample_product "c" (Some (VStr "n/a")) "jd" in
let products := [sample_product "a" (Some (VInt 30)) "jd"; bad] in
bad ∈ products
/\ price bad = Some (VStr "n/a")
/\ as_num (VStr "n/a") = None
/\ PriceValidator.analyze_prices products = Raise TypeError.
Proof.
intros bad products.
assert (Hin : bad ∈ products) by (right; left).
split; [exact Hin|]. split; [reflexivity|]. split; [reflexivity|].
exact (analyze_prices_raises products bad (VStr "n/a") Hin eq_refl eq_refl).
Defined.

Lemma best_deals_prefix_of_filtered_witness :
let task :=
  sample_filter_task
    [sample_product "b" (Some (VInt 20)) "jd"; sample_product "a" (Some (VInt 10)) "pdd";
     sample_product "c" (Some (VInt 15)) "jd"] (Some (VInt 8999)) in
default "price" (FilterAgent.sort_by task) = "price"
/\ FilterAgent.status (FilterAgent.execute sample_float_repr task) = "success"
/\ exists filtered,
     FilterAgent.filtered_products (FilterAgent.execute sample_float_repr task)
     = Some filtered
     /\ FilterAgent.best_deals (FilterAgent.execute sample_float_repr task)
        = Some (take 5 filtered)
     /\ ascending price_key filtered.
Proof.
intros task. split; [reflexivity|]. split; [reflexivity|].
exact (best_deals_prefix_of_filtered sample_float_repr task eq_refl eq_refl).
Defined.



Lemma validate_product_match_accepts_witness :
let p := branded_product None (Some "  IPHONE 15 ") (Some (VInt 0)) in
text_agrees (product_brand p) (brand sample_criteria)
/\ text_agrees (product_model p) (model sample_criteria)
/\ price_allowed (max_price sample_criteria) p
/\ ProductExtractor.validate_product_match p sample_criteria = OK true.
Proof.
intros p.
assert (Hb : text_agrees (product_brand p) (brand sample_criteria)) by exact I.
assert (Hm : text_agrees (product_model p) (model sample_criteria)) by reflexivity.
assert (Hp : price_allowed (max_price sample_criteria) p).
{ exists (VInt 0), (inject_Z 0), (inject_Z 8999).
  split; [reflexivity|]. split; [reflexivity|]. split; [reflexivity|].
  unfold Qle; simpl; lia. }
split; [exact Hb|]. split; [exact Hm|]. split; [exact Hp|].
exact (validate_product_match_accepts p sample_criteria Hb Hm Hp).
Defined.

Lemma validate_product_match_bad_price_witness :
let p := branded_product (Some "Apple") None (Some (VStr "7,999 yuan")) in
text_agrees (product_brand p) (brand sample_criteria)
/\ text_agrees (product_model p) (model sample_criteria)
/\ max_price sample_criteria = Some (VInt 8999)
/\ as_num (VInt 8999) = Some (inject_Z 8999)
/\ price p = Some (VStr "7,999 yuan")
/\ as_num (VStr "7,999 yuan") = None
/\ ProductExtractor.validate_product_match p sample_criteria = Raise TypeError.
Proof.
intros p.
assert (Hb : text_agrees (product_brand p) (brand sample_criteria)) by reflexivity.
assert (Hm : text_agrees (product_model p) (model sample_criteria)) by exact I.
split; [exact Hb|]. split; [exact Hm|].
split; [reflexivity|]. split; [reflexivity|]. split; [reflexivity|].
split; [reflexivity|].
exact (validate_product_match_bad_price p sample_criteria (VInt 8999) (inject_Z 8999)
         (VStr "7,999 yuan") Hb Hm eq_refl eq_refl eq_refl eq_refl).
Defined.

Lemma sample_browser_counts_pages found :
counts_pages (sample_browser found) (fun w => w).
Proof.
unfold counts_pages. simpl.
split; [by intros w page w' [= _ <-]|]. split; [by intros w e w' [=]|].
split; [done|]. split; [done|]. split; [done|]. split; [done|]. split; [done|].
intros page [|n] w'; [by intros [=] | by intros [= <-]].
Qed.

Lemma search_agent_closes_page_witness :
let found := [branded_product (Some "Apple") (Some "iPhone 15") (Some (VInt 7999));
              branded_product (Some "Sony") (Some "Xperia") (Some (VInt 5999))] in
let task := {| CoordinatorAgent.sp_search_criteria := sample_criteria;
               CoordinatorAgent.sp_max_results := 10 |} in
counts_pages (sample_browser found) (fun w => w)
/\ SearchAgents.execute (sample_browser found) SearchAgents.jd_site task 0
   = (OK {| CoordinatorAgent.status := Some "success";
            CoordinatorAgent.platform := Some "jd";
            CoordinatorAgent.products :=
              Some [branded_product (Some "Apple") (Some "iPhone 15") (Some (VInt 7999))];
            CoordinatorAgent.count := Some 1%Z;
            CoordinatorAgent.error := None;
            CoordinatorAgent.agent := None |}, 0)
/\ 0 = 0.
Proof.
intros found task.
pose proof (sample_browser_counts_pages found) as Hc.
split; [exact Hc|]. split; [reflexivity|].
exact (search_agent_closes_page (sample_browser found) (fun w => w)
         SearchAgents.jd_site task 0 0 _ Hc eq_refl).
Defined.

Lemma search_agent_outcome_witness :
let bad := branded_product (Some "Apple") (Some "iPhone 15") (Some (VStr "7,999 yuan")) in
let found := [branded_product (Some "Apple") (Some "iPhone 15") (Some (VInt 7999)); bad] in
let task := {| CoordinatorAgent.sp_search_criteria := sample_criteria;
               CoordinatorAgent.sp_max_results := 10 |} in
extracts (sample_browser found) SearchAgents.pdd_site sample_criteria 0 tt found 1
/\ SearchAgents.page_close (sample_browser found) tt 1 = (OK tt, 0)
/\ bad ∈ py_take 10 found
/\ ProductExtractor.validate_product_match bad sample_criteria = Raise TypeError
/\ SearchAgents.execute (sample_browser found) SearchAgents.pdd_site task 0
   = (OK (SearchAgents.failure SearchAgents.pdd_site TypeError), 0).
Proof.
intros bad found task.
assert (Hex : extracts (sample_browser found) SearchAgents.pdd_site sample_criteria
                0 tt found 1).
{ exists 1, 1, "<html></html>", 1. repeat split; reflexivity. }
assert (Hin : bad ∈ py_take 10 found) by (right; left).
split; [exact Hex|]. split; [reflexivity|]. split; [exact Hin|].
split; [reflexivity|].
exact (proj2 (search_agent_outcome (sample_browser found) SearchAgents.pdd_site task
                0 1 0 tt found Hex eq_refl) bad Hin eq_refl).
Defined.

Lemma add_search_round_trip_witness :
let added :=
  SearchHistory.add_search sample_history "20240104_100000_000001"
    "2024-01-04T10:00:00" sample_criteria sample_error_result (Some "s1") in
SearchHistory.get_search_by_id sample_history added.1 = None
/\ exists r, SearchHistory.get_search_by_id added.2 added.1 = Some r
             /\ SearchHistory.status r = "error"
             /\ SearchHistory.best_price (SearchHistory.summary r) = None.
Proof.
intros added. split; [reflexivity|].
destruct (proj1 (proj2 (add_search_round_trip sample_history "20240104_100000_000001"
                          "2024-01-04T10:00:00" sample_criteria sample_error_result
                          (Some "s1") eq_refl)))
  as (r & Hr & _ & _ & _ & _ & Hst & Hbp).
exists r. split; [exact Hr|]. split; [exact Hst | exact Hbp].
Defined.

Lemma recorded_best_price_is_least_witness :
let result :=
  (CoordinatorAgent.execute sample_float_repr sample_coordinator [0; 0]
     (sample_coordinator_task ["jd"; "pdd"] false) tt).1 in
let record :=
  SearchHistory.new_record "20240104_100000_000001" "2024-01-04T10:00:00"
    sample_criteria result (Some "s1") in
SearchHistory.best_price (SearchHistory.summary record) = Some (VInt 6999)
/\ number (VInt 6999).
Proof.
intros result record.
assert (H : SearchHistory.best_price (SearchHistory.summary record) = Some (VInt 6999))
  by reflexivity.
split; [exact H|].
exact (proj1 (recorded_best_price_is_least sample_float_repr sample_coordinator [0; 0]
                (sample_coordinator_task ["jd"; "pdd"] false) tt
                "20240104_100000_000001" "2024-01-04T10:00:00" sample_criteria
                (Some "s1") (VInt 6999) H)).
Defined.

Lemma clear_history_spec_witness :
text_given (Some "s1") = true
/\ SearchHistory.get_history
     (SearchHistory.clear_history sample_history (Some "s2")) (Some "s1") 10
   = SearchHistory.get_history sample_history (Some "s1") 10.
Proof.
split; [reflexivity|].
exact (clear_history_spec sample_history (Some "s2") (Some "s1") 10 eq_refl).
Defined.

Lemma session_counts_its_searches_witness :
let m := (SessionManager.create_session empty_manager "2024-01-04T10:00:00"
            "2024-01-04T10:00:00" "s1" None).2 in
let calls := [IncrementSearchCount "s1"; GetSession "2024-01-04T10:05:00" "s1";
              IncrementSearchCount "s2"; IncrementSearchCount "s1";
              DeleteSession "s2"] in
Forall (fun c => ~ begins_or_ends "s1" c) calls
/\ match SessionManager.sessions m !! "s1" with
   | Some s =>
       exists s',
         SessionManager.sessions (perform_all m calls) !! "s1" = Some s'
         /\ SessionManager.search_count s'
            = (SessionManager.search_count s + increments "s1" calls)%Z
         /\ SessionManager.id s' = SessionManager.id s
         /\ SessionManager.created_at s' = SessionManager.created_at s
   | None => SessionManager.sessions (perform_all m calls) !! "s1" = None
   end.
Proof.
intros m calls.
assert (Hcalls : Forall (fun c => ~ begins_or_ends "s1" c) calls).
{ repeat constructor; simpl; try tauto. discriminate. }
split; [exact Hcalls|].
exact (session_counts_its_searches m "s1" calls Hcalls).
Defined.

End FurtherConcreteInputs.
